(** * The booking data-access facade (src/api.ts) over a model of its backend

    Every operation of [api] is a short sequence of awaited calls on the
    remote client.  The embedding has these layers:

    - [Js]: the JavaScript values, numbers being the doubles, and the
      coercions and operators the source relies on ([Number], [String],
      [Boolean], [||], [+], [-], [>], [parseInt]);
    - [Supabase]: the table store behind the client, the replies it gives
      (a request is either served or fails), and the world the operations
      run in;
    - [Api]: the operations themselves, one definition per source function,
      in a state-and-exception monad over the world;
    - [Queries] and [Operations]: the further requests (delete, upsert,
      ordered and embedded reads) and the operations that make them. *)

From Stdlib Require Import ZArith String Ascii List Bool Lia.
From Stdlib Require Import DecimalString.
From stdpp Require Import base option list gmap strings sorting.

Local Open Scope string_scope.
Local Open Scope Z_scope.

(* ===================================================================== *)
(** * JavaScript values *)
(* ===================================================================== *)

Module Js.

(** Numbers are the IEEE 754 doubles.  A finite double is an integer or a
    dyadic fraction, kept in lowest terms so that equal numbers are equal
    terms; [Int z] is a number of the program when [z] is a double, as
    every result of the operations below is.  The two zeros are one value
    here: [String], [JSON.stringify], [||], [+], [-] and [>], which are
    what the module applies to numbers, treat them alike. *)
Inductive num :=
  | NaN
  | Int (z : Z)                   (* the integer z *)
  | Frac (m : Z) (k : positive)   (* m / 2^k with m odd: no integer *)
  | PosInf
  | NegInf.

(** The primitive values that travel between the store and the module. *)
Inductive JsVal :=
  | VUndef
  | VNull
  | VBool (b : bool)
  | VNum (n : num)
  | VStr (s : string).

#[global] Instance num_eq_dec : EqDecision num.
Proof. solve_decision. Defined.

#[global] Instance JsVal_eq_dec : EqDecision JsVal.
Proof. solve_decision. Defined.

(** ** Rounding to a double *)

(** The integer nearest to n/d, the even one of two equally near. *)
Definition round_half_even (n d : Z) : Z :=
  let q := n / d in
  let r := n mod d in
  if (2 * r <? d) || ((2 * r =? d) && Z.even q) then q else q + 1.

(** m / 2^k in lowest terms. *)
Fixpoint lowest_terms (m : positive) (k : nat) {struct k} : num :=
  match k with
  | O => Int (Zpos m)
  | S k' =>
      match m with
      | xO m' => lowest_terms m' k'
      | _ => Frac (Zpos m) (Pos.of_nat k)
      end
  end.

Definition num_opp (n : num) : num :=
  match n with
  | NaN => NaN
  | Int z => Int (- z)
  | Frac m k => Frac (- m) k
  | PosInf => NegInf
  | NegInf => PosInf
  end.

(** The double nearest to the rational n/d, for n and d positive: with
    2^e <= n/d < 2^(e+1), a multiple of 2^(e-52), or of 2^(-1074) for a
    subnormal; halfway cases go to the even multiple, and what reaches
    2^1024 is infinite. *)
Definition nearest (n d : Z) : num :=
  let e0 := Z.log2 n - Z.log2 d in
  let below := if 0 <=? e0 then n <? d * 2 ^ e0 else n * 2 ^ (- e0) <? d in
  let e := if below then e0 - 1 else e0 in
  let u := Z.max (e - 52) (-1074) in
  let q := if 0 <=? u then round_half_even n (d * 2 ^ u)
           else round_half_even (n * 2 ^ (- u)) d in
  if q =? 0 then Int 0
  else if 0 <=? u
       then (if 2 ^ 1024 <=? q * 2 ^ u then PosInf else Int (q * 2 ^ u))
       else lowest_terms (Z.to_pos q) (Z.to_nat (- u)).

Definition round_ratio (n d : Z) : num :=
  if n =? 0 then Int 0
  else if n <? 0 then num_opp (nearest (- n) d)
  else nearest n d.

(** The double nearest to an integer: itself up to 2^53. *)
Definition round_int (z : Z) : num :=
  if Z.abs z <=? 2 ^ 53 then Int z else round_ratio z 1.

(** A finite number is [mant / 2^scale]. *)
Definition mant (n : num) : Z :=
  match n with Int z => z | Frac m _ => m | _ => 0 end.

Definition scale (n : num) : Z :=
  match n with Frac _ k => Zpos k | _ => 0 end.

(** ** Characters *)

Definition quote_char : ascii := ascii_of_nat 34.

Definition byte_is (c : ascii) (n : nat) : bool := Nat.eqb (nat_of_ascii c) n.

(** A string is the sequence of its UTF-8 bytes.  White space and line
    terminators: TAB, LF, VT, FF, CR, SP and, in more than one byte,
    U+00A0, U+1680, U+2000 to U+200A, U+2028, U+2029, U+202F, U+205F,
    U+3000 and U+FEFF.  [skip_space s] is what follows one such character
    at the start of [s]. *)
Definition is_space (c : ascii) : bool :=
  (byte_is c 32 || byte_is c 9 || byte_is c 10 || byte_is c 11
   || byte_is c 12 || byte_is c 13)%bool.

Definition skip_space (s : string) : option string :=
  match s with
  | String c r =>
      if is_space c then Some r
      else
        match r with
        | String c1 r1 =>
            if byte_is c 194 && byte_is c1 160 then Some r1
            else
              match r1 with
              | String c2 r2 =>
                  let n2 := nat_of_ascii c2 in
                  if (byte_is c 225 && byte_is c1 154 && byte_is c2 128)
                     || (byte_is c 226 && byte_is c1 128
                         && ((Nat.leb 128 n2 && Nat.leb n2 138)
                             || byte_is c2 168 || byte_is c2 169 || byte_is c2 175))
                     || (byte_is c 226 && byte_is c1 129 && byte_is c2 159)
                     || (byte_is c 227 && byte_is c1 128 && byte_is c2 128)
                     || (byte_is c 239 && byte_is c1 187 && byte_is c2 191)
                  then Some r2 else None
              | EmptyString => None
              end
        | EmptyString => None
        end
  | EmptyString => None
  end.

Fixpoint skip_spaces (fuel : nat) (s : string) : string :=
  match fuel with
  | O => s
  | S fuel' =>
      match skip_space s with
      | Some r => skip_spaces fuel' r
      | None => s
      end
  end.

Definition trim_start (s : string) : string := skip_spaces (String.length s) s.

Definition all_space (s : string) : bool := String.eqb (trim_start s) EmptyString.

Fixpoint trim_end (s : string) : string :=
  if all_space s then EmptyString
  else match s with
       | String c r => String c (trim_end r)
       | EmptyString => EmptyString
       end.

Definition trim (s : string) : string := trim_end (trim_start s).

(** Value of a character as a digit, up to base 36. *)
Definition digit_of (c : ascii) : option Z :=
  let n := Z.of_nat (nat_of_ascii c) in
  if (48 <=? n) && (n <=? 57) then Some (n - 48)
  else if (97 <=? n) && (n <=? 122) then Some (n - 87)
  else if (65 <=? n) && (n <=? 90) then Some (n - 55)
  else None.

(** The longest prefix of [s] made of digits of the radix, most
    significant first. *)
Fixpoint digits_prefix (radix : Z) (s : string) : list Z :=
  match s with
  | String c r =>
      match digit_of c with
      | Some d => if d <? radix then d :: digits_prefix radix r else []
      | None => []
      end
  | EmptyString => []
  end.

Definition digits_value (radix : Z) (ds : list Z) : Z :=
  fold_left (fun acc d => acc * radix + d) ds 0.

Definition all_digits (radix : Z) (s : string) : bool :=
  Nat.eqb (List.length (digits_prefix radix s)) (String.length s).

(** What follows the digits of the radix at the start of [s]. *)
Fixpoint after_digits (radix : Z) (s : string) : string :=
  match s with
  | String c r =>
      match digit_of c with
      | Some d => if d <? radix then after_digits radix r else s
      | None => s
      end
  | EmptyString => s
  end.

(** The digits after a prefix [0x], [0o] or [0b], in either case of the
    letter, with their radix. *)
Definition radix_prefixed (s : string) : option (Z * string) :=
  match s with
  | String c0 (String cx r) =>
      if Ascii.eqb c0 "0"
      then if Ascii.eqb cx "x" || Ascii.eqb cx "X" then Some (16, r)
           else if Ascii.eqb cx "o" || Ascii.eqb cx "O" then Some (8, r)
           else if Ascii.eqb cx "b" || Ascii.eqb cx "B" then Some (2, r)
           else None
      else None
  | _ => None
  end.

Definition hex_prefixed (s : string) : option string :=
  match radix_prefixed s with
  | Some (16, r) => Some r
  | _ => None
  end.

(** ** Coercions *)

(** The number of a decimal literal [digits * 10^exponent].  A literal
    whose value is beyond every double, or below every positive one, is
    settled by its size alone. *)
Definition decimal_value (digits exponent : Z) : num :=
  if digits =? 0 then Int 0
  else
    let size := Z.log2 digits / 3 + exponent in
    if 400 <? exponent then PosInf
    else if size <? -400 then Int 0
    else if 0 <=? exponent then round_int (digits * 10 ^ exponent)
    else round_ratio digits (10 ^ (- exponent)).

(** An exponent part: [e] or [E], an optional sign, digits to the end. *)
Definition exponent_part (s : string) : option Z :=
  match s with
  | EmptyString => Some 0
  | String c r =>
      if Ascii.eqb c "e" || Ascii.eqb c "E"
      then
        let '(sign, ds) :=
          match r with
          | String c1 r1 =>
              if Ascii.eqb c1 "-" then (-1, r1)
              else if Ascii.eqb c1 "+" then (1, r1) else (1, r)
          | EmptyString => (1, r)
          end in
        if negb (String.eqb ds EmptyString) && all_digits 10 ds
        then Some (sign * digits_value 10 (digits_prefix 10 ds))
        else None
      else None
  end.

(** An unsigned decimal literal: [Infinity], or digits with an optional
    fraction and an optional exponent, at least one digit before or after
    the point. *)
Definition unsigned_decimal (s : string) : num :=
  if String.eqb s "Infinity" then PosInf
  else
    let ip := digits_prefix 10 s in
    let r1 := after_digits 10 s in
    let '(fp, r2) :=
      match r1 with
      | String c r =>
          if Ascii.eqb c "." then (digits_prefix 10 r, after_digits 10 r)
          else ([], r1)
      | EmptyString => ([], r1)
      end in
    match ip, fp with
    | [], [] => NaN
    | _, _ =>
        match exponent_part r2 with
        | Some e =>
            decimal_value (digits_value 10 (ip ++ fp)) (e - Z.of_nat (List.length fp))
        | None => NaN
        end
    end.

(** [Number(s)] on a string: surrounding white space is dropped, the empty
    string is 0, a literal with a radix prefix or a signed decimal literal
    is the double nearest to its value, and a string that is no numeric
    literal is NaN. *)
Definition StringToNumber (s : string) : num :=
  let t := trim s in
  match t with
  | EmptyString => Int 0
  | String c r =>
      match radix_prefixed t with
      | Some (radix, h) =>
          if negb (String.eqb h EmptyString) && all_digits radix h
          then round_int (digits_value radix (digits_prefix radix h)) else NaN
      | None =>
          if Ascii.eqb c "+" then unsigned_decimal r
          else if Ascii.eqb c "-" then num_opp (unsigned_decimal r)
          else unsigned_decimal t
      end
  end.

Definition ToNumber (v : JsVal) : num :=
  match v with
  | VUndef => NaN
  | VNull => Int 0
  | VBool b => Int (if b then 1 else 0)
  | VNum n => n
  | VStr s => StringToNumber s
  end.

(** *** Printing a number *)

Definition digits_string (z : Z) : string := NilZero.string_of_uint (N.to_uint (Z.to_N z)).

(** Is n/d at least 10^p? *)
Definition at_least_pow10 (n d p : Z) : bool :=
  if 0 <=? p then d * 10 ^ p <=? n else d <=? n * 10 ^ (- p).

(** The least p from [p] on with n/d < 10^p. *)
Fixpoint point_from (fuel : nat) (n d p : Z) : Z :=
  match fuel with
  | O => p
  | S fuel' => if at_least_pow10 n d p then point_from fuel' n d (p + 1) else p
  end.

(** The p with 10^(p-1) <= n/d < 10^p: the position of the decimal point
    after the first significant digit of n/d. *)
Definition decimal_point (n d : Z) : Z :=
  point_from 8 n d ((Z.log2 n - Z.log2 d - 1) * 30103 / 100000 - 1).

(** The k-digit candidates for n/d, whose point stands at p: the integers
    s next to (n/d) / 10^(p-k), those of them that denote the double [x],
    and of two the nearer one, the even one when equally near. *)
Definition candidate (x : num) (n d p k : Z) : option Z :=
  let '(a, b) := if 0 <=? p - k then (n, d * 10 ^ (p - k)) else (n * 10 ^ (k - p), d) in
  let lo := a / b in
  let hi := lo + 1 in
  let denotes s :=
    bool_decide ((if 0 <=? p - k then round_ratio (s * 10 ^ (p - k)) 1
                  else round_ratio s (10 ^ (k - p))) = x) in
  match denotes lo, denotes hi with
  | true, true =>
      let el := a - lo * b in
      let eh := hi * b - a in
      if el <? eh then Some lo
      else if eh <? el then Some hi
      else if Z.even lo then Some lo else Some hi
  | true, false => Some lo
  | false, true => Some hi
  | false, false => None
  end.

(** The shortest digits that denote [x]: the first of 1, 2, ... 16 digits
    that do, and otherwise the 17 digits nearest to n/d, which always
    do. *)
Fixpoint shortest (fuel : nat) (x : num) (n d p k : Z) : Z * Z :=
  match fuel with
  | O =>
      (if 0 <=? p - 17 then round_half_even n (d * 10 ^ (p - 17))
       else round_half_even (n * 10 ^ (17 - p)) d, 17)
  | S fuel' =>
      match candidate x n d p k with
      | Some s => (s, k)
      | None => shortest fuel' x n d p (k + 1)
      end
  end.

Fixpoint zeros (n : nat) : string :=
  match n with O => EmptyString | S n' => String "0" (zeros n') end.

Fixpoint strip_zeros_rev (l : list ascii) : list ascii :=
  match l with
  | c :: l' => if Ascii.eqb c "0" then strip_zeros_rev l' else l
  | [] => []
  end.

Definition strip_trailing_zeros (s : string) : string :=
  string_of_list_ascii (rev (strip_zeros_rev (rev (list_ascii_of_string s)))).

(** The text of the positive number n/d that is the double [x]: the
    shortest digits, written out with the point at its place when that
    lies between 10^-7 and 10^21, and with an exponent otherwise. *)
Definition positive_string (x : num) (n d : Z) : string :=
  let p := decimal_point n d in
  let '(s, k) := shortest 16 x n d p 1 in
  let p := if s =? 10 ^ k then p + 1 else p in
  let ds := strip_trailing_zeros (digits_string s) in
  let k := Z.of_nat (String.length ds) in
  if (k <=? p) && (p <=? 21) then ds +:+ zeros (Z.to_nat (p - k))
  else if (0 <? p) && (p <=? 21)
  then substring 0 (Z.to_nat p) ds +:+ "." +:+ substring (Z.to_nat p) (Z.to_nat (k - p)) ds
  else if (-6 <? p) && (p <=? 0) then "0." +:+ zeros (Z.to_nat (- p)) +:+ ds
  else
    let e := p - 1 in
    let exponent := (if e <? 0 then "-" else "+") +:+ digits_string (Z.abs e) in
    if k =? 1 then ds +:+ "e" +:+ exponent
    else substring 0 1 ds +:+ "." +:+ substring 1 (Z.to_nat (k - 1)) ds +:+ "e" +:+ exponent.

Definition finite_string (x : num) : string :=
  let n := mant x in
  let d := 2 ^ scale x in
  if n =? 0 then "0"
  else if n <? 0 then "-" +:+ positive_string (num_opp x) (- n) d
  else positive_string x n d.

Definition NumberToString (n : num) : string :=
  match n with
  | NaN => "NaN"
  | PosInf => "Infinity"
  | NegInf => "-Infinity"
  | Int z =>
      if Z.abs z <=? 2 ^ 53 then NilZero.string_of_int (Z.to_int z)
      else finite_string n
  | Frac _ _ => finite_string n
  end.

Definition ToString (v : JsVal) : string :=
  match v with
  | VUndef => "undefined"
  | VNull => "null"
  | VBool b => if b then "true" else "false"
  | VNum n => NumberToString n
  | VStr s => s
  end.

Definition ToBoolean (v : JsVal) : bool :=
  match v with
  | VUndef | VNull => false
  | VBool b => b
  | VNum NaN => false
  | VNum (Int z) => negb (z =? 0)
  | VNum _ => true
  | VStr s => negb (String.eqb s EmptyString)
  end.

(** The conversion functions called as functions. *)
Definition Number (v : JsVal) : JsVal := VNum (ToNumber v).
Definition String_ (v : JsVal) : JsVal := VStr (ToString v).
Definition Boolean (v : JsVal) : JsVal := VBool (ToBoolean v).

(** [parseInt(v)] without a radix: leading white space, a sign, an
    optional 0x prefix, then the longest run of digits; NaN when that run
    is empty, and the double nearest to the integer otherwise. *)
Definition parseInt (v : JsVal) : JsVal :=
  let s := trim_start (ToString v) in
  let '(sign, s) :=
    match s with
    | String c r =>
        if Ascii.eqb c "-" then (-1, r)
        else if Ascii.eqb c "+" then (1, r) else (1, s)
    | EmptyString => (1, s)
    end in
  let '(radix, s) :=
    match hex_prefixed s with
    | Some h => (16, h)
    | None => (10, s)
    end in
  match digits_prefix radix s with
  | [] => VNum NaN
  | ds => VNum (round_int (sign * digits_value radix ds))
  end.

(** ** Operators *)

(** [a || b] *)
Definition logical_or (a b : JsVal) : JsVal := if ToBoolean a then a else b.

(** The sum of two doubles: the exact sum, rounded. *)
Definition num_add (a b : num) : num :=
  match a, b with
  | NaN, _ | _, NaN => NaN
  | PosInf, NegInf | NegInf, PosInf => NaN
  | PosInf, _ | _, PosInf => PosInf
  | NegInf, _ | _, NegInf => NegInf
  | Int x, Int y => round_int (x + y)
  | _, _ =>
      round_ratio (mant a * 2 ^ scale b + mant b * 2 ^ scale a) (2 ^ (scale a + scale b))
  end.

Definition num_sub (a b : num) : num :=
  match a, b with
  | Int x, Int y => round_int (x - y)
  | _, _ => num_add a (num_opp b)
  end.

(** [a < b] on numbers; false as soon as one is NaN. *)
Definition num_lt (a b : num) : bool :=
  match a, b with
  | NaN, _ | _, NaN => false
  | Int x, Int y => x <? y
  | PosInf, _ | _, NegInf => false
  | NegInf, _ | _, PosInf => true
  | _, _ => mant a * 2 ^ scale b <? mant b * 2 ^ scale a
  end.

(** [a + b]: concatenation as soon as one side is a string. *)
Definition add (a b : JsVal) : JsVal :=
  match a, b with
  | VStr _, _ | _, VStr _ => VStr (ToString a +:+ ToString b)
  | _, _ => VNum (num_add (ToNumber a) (ToNumber b))
  end.

(** [a - b] *)
Definition sub (a b : JsVal) : JsVal := VNum (num_sub (ToNumber a) (ToNumber b)).

(** [a > b]: two strings compare as strings (here by their bytes, which
    is the order of their code units as long as no character lies beyond
    the basic plane), anything else as numbers, and a comparison with NaN
    is false. *)
Definition gt (a b : JsVal) : bool :=
  match a, b with
  | VStr x, VStr y => String.ltb y x
  | _, _ => num_lt (ToNumber b) (ToNumber a)
  end.

(** [s.replace(/c/g, '')] for a single character [c]. *)
Fixpoint remove_char (c : ascii) (s : string) : string :=
  match s with
  | String a r => if Ascii.eqb a c then remove_char c r else String a (remove_char c r)
  | EmptyString => EmptyString
  end.

Fixpoint has_char (c : ascii) (s : string) : bool :=
  match s with
  | String a r => Ascii.eqb a c || has_char c r
  | EmptyString => false
  end.

End Js.

Import Js.

(* ===================================================================== *)
(** * The remote backend *)
(* ===================================================================== *)

(** The client [supabase] is imported from [./supabase]; behind it stands
    the managed backend of section 6 of the specification: per-table
    select, insert and update with equality filters, single-row reads, and
    the authenticated session.  This module models both. *)

Module Supabase.

(** A row is a JSON object: column name to value.  A table is the list of
    its rows in storage order, and a column holds a value as it was sent. *)
Abbreviation Row := (gmap string JsVal).

(** An object literal; a later property of the same name wins. *)
Definition obj (fields : list (string * JsVal)) : Row :=
  fold_left (fun o kv => <[kv.1 := kv.2]> o) fields ∅.

(** [o.k]: a missing property reads as undefined. *)
Definition get (o : Row) (k : string) : JsVal := default VUndef (o !! k).

(** The error object of the client. *)
Record PgError := { message : string; code : string }.

#[global] Instance PgError_eq_dec : EqDecision PgError.
Proof. solve_decision. Defined.

(** What an awaited request destructures: [{ data, error }]. *)
Record Response (A : Type) := { data : option A; error : option PgError }.
Arguments data {A} _.
Arguments error {A} _.
Arguments Build_Response {A} _ _.

(** How the backend meets one request: it serves it, supplying the values
    its column defaults generate for an inserted row, or the request fails
    (network, access policy, constraint violation) and nothing is changed. *)
Inductive Reply :=
  | Served (gen : Row)
  | Failed (e : PgError).

Inductive Level := LWarn | LError.

Record LogLine := { level : Level; text : string; detail : option PgError }.

Record World := {
  tables : gmap string (list Row);
  session : option string;     (* id of the authenticated identity, if any *)
  wire : list Reply;           (* the replies to the coming requests; served once exhausted *)
  console : list LogLine
}.

Definition set_tables (t : gmap string (list Row)) (w : World) : World :=
  {| tables := t; session := session w;
     wire := wire w; console := console w |}.

Definition set_wire (l : list Reply) (w : World) : World :=
  {| tables := tables w; session := session w;
     wire := l; console := console w |}.

Definition set_console (c : list LogLine) (w : World) : World :=
  {| tables := tables w; session := session w;
     wire := wire w; console := c |}.

Definition table (w : World) (t : string) : list Row := default [] (tables w !! t).

(** ** Promises *)

Inductive Exn :=
  | JsError (msg : string)     (* [new Error(msg)] and run-time type errors *)
  | Remote (e : PgError).      (* [throw error] of a response *)

Inductive Outcome (A : Type) :=
  | Resolved (a : A)
  | Rejected (e : Exn).
Arguments Resolved {A} _.
Arguments Rejected {A} _.

Definition Async (A : Type) : Type := World -> Outcome A * World.

Definition ret {A} (a : A) : Async A := fun w => (Resolved a, w).

Definition throw {A} (e : Exn) : Async A := fun w => (Rejected e, w).

Definition bind {A B} (m : Async A) (k : A -> Async B) : Async B :=
  fun w =>
    match m w with
    | (Resolved a, w') => k a w'
    | (Rejected e, w') => (Rejected e, w')
    end.

Declare Scope async_scope.
Delimit Scope async_scope with async.
Notation "x <- m ;; k" := (bind m (fun x => k))
  (at level 100, m at next level, right associativity) : async_scope.
Notation "m ;; k" := (bind m (fun _ => k))
  (at level 100, right associativity) : async_scope.
Local Open Scope async_scope.

Definition log (l : Level) (s : string) (d : option PgError) : Async unit :=
  fun w =>
    (Resolved tt,
     set_console (console w ++ [{| level := l; text := s; detail := d |}])%list w).

(** Reading a property of [data] when it is null is a type error. *)
Definition deref {A} (d : option A) : Async A :=
  match d with
  | Some a => ret a
  | None => throw (JsError "TypeError: Cannot read properties of null")
  end.

(** ** Requests *)

Definition next_reply (w : World) : Reply * World :=
  match wire w with
  | r :: rest => (r, set_wire rest w)
  | [] => (Served ∅, w)
  end.

(** [.eq(column, value)]: the stored value, as text, is the given one; a
    null never matches. *)
Definition eq_holds (r : Row) (f : string * string) : bool :=
  match r !! f.1 with
  | Some VNull | Some VUndef | None => false
  | Some v => String.eqb (ToString v) f.2
  end.

Definition matches (fs : list (string * string)) (r : Row) : bool :=
  forallb (eq_holds r) fs.

Inductive Cols := Star | Only (cs : list string).

Definition project (c : Cols) (r : Row) : Row :=
  match c with
  | Star => r
  | Only cs => filter (fun kv => kv.1 ∈ cs) r
  end.

(** Modelled from the spec: the client's [from(t).select(c).eq(..)...],
    a read of the rows of a table that meet every filter. *)
Definition select (t : string) (c : Cols) (fs : list (string * string))
  : Async (Response (list Row)) :=
  fun w =>
    match next_reply w with
    | (Failed e, w') => (Resolved {| data := None; error := Some e |}, w')
    | (Served _, w') =>
        (Resolved {| data := Some (project c <$> List.filter (matches fs) (table w' t));
                     error := None |}, w')
    end.

Definition not_single : PgError :=
  {| message := "JSON object requested, multiple (or no) rows returned";
     code := "PGRST116" |}.

(** Modelled from the spec: the client's [.single()], exactly one row or
    an error (so that a lookup that finds nothing reports an error and no
    data). *)
Definition single (q : Async (Response (list Row))) : Async (Response Row) :=
  r <- q ;;
  match error r, data r with
  | Some e, _ => ret {| data := None; error := Some e |}
  | None, Some [row] => ret {| data := Some row; error := None |}
  | None, _ => ret {| data := None; error := Some not_single |}
  end.

(** [JSON.stringify] of a value inside an object: a number that is not
    finite is written as null. *)
Definition json_of (v : JsVal) : JsVal :=
  match v with
  | VNum NaN | VNum PosInf | VNum NegInf => VNull
  | _ => v
  end.

(** The request body: undefined properties are dropped. *)
Definition to_json (o : Row) : Row :=
  json_of <$> filter (fun kv => kv.2 ≠ VUndef) o.

(** Modelled from the spec: the client's [from(t).insert(o)]; the new row
    is what was sent, completed by the generated defaults, appended to the
    table. *)
Definition insert (t : string) (o : Row) : Async (Response unit) :=
  fun w =>
    match next_reply w with
    | (Failed e, w') => (Resolved {| data := None; error := Some e |}, w')
    | (Served gen, w') =>
        (Resolved {| data := None; error := None |},
         set_tables (<[t := (table w' t ++ [to_json o ∪ gen])%list]> (tables w')) w')
    end.

(** Modelled from the spec: the client's [from(t).update(o).eq(..)...];
    every matching row takes the sent values and keeps its other
    columns. *)
Definition update (t : string) (o : Row) (fs : list (string * string))
  : Async (Response unit) :=
  fun w =>
    match next_reply w with
    | (Failed e, w') => (Resolved {| data := None; error := Some e |}, w')
    | (Served _, w') =>
        (Resolved {| data := None; error := None |},
         set_tables
           (<[t := (fun r => if matches fs r then to_json o ∪ r else r) <$> table w' t]>
              (tables w')) w')
    end.

(** Modelled from the spec: the client's [auth.getUser()], the
    authenticated identity, null when there is none or the request
    fails. *)
Definition auth_getUser : Async (option string) :=
  fun w =>
    match next_reply w with
    | (Failed e, w') => (Resolved None, w')
    | (Served _, w') => (Resolved (session w'), w')
    end.

End Supabase.

Import Supabase.
Local Open Scope async_scope.

(* ===================================================================== *)
(** * The facade: src/api.ts *)
(* ===================================================================== *)

Module Api.

(** Modelled from the spec: the entity types of [../types], which the
    module imports; the fields are those of section 3 of the
    specification, each holding whatever value the row supplied. *)
Module User.
Record t := {
  id : JsVal; email : JsVal; name : JsVal; role : JsVal;
  avatarUrl : JsVal; packageCredits : JsVal
}.
End User.

Module ClassType.
Record t := {
  id : JsVal; name : JsVal; description : JsVal; durationMinutes : JsVal;
  priceSingle : JsVal; pricePackage : JsVal; difficulty : JsVal; capacity : JsVal
}.
End ClassType.

Module Package.
Record t := { id : JsVal; name : JsVal; credits : JsVal; price : JsVal; active : JsVal }.
End Package.

Module Availability.
Record t := {
  id : JsVal; instructorId : JsVal; dayOfWeek : JsVal;
  startTime : JsVal; endTime : JsVal
}.
End Availability.

Module Settings.
Record t := {
  poolCapacity : JsVal; cancellationHours : JsVal;
  maintenanceMode : JsVal; contactEmail : JsVal
}.
End Settings.

(** [if (error) throw error;] *)
Definition throw_if_error {A} (r : Response A) : Async unit :=
  match error r with
  | Some e => throw (Remote e)
  | None => ret tt
  end.

(** The object every profile read builds. *)
Definition user_of_profile (p : Row) : User.t :=
  {| User.id := get p "id";
     User.email := get p "email";
     User.name := get p "full_name";
     User.role := get p "role";
     User.avatarUrl := get p "avatar_url";
     User.packageCredits := get p "package_credits" |}.

(** ** Users *)

Definition getUserById (id : string) : Async (option User.t) :=
  r <- single (select "profiles" Star [("id", id)]) ;;
  match error r with
  | Some _ => ret None
  | None => p <- deref (data r) ;; ret (Some (user_of_profile p))
  end.

Definition createUser (user : User.t) : Async unit :=
  log LWarn "Creating users via Admin portal requires Supabase Admin API. Skipping Auth creation." None ;;
  throw (JsError "Admin user creation requires backend function").

Definition deleteUser (id : string) : Async unit :=
  log LWarn "Deleting users requires Admin API" None.

(** ** Authentication *)

Definition getCurrentUser : Async (option User.t) :=
  user <- auth_getUser ;;
  match user with
  | None => ret None
  | Some uid =>
      r <- single (select "profiles" Star [("id", uid)]) ;;
      match error r with
      | Some e => log LError "Error fetching profile:" (Some e) ;; ret None
      | None => profile <- deref (data r) ;; ret (Some (user_of_profile profile))
      end
  end.

(** ** Classes *)

Definition class_of_row (c : Row) : ClassType.t :=
  {| ClassType.id := get c "id";
     ClassType.name := get c "name";
     ClassType.description := get c "description";
     ClassType.durationMinutes := get c "duration_minutes";
     ClassType.priceSingle := get c "price";
     ClassType.pricePackage := get c "price";
     ClassType.difficulty := VStr "Beginner";
     ClassType.capacity := get c "capacity" |}.

Definition getClasses : Async (list ClassType.t) :=
  r <- select "class_types" Star [] ;;
  throw_if_error r ;;
  rows <- deref (data r) ;;
  ret (class_of_row <$> rows).

Definition createClass_body (cls : ClassType.t) : Row :=
  obj [("name", ClassType.name cls);
       ("description", ClassType.description cls);
       ("duration_minutes", ClassType.durationMinutes cls);
       ("capacity", logical_or (ClassType.capacity cls) (VNum (Int 10)));
       ("price", ClassType.priceSingle cls)].

Definition createClass (cls : ClassType.t) : Async unit :=
  r <- insert "class_types" (createClass_body cls) ;;
  throw_if_error r.

Definition updateClass_body (cls : ClassType.t) : Row :=
  obj [("name", ClassType.name cls);
       ("description", ClassType.description cls);
       ("duration_minutes", ClassType.durationMinutes cls);
       ("price", ClassType.priceSingle cls)].

Definition updateClass (cls : ClassType.t) : Async unit :=
  r <- update "class_types" (updateClass_body cls) [("id", ToString (ClassType.id cls))] ;;
  throw_if_error r.

(** ** Sessions *)

Definition bookSession (sessionId userId : string) : Async unit :=
  existing <- single (select "enrollments" (Only ["id"])
                        [("session_id", sessionId); ("user_id", userId)]) ;;
  match data existing with
  | Some _ => throw (JsError "Already enrolled")
  | None =>
      r <- insert "enrollments"
             (obj [("session_id", VStr sessionId); ("user_id", VStr userId)]) ;;
      throw_if_error r ;;
      p <- single (select "profiles" (Only ["package_credits"]) [("id", userId)]) ;;
      match data p with
      | Some profile =>
          if gt (get profile "package_credits") (VNum (Int 0))
          then
            update "profiles"
              (obj [("package_credits", sub (get profile "package_credits") (VNum (Int 1)))])
              [("id", userId)] ;;
            ret tt
          else ret tt
      | None => ret tt
      end
  end.

(** ** Packages *)

Definition updatePackage (pkg : Package.t) : Async unit :=
  r <- update "packages"
         (obj [("name", Package.name pkg);
               ("credits", Package.credits pkg);
               ("price", Package.price pkg)])
         [("id", ToString (Package.id pkg))] ;;
  throw_if_error r.

Definition purchase_body (userId packageId : string) (pkg : Row) : Row :=
  obj [("user_id", VStr userId);
       ("package_id", VStr packageId);
       ("package_name", get pkg "name");
       ("amount_paid", get pkg "price");
       ("credits_added", get pkg "credits")].

Definition purchasePackage (userId packageId : string) : Async unit :=
  q <- single (select "packages" Star [("id", packageId)]) ;;
  match data q with
  | None => throw (JsError "Package not found")
  | Some pkg =>
      r <- insert "purchases" (purchase_body userId packageId pkg) ;;
      throw_if_error r ;;
      p <- single (select "profiles" (Only ["package_credits"]) [("id", userId)]) ;;
      let newCredits :=
        add (logical_or
               (match data p with
                | Some profile => get profile "package_credits"
                | None => VUndef
                end)
               (VNum (Int 0)))
            (get pkg "credits") in
      update "profiles" (obj [("package_credits", newCredits)]) [("id", userId)] ;;
      ret tt
  end.

(** ** Instructor availability *)

(** The literal names [dayOfWeek] twice; the second property, built with
    [Number], replaces the first, built with [parseInt]. *)
Definition availability_of_row (a : Row) : Availability.t :=
  let dayOfWeek := parseInt (get a "day_of_week") in
  let dayOfWeek := Number (get a "day_of_week") in
  {| Availability.id := get a "id";
     Availability.instructorId := get a "instructor_id";
     Availability.dayOfWeek := dayOfWeek;
     Availability.startTime := get a "start_time";
     Availability.endTime := get a "end_time" |}.

Definition getAvailability (instructorId : string) : Async (list Availability.t) :=
  r <- select "availability" Star [("instructor_id", instructorId)] ;;
  throw_if_error r ;;
  rows <- deref (data r) ;;
  ret (availability_of_row <$> rows).

Definition createAvailability (avail : Availability.t) : Async unit :=
  r <- insert "availability"
         (obj [("instructor_id", Availability.instructorId avail);
               ("day_of_week", String_ (Availability.dayOfWeek avail));
               ("start_time", Availability.startTime avail);
               ("end_time", Availability.endTime avail)]) ;;
  throw_if_error r.

(** ** Settings *)

(** [settings[item.key] = item.value] for each row in turn; assigning a
    primitive to [__proto__] creates no property. *)
Definition collect_settings (rows : list Row) : Row :=
  fold_left
    (fun settings item =>
       let k := ToString (get item "key") in
       if String.eqb k "__proto__" then settings
       else <[k := get item "value"]> settings)
    rows ∅.

Definition default_email : string := "admin@lovableswim.com".

Definition getSettings : Async Settings.t :=
  r <- select "settings" Star [] ;;
  throw_if_error r ;;
  rows <- deref (data r) ;;
  let settings := collect_settings rows in
  ret {| Settings.poolCapacity :=
           logical_or (Number (get settings "pool_capacity")) (VNum (Int 25));
         Settings.cancellationHours :=
           logical_or (Number (get settings "cancellation_hours")) (VNum (Int 24));
         Settings.maintenanceMode :=
           logical_or (Boolean (get settings "maintenance_mode")) (VBool false);
         Settings.contactEmail :=
           VStr (remove_char quote_char
                   (ToString (logical_or (get settings "contact_email")
                                (VStr default_email)))) |}.

End Api.

Import Api.

(* ===================================================================== *)
(** * Vocabulary of the statements *)
(* ===================================================================== *)

Definition is_served (r : Reply) : bool :=
  match r with Served _ => true | Failed _ => false end.

(** The reply the [n]-th coming request will get. *)
Definition coming (w : World) (n : nat) : Reply := nth n (wire w) (Served ∅).

(** A backend that serves every request made of it. *)
Definition reliable (w : World) : Prop := forallb is_served (wire w) = true.

(** The world once the pending request has been answered. *)
Definition advance (w : World) : World := snd (next_reply w).

(** The enrollment rows of a user in a session. *)
Definition enrollments_of (w : World) (sessionId userId : string) : list Row :=
  List.filter (matches [("session_id", sessionId); ("user_id", userId)])
    (table w "enrollments").

(** The profile rows, and the package rows, of an id. *)
Definition profiles_of (w : World) (userId : string) : list Row :=
  List.filter (matches [("id", userId)]) (table w "profiles").

Definition packages_of (w : World) (packageId : string) : list Row :=
  List.filter (matches [("id", packageId)]) (table w "packages").

(** The credit balance of a user who has one profile row holding an
    integer balance. *)
Definition balance (w : World) (userId : string) : option Z :=
  match profiles_of w userId with
  | [p] => match p !! "package_credits" with
           | Some (VNum (Int b)) => Some b
           | _ => None
           end
  | _ => None
  end.

(** The values a stored row can hold: what JSON carries. *)
Definition json_value (v : JsVal) : Prop := v <> VUndef /\ json_of v = v.

(** The integer balance that a number written to the credits column
    leaves: none when the number is no integer, and none when it is not
    finite, since the column is then sent null. *)
Definition stored (n : num) : option Z :=
  match n with
  | Int z => Some z
  | _ => None
  end.

(** Modelled from the spec: the backing store may hold the day of the week
    in a textual representation; the column keeps the text it was sent, or
    the integer the text denotes. *)
Inductive DayColumn := AsText | AsInteger.

Definition held (c : DayColumn) (v : JsVal) : JsVal :=
  match c with
  | AsText => VStr (ToString v)
  | AsInteger => VNum (ToNumber v)
  end.

Definition hold_day (c : DayColumn) (r : Row) : Row :=
  match r !! "day_of_week" with
  | Some v => <["day_of_week" := held c v]> r
  | None => r
  end.

Definition recast_days (c : DayColumn) (w : World) : World :=
  set_tables (<["availability" := hold_day c <$> table w "availability"]> (tables w)) w.

(** The settings object of an empty settings table. *)
Definition default_settings : Settings.t :=
  {| Settings.poolCapacity := VNum (Int 25);
     Settings.cancellationHours := VNum (Int 24);
     Settings.maintenanceMode := VBool false;
     Settings.contactEmail := VStr default_email |}.

(** The columns the two class writers name. *)
Definition createClass_columns : list string :=
  ["name"; "description"; "duration_minutes"; "capacity"; "price"].

Definition updateClass_columns : list string :=
  ["name"; "description"; "duration_minutes"; "price"].

(** A class as the caller may pass it, with another difficulty and
    another package price. *)
Definition with_difficulty (cls : ClassType.t) (d pp : JsVal) : ClassType.t :=
  {| ClassType.id := ClassType.id cls;
     ClassType.name := ClassType.name cls;
     ClassType.description := ClassType.description cls;
     ClassType.durationMinutes := ClassType.durationMinutes cls;
     ClassType.priceSingle := ClassType.priceSingle cls;
     ClassType.pricePackage := pp;
     ClassType.difficulty := d;
     ClassType.capacity := ClassType.capacity cls |}.

(** ** Sample worlds *)

Definition network_down : PgError :=
  {| message := "TypeError: Failed to fetch"; code := EmptyString |}.

(** One client with two credits, one package, one class whose row stores
    a difficulty, no enrollment, no setting; the client is signed in and
    the backend serves every request. *)
Definition sample_world : World :=
  {| tables :=
       {[ "profiles" :=
            [obj [("id", VStr "u1"); ("email", VStr "ann@example.com");
                  ("full_name", VStr "Ann"); ("role", VStr "client");
                  ("package_credits", VNum (Int 2))]];
          "packages" :=
            [obj [("id", VStr "p1"); ("name", VStr "Ten lessons");
                  ("credits", VNum (Int 10)); ("price", VNum (Int 100));
                  ("active", VBool true)]];
          "class_types" :=
            [obj [("id", VStr "c1"); ("name", VStr "Stroke clinic");
                  ("duration_minutes", VNum (Int 45)); ("price", VNum (Int 30));
                  ("capacity", VNum (Int 8)); ("difficulty", VStr "Advanced")]] ]};
     session := Some "u1";
     wire := [];
     console := [] |}.

(** The same world when the next request cannot reach the backend. *)
Definition offline_world : World := set_wire [Failed network_down] sample_world.

Definition sample_class : ClassType.t :=
  {| ClassType.id := VStr "c1";
     ClassType.name := VStr "Stroke clinic";
     ClassType.description := VStr "Technique";
     ClassType.durationMinutes := VNum (Int 45);
     ClassType.priceSingle := VNum (Int 30);
     ClassType.pricePackage := VNum (Int 25);
     ClassType.difficulty := VStr "Advanced";
     ClassType.capacity := VNum (Int 8) |}.

Definition sample_availability : Availability.t :=
  {| Availability.id := VUndef;
     Availability.instructorId := VStr "i1";
     Availability.dayOfWeek := VNum (Int 3);
     Availability.startTime := VStr "09:00";
     Availability.endTime := VStr "10:00" |}.

Definition sample_package : Row :=
  obj [("id", VStr "p1"); ("name", VStr "Ten lessons");
       ("credits", VNum (Int 10)); ("price", VNum (Int 100));
       ("active", VBool true)].


(** The sample world when the fourth request to come fails: in a
    purchase, the update of the balance. *)
Definition update_lost : World :=
  set_wire [Served ∅; Served ∅; Served ∅; Failed network_down] sample_world.

(** A world with another balance in its profile rows. *)
Definition set_balance (n : Z) (w : World) : World :=
  set_tables
    (<["profiles" := (fun r : Row => <["package_credits" := VNum (Int n)]> r)
                       <$> table w "profiles"]> (tables w)) w.


(* ===================================================================== *)
(** * Further requests of the backend *)
(* ===================================================================== *)

(** The requests the remaining operations make: delete, upsert, ordered
    reads and reads that embed related rows. *)

Module Queries.

(** Modelled from the spec: the client's [from(t).delete().eq(..)...];
    every row meeting the filters is removed, the others stay in order. *)
Definition delete (t : string) (fs : list (string * string)) : Async (Response unit) :=
  fun w =>
    match next_reply w with
    | (Failed e, w') => (Resolved {| data := None; error := Some e |}, w')
    | (Served _, w') =>
        (Resolved {| data := None; error := None |},
         set_tables
           (<[t := List.filter (fun r => negb (matches fs r)) (table w' t)]> (tables w')) w')
    end.

(** The column list of an [onConflict] option: names separated by commas,
    white space around a name dropped. *)
Fixpoint split_commas (s : string) : list string :=
  match s with
  | EmptyString => [EmptyString]
  | String c r =>
      if Ascii.eqb c ","
      then EmptyString :: split_commas r
      else match split_commas r with
           | x :: xs => String c x :: xs
           | [] => [String c EmptyString]
           end
  end.

Definition columns_of (s : string) : list string := trim <$> split_commas s.

(** A stored row stands in the way of the row sent when both hold the same
    values, none of them null, in the conflict columns. *)
Definition clashes (cs : list string) (sent r : Row) : bool :=
  forallb (fun c => match sent !! c with
                    | Some VNull | Some VUndef | None => false
                    | Some v => eq_holds r (c, ToString v)
                    end) cs.

(** Modelled from the spec: the client's [from(t).upsert(o, { onConflict })];
    insert-or-update keyed by the conflict columns: a row that clashes
    takes the sent values and keeps its other columns, and when no row
    clashes the row sent is appended, completed by the generated
    defaults. *)
Definition upsert (t : string) (o : Row) (onConflict : string) : Async (Response unit) :=
  fun w =>
    match next_reply w with
    | (Failed e, w') => (Resolved {| data := None; error := Some e |}, w')
    | (Served gen, w') =>
        let sent := to_json o in
        let cs := columns_of onConflict in
        let rows := table w' t in
        (Resolved {| data := None; error := None |},
         set_tables
           (<[t := if existsb (clashes cs sent) rows
                   then (fun r => if clashes cs sent r then sent ∪ r else r) <$> rows
                   else (rows ++ [sent ∪ gen])%list]> (tables w')) w')
    end.

(** The order of the values of a column: booleans, numbers and texts among
    themselves, a null after every value. *)
Definition rank (v : JsVal) : Z :=
  match v with
  | VBool _ => 0
  | VNum (Int _) | VNum (Frac _ _) => 1
  | VStr _ => 2
  | _ => 3
  end.

Definition key_le (a b : JsVal) : bool :=
  match a, b with
  | VBool x, VBool y => implb x y
  | VNum (Int x), VNum (Int y) => x <=? y
  | VNum (Int x), VNum (Frac m k) => x * 2 ^ Zpos k <=? m
  | VNum (Frac m k), VNum (Int y) => m <=? y * 2 ^ Zpos k
  | VNum (Frac m k), VNum (Frac m' k') => m * 2 ^ Zpos k' <=? m' * 2 ^ Zpos k
  | VStr x, VStr y => String.leb x y
  | _, _ => rank a <=? rank b
  end.

(** [a] may stand before [b] when the rows are listed by descending
    [col]. *)
Definition descending (col : string) (a b : Row) : Prop :=
  key_le (get b col) (get a col) = true.

#[global] Instance descending_dec col a b : Decision (descending col a b).
Proof. unfold descending. apply _. Defined.

(** Modelled from the spec: the client's
    [from(t).select(c).eq(..).order(col, { ascending: false })]. *)
Definition select_descending (t : string) (c : Cols) (fs : list (string * string))
    (col : string) : Async (Response (list Row)) :=
  fun w =>
    match next_reply w with
    | (Failed e, w') => (Resolved {| data := None; error := Some e |}, w')
    | (Served _, w') =>
        (Resolved
           {| data := Some (project c <$>
                              merge_sort (descending col)
                                (List.filter (matches fs) (table w' t)));
              error := None |}, w')
    end.

(** Related rows: a row refers to a key through a column when the column
    holds the key, as text; a null refers to nothing. *)
Definition related (col : string) (key : JsVal) (r : Row) : bool :=
  match key with
  | VNull | VUndef => false
  | _ => eq_holds r (col, ToString key)
  end.

(** The rows of [t] that refer to [parent] through [fk]. *)
Definition embed_many (w : World) (t fk : string) (c : Cols) (parent : Row) : list Row :=
  project c <$> List.filter (related fk (get parent "id")) (table w t).

(** The row of [t] that [child] refers to through [fk], null when there
    is none. *)
Definition embed_one (w : World) (t fk : string) (child : Row) : option Row :=
  head (List.filter (related "id" (get child fk)) (table w t)).

(** Modelled from the spec: a nested relational select, all columns of
    [t] and [many (cols)]: each row of [t] with the rows of [many] that
    refer to it. *)
Definition select_with (t : string) (fs : list (string * string))
    (many fk : string) (c : Cols) : Async (Response (list (Row * list Row))) :=
  fun w =>
    match next_reply w with
    | (Failed e, w') => (Resolved {| data := None; error := Some e |}, w')
    | (Served _, w') =>
        (Resolved
           {| data := Some ((fun r => (r, embed_many w' many fk c r))
                              <$> List.filter (matches fs) (table w' t));
              error := None |}, w')
    end.

(** Modelled from the spec: a nested relational select of [alias:one]
    with all its columns and [many (cols)]: for each row of [t] the row of
    [one] it refers to through [fk1], itself with the rows of [many] that
    refer to it. *)
Definition select_through (t : string) (fs : list (string * string))
    (one fk1 many fk2 : string) (c : Cols)
  : Async (Response (list (option (Row * list Row)))) :=
  fun w =>
    match next_reply w with
    | (Failed e, w') => (Resolved {| data := None; error := Some e |}, w')
    | (Served _, w') =>
        (Resolved
           {| data := Some ((fun r => (fun p => (p, embed_many w' many fk2 c p))
                                         <$> embed_one w' one fk1 r)
                              <$> List.filter (matches fs) (table w' t));
              error := None |}, w')
    end.

(** [array.map(f)] for a callback that may throw. *)
Fixpoint map_async {A B} (f : A -> Async B) (l : list A) : Async (list B) :=
  match l with
  | [] => ret []
  | x :: l' => y <- f x ;; ys <- map_async f l' ;; ret (y :: ys)
  end.

(** [for (const x of l) { body }] *)
Fixpoint for_of {A} (l : list A) (body : A -> Async unit) : Async unit :=
  match l with
  | [] => ret tt
  | x :: l' => body x ;; for_of l' body
  end.

End Queries.

Import Queries.

(* ===================================================================== *)
(** * The other operations of src/api.ts *)
(* ===================================================================== *)

Module Operations.

(** Modelled from the spec: further entity types of [../types], with the
    fields of section 3 of the specification. *)
Module LessonSession.
Record t := {
  id : JsVal; classTypeId : JsVal; instructorId : JsVal;
  startTime : JsVal; endTime : JsVal; capacity : JsVal;
  enrolledUserIds : list JsVal
}.
End LessonSession.

Module Purchase.
Record t := {
  id : JsVal; userId : JsVal; packageName : JsVal;
  credits : JsVal; price : JsVal; date : JsVal
}.
End Purchase.

Module Blockout.
Record t := {
  id : JsVal; instructorId : JsVal; date : JsVal;
  startTime : JsVal; endTime : JsVal; reason : JsVal
}.
End Blockout.

Module Progress.
Record t := {
  id : JsVal; studentId : JsVal; skillId : JsVal;
  status : JsVal; lastUpdated : JsVal
}.
End Progress.

(** ** Users *)

Definition getUsers : Async (list User.t) :=
  r <- select "profiles" Star [] ;;
  throw_if_error r ;;
  rows <- deref (data r) ;;
  ret (user_of_profile <$> rows).

(** The field bag of a partial update, built property by property. *)
Definition updateUser_updates (user : User.t) : Row :=
  let updates : Row := ∅ in
  let updates :=
    if ToBoolean (User.name user)
    then <["full_name" := User.name user]> updates else updates in
  let updates :=
    if ToBoolean (User.role user)
    then <["role" := User.role user]> updates else updates in
  let updates :=
    if bool_decide (User.packageCredits user <> VUndef)
    then <["package_credits" := User.packageCredits user]> updates else updates in
  updates.

Definition updateUser (user : User.t) : Async unit :=
  r <- update "profiles" (updateUser_updates user) [("id", ToString (User.id user))] ;;
  throw_if_error r.

(** ** Classes *)

Definition deleteClass (id : string) : Async unit :=
  r <- delete "class_types" [("id", id)] ;;
  throw_if_error r.

(** ** Sessions *)

Definition session_of (s : Row * list Row) : LessonSession.t :=
  {| LessonSession.id := get s.1 "id";
     LessonSession.classTypeId := get s.1 "class_type_id";
     LessonSession.instructorId := get s.1 "instructor_id";
     LessonSession.startTime := get s.1 "start_time";
     LessonSession.endTime := get s.1 "end_time";
     LessonSession.capacity := get s.1 "capacity";
     LessonSession.enrolledUserIds := (fun e => get e "user_id") <$> s.2 |}.

Definition getSessions : Async (list LessonSession.t) :=
  r <- select_with "sessions" [] "enrollments" "session_id" (Only ["user_id"]) ;;
  throw_if_error r ;;
  rows <- deref (data r) ;;
  ret (session_of <$> rows).

Definition getSessionsForUser (userId : string) : Async (list LessonSession.t) :=
  r <- select_through "enrollments" [("user_id", userId)]
         "sessions" "session_id" "enrollments" "session_id" (Only ["user_id"]) ;;
  throw_if_error r ;;
  items <- deref (data r) ;;
  map_async (fun item => s <- deref item ;; ret (session_of s)) items.

Definition deleteSession (id : string) : Async unit :=
  r <- delete "sessions" [("id", id)] ;;
  throw_if_error r.

(** ** Packages *)

Definition getPackages : Async (option (list Row)) :=
  r <- select "packages" Star [("active", "true")] ;;
  throw_if_error r ;;
  ret (data r).

Definition createPackage (pkg : Package.t) : Async unit :=
  r <- insert "packages"
         (obj [("name", Package.name pkg);
               ("credits", Package.credits pkg);
               ("price", Package.price pkg)]) ;;
  throw_if_error r.

Definition deletePackage (id : string) : Async unit :=
  r <- delete "packages" [("id", id)] ;;
  throw_if_error r.

Definition purchase_of_row (p : Row) : Purchase.t :=
  {| Purchase.id := get p "id";
     Purchase.userId := get p "user_id";
     Purchase.packageName := get p "package_name";
     Purchase.credits := get p "credits_added";
     Purchase.price := get p "amount_paid";
     Purchase.date := get p "purchase_date" |}.

Definition getPurchases (userId : string) : Async (list Purchase.t) :=
  r <- select_descending "purchases" Star [("user_id", userId)] "purchase_date" ;;
  throw_if_error r ;;
  rows <- deref (data r) ;;
  ret (purchase_of_row <$> rows).

(** ** Instructor *)

Definition deleteAvailability (id : string) : Async unit :=
  r <- delete "availability" [("id", id)] ;;
  throw_if_error r.

Definition blockout_of_row (b : Row) : Blockout.t :=
  {| Blockout.id := get b "id";
     Blockout.instructorId := get b "instructor_id";
     Blockout.date := get b "date";
     Blockout.startTime := get b "start_time";
     Blockout.endTime := get b "end_time";
     Blockout.reason := get b "reason" |}.

Definition getBlockouts (instructorId : string) : Async (list Blockout.t) :=
  r <- select "blockouts" Star [("instructor_id", instructorId)] ;;
  throw_if_error r ;;
  rows <- deref (data r) ;;
  ret (blockout_of_row <$> rows).

Definition createBlockout (blockout : Blockout.t) : Async unit :=
  r <- insert "blockouts"
         (obj [("instructor_id", Blockout.instructorId blockout);
               ("date", Blockout.date blockout);
               ("start_time", Blockout.startTime blockout);
               ("end_time", Blockout.endTime blockout);
               ("reason", Blockout.reason blockout)]) ;;
  throw_if_error r.

Definition deleteBlockout (id : string) : Async unit :=
  r <- delete "blockouts" [("id", id)] ;;
  throw_if_error r.

(** ** Progress *)

Definition progress_of_row (p : Row) : Progress.t :=
  {| Progress.id := get p "id";
     Progress.studentId := get p "student_id";
     Progress.skillId := get p "skill_id";
     Progress.status := get p "status";
     Progress.lastUpdated := get p "updated_at" |}.

Definition getProgress (studentId : string) : Async (list Progress.t) :=
  r <- select "student_progress" Star [("student_id", studentId)] ;;
  throw_if_error r ;;
  rows <- deref (data r) ;;
  ret (progress_of_row <$> rows).

(** The instant [new Date().toISOString()] yields during the call is the
    argument [now]. *)
Definition updateProgress (now : string) (studentId skillId : string) (status : JsVal)
  : Async unit :=
  r <- upsert "student_progress"
         (obj [("student_id", VStr studentId);
               ("skill_id", VStr skillId);
               ("status", status);
               ("updated_at", VStr now)])
         "student_id, skill_id" ;;
  throw_if_error r.

(** ** Settings *)

Definition saveSettings (settings : Row) : Async unit :=
  let updates :=
    [obj [("key", VStr "pool_capacity"); ("value", get settings "poolCapacity")];
     obj [("key", VStr "cancellation_hours"); ("value", get settings "cancellationHours")];
     obj [("key", VStr "maintenance_mode"); ("value", get settings "maintenanceMode")];
     obj [("key", VStr "contact_email"); ("value", get settings "contactEmail")]] in
  for_of updates (fun update =>
    r <- upsert "settings" update "key" ;;
    throw_if_error r).

End Operations.

Import Operations.

(* ===================================================================== *)
(** * Vocabulary of the further statements *)
(* ===================================================================== *)

(** An operation that deletes from table [t] by id: a failed request is
    raised and changes nothing; a served one removes the rows holding the
    id, keeps the others in order, and raises nothing, also when no row
    holds the id. *)
Definition deletes_by_id (op : string -> Async unit) (t : string) : Prop :=
  forall (id : string) (w : World),
    match coming w 0 with
    | Failed e =>
        fst (op id w) = Rejected (Remote e) /\ tables (snd (op id w)) = tables w
    | Served _ =>
        fst (op id w) = Resolved tt /\
        table (snd (op id w)) t
        = List.filter (fun r => negb (matches [("id", id)] r)) (table w t) /\
        Forall (fun r => matches [("id", id)] r = false) (table (snd (op id w)) t) /\
        (Forall (fun r => matches [("id", id)] r = false) (table w t) ->
         table (snd (op id w)) t = table w t)
    end.

(** The enrollment rows of a session, and those of a user. *)
Definition roster (w : World) (sessionId : string) : list Row :=
  List.filter (matches [("session_id", sessionId)]) (table w "enrollments").

Definition enrollments_of_user (w : World) (userId : string) : list Row :=
  List.filter (matches [("user_id", userId)]) (table w "enrollments").

(** An operation that leaves a reliable backend reliable: it only uses up
    pending replies. *)
Definition keeps_reliable {A} (m : Async A) : Prop :=
  forall w, reliable w -> reliable (snd (m w)).

(** The progress rows of a student for a skill. *)
Definition progress_rows (w : World) (studentId skillId : string) : list Row :=
  List.filter (matches [("student_id", studentId); ("skill_id", skillId)])
    (table w "student_progress").

(** The row an update of progress sends. *)
Definition progress_sent (now studentId skillId : string) (status : JsVal) : Row :=
  to_json (obj [("student_id", VStr studentId); ("skill_id", VStr skillId);
                ("status", status); ("updated_at", VStr now)]).

(** The settings object [getSettings] assembles from the rows of a world. *)
Definition settings_object (w : World) : Row := collect_settings (table w "settings").

(** What [getSettings] makes of the four stored values. *)
Definition settings_read (capacity hours maintenance email : JsVal) : Settings.t :=
  {| Settings.poolCapacity := logical_or (Number capacity) (VNum (Int 25));
     Settings.cancellationHours := logical_or (Number hours) (VNum (Int 24));
     Settings.maintenanceMode := logical_or (Boolean maintenance) (VBool false);
     Settings.contactEmail :=
       VStr (remove_char quote_char
               (ToString (logical_or email (VStr default_email)))) |}.

(** A name that can key a setting: neither the text of a missing key nor
    the prototype property. *)
Definition setting_key (k : string) : Prop :=
  k <> "__proto__" /\ k <> "null" /\ k <> "undefined".

(** One assignment [settings[item.key] = item.value] of the read, and the
    row one write of [saveSettings] sends. *)
Definition assign_setting (settings item : Row) : Row :=
  let k := ToString (get item "key") in
  if String.eqb k "__proto__" then settings
  else <[k := get item "value"]> settings.

Definition setting_sent (k : string) (v : JsVal) : Row :=
  to_json (obj [("key", VStr k); ("value", v)]).

(** ** A sample studio *)

Definition ann_row : Row :=
  obj [("id", VStr "u1"); ("email", VStr "ann@example.com");
       ("full_name", VStr "Ann"); ("role", VStr "client");
       ("package_credits", VNum (Int 2))].

Definition bob_row : Row :=
  obj [("id", VStr "u2"); ("email", VStr "bob@example.com");
       ("full_name", VStr "Bob"); ("role", VStr "client");
       ("package_credits", VNum (Int 0))].

Definition clinic_row : Row :=
  obj [("id", VStr "c1"); ("name", VStr "Stroke clinic");
       ("description", VStr "Technique"); ("duration_minutes", VNum (Int 45));
       ("price", VNum (Int 30)); ("capacity", VNum (Int 8))].

Definition monday_session : Row :=
  obj [("id", VStr "s1"); ("class_type_id", VStr "c1"); ("instructor_id", VStr "i1");
       ("start_time", VStr "2024-05-06T09:00:00+00:00");
       ("end_time", VStr "2024-05-06T09:45:00+00:00"); ("capacity", VNum (Int 1))].

Definition retired_package : Row :=
  obj [("id", VStr "p2"); ("name", VStr "Five lessons");
       ("credits", VNum (Int 5)); ("price", VNum (Int 60));
       ("active", VBool false)].

Definition january_purchase : Row :=
  obj [("id", VStr "b1"); ("user_id", VStr "u1"); ("package_name", VStr "Five lessons");
       ("amount_paid", VNum (Int 60)); ("credits_added", VNum (Int 5));
       ("purchase_date", VStr "2024-01-15T10:00:00+00:00")].

Definition march_purchase : Row :=
  obj [("id", VStr "b2"); ("user_id", VStr "u1"); ("package_name", VStr "Ten lessons");
       ("amount_paid", VNum (Int 100)); ("credits_added", VNum (Int 10));
       ("purchase_date", VStr "2024-03-02T10:00:00+00:00")].

(** Two clients, one class, one session of capacity one that Bob has
    booked, an active and a retired package, two purchases of Ann; Ann is
    signed in and the backend serves every request. *)
Definition studio : World :=
  {| tables :=
       {[ "profiles" := [ann_row; bob_row];
          "packages" := [sample_package; retired_package];
          "class_types" := [clinic_row];
          "sessions" := [monday_session];
          "enrollments" := [obj [("session_id", VStr "s1"); ("user_id", VStr "u2")]];
          "purchases" := [january_purchase; march_purchase] ]};
     session := Some "u1";
     wire := [];
     console := [] |}.

(** The studio with an enrollment of Ann in a session that is not
    there. *)
Definition studio_with_dangling_enrollment : World :=
  set_tables
    (<["enrollments" := [obj [("session_id", VStr "s9"); ("user_id", VStr "u1")]]]>
       (tables studio)) studio.

Definition ann_renamed : User.t :=
  {| User.id := VStr "u1"; User.email := VStr "other@example.com";
     User.name := VStr "Ann B."; User.role := VStr EmptyString;
     User.avatarUrl := VUndef; User.packageCredits := VNum (Int 0) |}.

Definition sample_blockout : Blockout.t :=
  {| Blockout.id := VStr "ignored"; Blockout.instructorId := VStr "i1";
     Blockout.date := VStr "2024-05-07"; Blockout.startTime := VStr "09:00";
     Blockout.endTime := VStr "12:00"; Blockout.reason := VStr "Dentist" |}.

Definition sample_new_package : Package.t :=
  {| Package.id := VStr "ignored"; Package.name := VStr "Twenty lessons";
     Package.credits := VNum (Int 20); Package.price := VNum (Int 180);
     Package.active := VBool true |}.

Definition sample_settings : Row :=
  obj [("poolCapacity", VNum (Int 30)); ("cancellationHours", VNum (Int 12));
       ("maintenanceMode", VBool true); ("contactEmail", VStr "desk@example.com")].


(** The studio with three progress rows: Ann learning one skill and
    having mastered another, Bob learning the first. *)
Definition ann_learning : Row :=
  obj [("id", VStr "g1"); ("student_id", VStr "u1"); ("skill_id", VStr "k1");
       ("status", VStr "learning"); ("updated_at", VStr "2024-04-01T09:00:00.000Z")].

Definition ann_other_skill : Row :=
  obj [("id", VStr "g2"); ("student_id", VStr "u1"); ("skill_id", VStr "k2");
       ("status", VStr "mastered"); ("updated_at", VStr "2024-04-02T09:00:00.000Z")].

Definition bob_learning : Row :=
  obj [("id", VStr "g3"); ("student_id", VStr "u2"); ("skill_id", VStr "k1");
       ("status", VStr "learning"); ("updated_at", VStr "2024-04-03T09:00:00.000Z")].

Definition studio_with_progress : World :=
  set_tables
    (<["student_progress" := [ann_learning; ann_other_skill; bob_learning]]>
       (tables studio)) studio.

(** Settings whose numbers are given as texts with an exponent and a
    fraction. *)
Definition text_settings : Row :=
  obj [("poolCapacity", VStr "1e3"); ("cancellationHours", VStr "12.0");
       ("maintenanceMode", VBool false); ("contactEmail", VStr "desk@example.com")].

(** The studio when the second request to come fails. *)
Definition studio_failing_second : World :=
  set_wire [Served ∅; Failed network_down] studio.

Definition monday_listed : LessonSession.t :=
  {| LessonSession.id := VStr "s1"; LessonSession.classTypeId := VStr "c1";
     LessonSession.instructorId := VStr "i1";
     LessonSession.startTime := VStr "2024-05-06T09:00:00+00:00";
     LessonSession.endTime := VStr "2024-05-06T09:45:00+00:00";
     LessonSession.capacity := VNum (Int 1);
     LessonSession.enrolledUserIds := [VStr "u2"] |}.

(* ===================================================================== *)
(** * Facts about the JavaScript coercions *)
(* ===================================================================== *)

Section Coercions.

Example Number_of_text : Number (VStr " 42 ") = VNum (Int 42).
Proof. reflexivity. Qed.

Example Number_of_hex : Number (VStr "0x1f") = VNum (Int 31).
Proof. reflexivity. Qed.

Example Number_of_exponent : Number (VStr "1e3") = VNum (Int 1000).
Proof. reflexivity. Qed.

Example Number_of_fraction :
  Number (VStr "12.0") = VNum (Int 12) /\ Number (VStr "0.5") = VNum (Frac 1 1).
Proof. split; reflexivity. Qed.

Example Number_of_infinity : Number (VStr "-Infinity") = VNum NegInf.
Proof. reflexivity. Qed.

Example Number_rounds : Number (VStr "9007199254740993") = VNum (Int 9007199254740992).
Proof. reflexivity. Qed.

Example Number_of_word : Number (VStr "Monday") = VNum NaN.
Proof. reflexivity. Qed.

Example Number_of_undefined : Number VUndef = VNum NaN.
Proof. reflexivity. Qed.

Example String_of_negative : String_ (VNum (Int (-7))) = VStr "-7".
Proof. reflexivity. Qed.

Example String_of_fraction : String_ (Number (VStr ".1e0")) = VStr "0.1".
Proof. vm_compute. reflexivity. Qed.

Example String_of_large :
  String_ (VNum (Int (2 ^ 60))) = VStr "1152921504606847000" /\
  String_ (Number (VStr "1e21")) = VStr "1e+21".
Proof. split; vm_compute; reflexivity. Qed.

Example parseInt_prefix : parseInt (VStr "12px") = VNum (Int 12).
Proof. reflexivity. Qed.

Example add_concatenates : add (VStr "5") (VNum (Int 3)) = VStr "53".
Proof. reflexivity. Qed.

Example NaN_or_default : logical_or (Number VUndef) (VNum (Int 25)) = VNum (Int 25).
Proof. reflexivity. Qed.

(** Beyond 2^53 a sum or a difference is rounded to the nearest double,
    and beyond the largest double it is infinite. *)
Example add_rounds :
  add (VNum (Int (2 ^ 53))) (VNum (Int 1)) = VNum (Int (2 ^ 53)) /\
  sub (VNum (Int (2 ^ 53 + 2))) (VNum (Int 1)) = VNum (Int (2 ^ 53)) /\
  add (VNum (Int (2 ^ 1023))) (VNum (Int (2 ^ 1023))) = VNum PosInf.
Proof. repeat split; vm_compute; reflexivity. Qed.

(** Below 2^53 the general rules of rounding and of printing give what
    the short cuts of [round_int] and [NumberToString] give. *)
Example short_cuts_agree :
  round_ratio (2 ^ 53 - 1) 1 = Int (2 ^ 53 - 1) /\
  round_ratio (- 12) 1 = Int (- 12) /\
  finite_string (Int (2 ^ 53 - 1)) = NumberToString (Int (2 ^ 53 - 1)) /\
  finite_string (Int (- 1200)) = NumberToString (Int (- 1200)).
Proof. repeat split; vm_compute; reflexivity. Qed.

(** Up to 2^53 every integer is a double. *)
Lemma round_int_exact z : Z.abs z <= 2 ^ 53 -> round_int z = Int z.
Proof. intros H. unfold round_int. by apply Z.leb_le in H as ->. Qed.





(** [Number(String(d))] is [d] for a day of the week, whatever form the
    column keeps the text in. *)
Lemma Number_held_day (c : DayColumn) z :
  0 <= z <= 6 -> Number (held c (String_ (VNum (Int z)))) = VNum (Int z).
Proof.
  intros Hz.
  assert (z = 0 \/ z = 1 \/ z = 2 \/ z = 3 \/ z = 4 \/ z = 5 \/ z = 6) as Hcases by lia.
  destruct c; repeat (destruct Hcases as [->|Hcases]; [reflexivity|]); by subst.
Qed.

Lemma add_credits b c :
  add (logical_or (VNum (Int b)) (VNum (Int 0))) (VNum (Int c))
  = VNum (round_int (b + c)).
Proof.
  unfold logical_or. simpl. destruct (b =? 0) eqn:E; simpl; [|done].
  apply Z.eqb_eq in E. by subst.
Qed.

Lemma json_value_text s : json_value (VStr s).
Proof. by split. Qed.

Lemma json_value_integer z : json_value (VNum (Int z)).
Proof. by split. Qed.

End Coercions.

(* ===================================================================== *)
(** * Facts about the backend model *)
(* ===================================================================== *)

Section Backend.

Implicit Types (w : World) (t : string) (o r : Row) (fs : list (string * string)).

(** ** The pending replies *)

Lemma tables_advance w : tables (advance w) = tables w.
Proof. unfold advance, next_reply. by destruct (wire w). Qed.

Lemma table_advance w t : table (advance w) t = table w t.
Proof. unfold table. by rewrite tables_advance. Qed.

Lemma session_advance w : session (advance w) = session w.
Proof. unfold advance, next_reply. by destruct (wire w). Qed.

Lemma wire_advance w : wire (advance w) = tl (wire w).
Proof.
  unfold advance, next_reply. destruct (wire w) eqn:E; simpl; [by rewrite E | done].
Qed.

Lemma next_reply_coming w : next_reply w = (coming w 0, advance w).
Proof. unfold advance, coming, next_reply. by destruct (wire w). Qed.

Lemma coming_advance w n : coming (advance w) n = coming w (S n).
Proof.
  unfold coming. rewrite wire_advance.
  destruct (wire w); [by destruct n | done].
Qed.

Lemma reliable_coming w n : reliable w -> is_served (coming w n) = true.
Proof.
  unfold reliable, coming. revert n.
  induction (wire w) as [|x l IH]; intros [|n] H; simpl in *; try done.
  - by apply andb_prop in H as [? _].
  - apply andb_prop in H as [_ H]. by apply IH.
Qed.

Lemma reliable_served w : reliable w -> exists g, coming w 0 = Served g.
Proof.
  intros H%(reliable_coming w 0). destruct (coming w 0); [eauto | done].
Qed.

Lemma reliable_advance w : reliable w -> reliable (advance w).
Proof.
  unfold reliable. rewrite wire_advance.
  destruct (wire w); simpl; [done|]. intros H. by apply andb_prop in H as [_ ?].
Qed.

Lemma reliable_written w tb : reliable w -> reliable (set_tables tb (advance w)).
Proof. intros H. by apply reliable_advance in H. Qed.

(** ** The tables *)

Lemma table_insert_other w t t' l :
  t <> t' -> table (set_tables (<[t := l]> (tables w)) (advance w)) t' = table w t'.
Proof. intros. unfold table. simpl. by rewrite lookup_insert_ne. Qed.

Lemma table_insert_same w (tb : gmap string (list Row)) t l :
  table (set_tables (<[t := l]> tb) w) t = l.
Proof. unfold table. simpl. by rewrite lookup_insert_eq. Qed.

(** ** A request, whatever its reply *)

Lemma select_run w t c fs :
  select t c fs w =
    (match coming w 0 with
     | Served _ =>
         Resolved {| data := Some (project c <$> List.filter (matches fs) (table w t));
                     error := None |}
     | Failed e => Resolved {| data := None; error := Some e |}
     end, advance w).
Proof.
  unfold select. rewrite next_reply_coming.
  destruct (coming w 0); [|done]. by rewrite table_advance.
Qed.

Lemma single_run w t c fs :
  single (select t c fs) w =
    (Resolved match coming w 0 with
              | Served _ =>
                  match List.filter (matches fs) (table w t) with
                  | [row] => {| data := Some (project c row); error := None |}
                  | _ => {| data := None; error := Some not_single |}
                  end
              | Failed e => {| data := None; error := Some e |}
              end, advance w).
Proof.
  unfold single, bind. rewrite select_run.
  destruct (coming w 0); [|done]. simpl.
  by destruct (List.filter _ _) as [|? [|? ?]].
Qed.

Lemma insert_run w t o :
  insert t o w =
    match coming w 0 with
    | Served gen =>
        (Resolved {| data := None; error := None |},
         set_tables (<[t := (table w t ++ [to_json o ∪ gen])%list]> (tables w)) (advance w))
    | Failed e => (Resolved {| data := None; error := Some e |}, advance w)
    end.
Proof.
  unfold insert. rewrite next_reply_coming.
  destruct (coming w 0); [|done]. by rewrite table_advance, tables_advance.
Qed.

Lemma update_run w t o fs :
  update t o fs w =
    match coming w 0 with
    | Served _ =>
        (Resolved {| data := None; error := None |},
         set_tables
           (<[t := (fun r => if matches fs r then to_json o ∪ r else r) <$> table w t]>
              (tables w)) (advance w))
    | Failed e => (Resolved {| data := None; error := Some e |}, advance w)
    end.
Proof.
  unfold update. rewrite next_reply_coming.
  destruct (coming w 0); [|done]. by rewrite table_advance, tables_advance.
Qed.

(** ** Objects, request bodies and filters *)

Lemma fold_insert_other (fields : list (string * JsVal)) o (k : string) :
  k ∉ fields.*1 ->
  fold_left (fun o kv => <[kv.1 := kv.2]> o) fields o !! k = o !! k.
Proof.
  revert o. induction fields as [|[c v] l IH]; intros o Hk; simpl; [done|].
  rewrite fmap_cons, not_elem_of_cons in Hk. destruct Hk as [Hne Hk].
  rewrite IH by done. by rewrite lookup_insert_ne.
Qed.

Lemma obj_lookup_other (fields : list (string * JsVal)) (k : string) :
  k ∉ fields.*1 -> obj fields !! k = None.
Proof. intros Hk. unfold obj. by rewrite fold_insert_other. Qed.

Lemma to_json_lookup o (k : string) :
  to_json o !! k =
    match o !! k with
    | Some VUndef | None => None
    | Some v => Some (json_of v)
    end.
Proof.
  unfold to_json. rewrite lookup_fmap, map_lookup_filter.
  destruct (o !! k) as [v|]; simpl; [|done].
  destruct v as [| | |[| | | |]|]; simpl; done.
Qed.

Lemma to_json_lookup_Some o (k : string) v :
  o !! k = Some v -> json_value v -> to_json o !! k = Some v.
Proof.
  intros H [Hu Hn]. rewrite to_json_lookup, H, Hn.
  by destruct v.
Qed.

Lemma to_json_lookup_defined o (k : string) v :
  o !! k = Some v -> v <> VUndef -> to_json o !! k = Some (json_of v).
Proof. intros H Hu. rewrite to_json_lookup, H. by destruct v. Qed.

Lemma to_json_lookup_None o (k : string) :
  o !! k = None -> to_json o !! k = None.
Proof. intros H. by rewrite to_json_lookup, H. Qed.

Lemma filter_all (l : list Row) : List.filter (matches []) l = l.
Proof. induction l; simpl; [done|]. by f_equal. Qed.

Lemma project_lookup cs r (k : string) :
  k ∈ cs -> project (Only cs) r !! k = r !! k.
Proof.
  intros Hk. simpl. rewrite map_lookup_filter.
  destruct (r !! k); simpl; [|done]. by rewrite option_guard_True.
Qed.

Lemma eq_holds_union o r f :
  o !! f.1 = None -> eq_holds (o ∪ r) f = eq_holds r f.
Proof. intros H. unfold eq_holds. by rewrite lookup_union_r. Qed.

Lemma matches_union o r fs :
  Forall (fun f => o !! f.1 = None) fs -> matches fs (o ∪ r) = matches fs r.
Proof.
  unfold matches. induction 1 as [|f fs Hf _ IH]; simpl; [done|].
  by rewrite eq_holds_union, IH.
Qed.

(** The rows a filter selects are the same rows after an update that
    leaves the filtered columns alone. *)
Lemma filter_update o fs (l : list Row) :
  Forall (fun f => o !! f.1 = None) fs ->
  List.filter (matches fs) ((fun r => if matches fs r then o ∪ r else r) <$> l)
  = (fun r => o ∪ r) <$> List.filter (matches fs) l.
Proof.
  intros Ho. induction l as [|r l IH]; simpl; [done|].
  destruct (matches fs r) eqn:E.
  - rewrite matches_union, E by done. simpl. by f_equal.
  - by rewrite E.
Qed.

(** ** Balances *)

Lemma balance_frame w w' u :
  table w' "profiles" = table w "profiles" -> balance w' u = balance w u.
Proof. intros H. unfold balance, profiles_of. by rewrite H. Qed.

(** Writing a number to the credits column of the user's profile. *)
Lemma balance_update w w' u b (n : num) :
  balance w u = Some b ->
  table w' "profiles" =
    (fun r => if matches [("id", u)] r
              then to_json (obj [("package_credits", VNum n)]) ∪ r else r)
      <$> table w "profiles" ->
  balance w' u = stored n.
Proof.
  unfold balance, profiles_of. intros Hb ->.
  rewrite filter_update by (repeat constructor; by apply to_json_lookup_None).
  destruct (List.filter _ _) as [|p [|? ?]]; try done. simpl.
  assert (to_json (obj [("package_credits", VNum n)]) !! "package_credits"
          = Some (json_of (VNum n))) as Hn by (by rewrite to_json_lookup).
  rewrite (lookup_union_Some_l _ _ _ _ Hn). by destruct n.
Qed.

Lemma balance_profile w u b :
  balance w u = Some b ->
  exists p, profiles_of w u = [p] /\
            get (project (Only ["package_credits"]) p) "package_credits" = VNum (Int b).
Proof.
  unfold balance. destruct (profiles_of w u) as [|p [|? ?]]; try done.
  intros H. exists p. split; [done|]. unfold get.
  rewrite project_lookup by set_solver.
  destruct (p !! "package_credits") as [[| | |[| | | |]|]|]; try done. by injection H as ->.
Qed.

End Backend.

(* ===================================================================== *)
(** * The class catalogue *)
(* ===================================================================== *)

Section Classes.

Lemma getClasses_run (w : World) :
  fst (getClasses w) =
    match coming w 0 with
    | Served _ => Resolved (class_of_row <$> table w "class_types")
    | Failed e => Rejected (Remote e)
    end.
Proof.
  unfold getClasses. unfold bind at 1. rewrite select_run.
  destruct (coming w 0); simpl; [|done]. by rewrite filter_all, list_fmap_id.
Qed.

End Classes.

(* ===================================================================== *)
(** * Booking and purchase, step by step *)
(* ===================================================================== *)

Section Credits.

Lemma gt_zero b : gt (VNum (Int b)) (VNum (Int 0)) = (0 <? b).
Proof. reflexivity. Qed.

Lemma sub_one b : sub (VNum (Int b)) (VNum (Int 1)) = VNum (round_int (b - 1)).
Proof. reflexivity. Qed.

(** A served pre-check that finds the enrollment stops the booking. *)
Lemma bookSession_enrolled w s u e :
  is_served (coming w 0) = true ->
  enrollments_of w s u = [e] ->
  bookSession s u w = (Rejected (JsError "Already enrolled"), advance w).
Proof.
  intros H0 He. unfold bookSession, bind.
  rewrite single_run. cbv beta iota.
  destruct (coming w 0); [|done].
  unfold enrollments_of in He. by rewrite He.
Qed.

Lemma enrollment_matches s u (gen : Row) :
  matches [("session_id", s); ("user_id", u)]
    (to_json (obj [("session_id", VStr s); ("user_id", VStr u)]) ∪ gen) = true.
Proof.
  assert (Hs : to_json (obj [("session_id", VStr s); ("user_id", VStr u)]) !! "session_id"
               = Some (VStr s)) by (by rewrite to_json_lookup).
  assert (Hu : to_json (obj [("session_id", VStr s); ("user_id", VStr u)]) !! "user_id"
               = Some (VStr u)) by (by rewrite to_json_lookup).
  unfold matches, eq_holds. cbn [forallb fst snd].
  rewrite (lookup_union_Some_l _ _ _ _ Hs), (lookup_union_Some_l _ _ _ _ Hu).
  cbn [ToString]. by rewrite !String.eqb_refl.
Qed.

(** When the pre-check yields no row, be it that its reply is lost or that
    it does not find exactly one, the booking goes on: the enrollment is
    inserted, and the error of the insert is the only one looked at; the
    balance is then read and, when positive, written back less one. *)
Lemma bookSession_not_found w s u :
  (is_served (coming w 0) = true -> forall e, enrollments_of w s u <> [e]) ->
  match coming w 1 with
  | Failed e =>
      fst (bookSession s u w) = Rejected (Remote e) /\
      tables (snd (bookSession s u w)) = tables w
  | Served gen =>
      fst (bookSession s u w) = Resolved tt /\
      table (snd (bookSession s u w)) "enrollments"
      = (table w "enrollments"
         ++ [to_json (obj [("session_id", VStr s); ("user_id", VStr u)]) ∪ gen])%list /\
      forall b, balance w u = Some b ->
        balance (snd (bookSession s u w)) u =
          if 0 <? b
          then match coming w 2, coming w 3 with
               | Served _, Served _ => stored (round_int (b - 1))
               | _, _ => Some b
               end
          else Some b
  end.
Proof.
  intros Hnone. unfold bookSession, bind.
  rewrite single_run. cbv beta iota.
  match goal with |- context [data ?r] => assert (Hd : data r = None) end.
  { destruct (coming w 0); [|done]. specialize (Hnone eq_refl).
    unfold enrollments_of in Hnone.
    destruct (List.filter _ _) as [|e [|? ?]]; try done. by destruct (Hnone e). }
  rewrite Hd. clear Hd.
  rewrite insert_run, coming_advance.
  destruct (coming w 1) as [gen|e1]; cbn [throw_if_error error throw ret fst snd].
  2:{ split; [done|]. by rewrite !tables_advance. }
  set (w2 := set_tables _ (advance (advance w))).
  assert (Hw2 : table w2 "profiles" = table w "profiles").
  { unfold w2. rewrite table_insert_other by done. by rewrite !table_advance. }
  assert (He2 : table w2 "enrollments"
                = (table w "enrollments"
                   ++ [to_json (obj [("session_id", VStr s); ("user_id", VStr u)]) ∪ gen])%list).
  { unfold w2. by rewrite table_insert_same, !table_advance. }
  assert (C2 : coming w2 0 = coming w 2).
  { unfold w2. change (coming (set_tables ?t ?w') 0) with (coming w' 0).
    by rewrite !coming_advance. }
  assert (C3 : coming (advance w2) 0 = coming w 3).
  { rewrite coming_advance. unfold w2.
    change (coming (set_tables ?t ?w') 1) with (coming w' 1).
    by rewrite !coming_advance. }
  rewrite single_run. cbv beta iota. rewrite C2.
  split; [|split].
  - destruct (coming w 2); cbn [data ret fst]; [|done].
    destruct (List.filter _ _) as [|p [|? ?]]; cbn [data ret fst]; try done.
    destruct (gt _ _); [|done]. rewrite update_run. by destruct (coming (advance w2) 0).
  - destruct (coming w 2); cbn [data ret snd]; [|by rewrite table_advance].
    destruct (List.filter _ _) as [|p [|? ?]]; cbn [data ret snd];
      try (by rewrite table_advance).
    destruct (gt _ _); cbn [ret snd]; [|by rewrite table_advance].
    rewrite update_run.
    destruct (coming (advance w2) 0); cbn [ret snd].
    + rewrite table_insert_other by done. by rewrite table_advance.
    + by rewrite !table_advance.
  - intros b Hb.
    assert (Hskip : forall w', table w' "profiles" = table w "profiles" ->
              balance w' u = Some b).
    { intros w' H. by rewrite (balance_frame _ _ _ H). }
    destruct (balance_profile w u b Hb) as (p & Hp & Hcred).
    unfold profiles_of in Hp. rewrite Hw2, Hp.
    destruct (coming w 2) as [g2|e2]; cbn [data ret snd].
    2:{ rewrite Hskip by (by rewrite table_advance). by destruct (0 <? b). }
    rewrite Hcred, gt_zero, sub_one.
    destruct (0 <? b); cbn [ret snd]; [|apply Hskip; by rewrite table_advance].
    rewrite update_run, C3.
    destruct (coming w 3) as [g3|e3]; cbn [ret snd].
    + apply (balance_update w _ u b); [done|].
      by rewrite table_insert_same, table_advance, Hw2.
    + apply Hskip. by rewrite !table_advance.
Qed.


(** A booking leaves the balance as it was or takes one credit from a
    positive balance, whatever the replies. *)
Lemma bookSession_balance w s u b :
  balance w u = Some b ->
  balance (snd (bookSession s u w)) u = Some b \/
  (0 < b /\ balance (snd (bookSession s u w)) u = stored (round_int (b - 1))).
Proof.
  intros Hb.
  destruct (is_served (coming w 0)) eqn:H0;
    [destruct (enrollments_of w s u) as [|e [|e' l]] eqn:He|].
  2:{ rewrite (bookSession_enrolled w s u e H0 He). left. cbn [snd].
      rewrite <- Hb. apply balance_frame, table_advance. }
  all: assert (Hnone : is_served (coming w 0) = true ->
                       forall e0, enrollments_of w s u <> [e0])
         by (intros; congruence).
  all: pose proof (bookSession_not_found w s u Hnone) as Hrun.
  all: destruct (coming w 1) as [gen|e1];
         [destruct Hrun as (_ & _ & Hbal); rewrite (Hbal b Hb)
         |destruct Hrun as [_ Ht]; left; rewrite <- Hb; apply balance_frame;
          unfold table; by rewrite Ht].
  all: destruct (Z.ltb_spec 0 b); [|by left].
  all: destruct (coming w 2); [|by left]; destruct (coming w 3); [by right | by left].
Qed.

(** With a reliable backend, booking a session the user is not enrolled in
    succeeds and leaves exactly one enrollment row. *)
Lemma bookSession_new w s u :
  reliable w ->
  enrollments_of w s u = [] ->
  fst (bookSession s u w) = Resolved tt /\
  reliable (snd (bookSession s u w)) /\
  exists row, enrollments_of (snd (bookSession s u w)) s u = [row].
Proof.
  intros Hr He. unfold bookSession, bind.
  rewrite single_run. cbv beta iota.
  destruct (reliable_served w Hr) as [g0 ->].
  unfold enrollments_of in He. rewrite He. cbn [data].
  rewrite insert_run.
  pose proof (reliable_advance w Hr) as Hr1.
  destruct (reliable_served _ Hr1) as [gen ->].
  cbn [throw_if_error error throw ret snd].
  set (w2 := set_tables _ (advance (advance w))).
  assert (Hr2 : reliable w2) by (by apply reliable_written).
  assert (He2 : exists row, enrollments_of w2 s u = [row]).
  { eexists. unfold enrollments_of, w2. rewrite table_insert_same, table_advance.
    rewrite List.filter_app, He. cbn [List.filter app].
    by rewrite enrollment_matches. }
  assert (Hkeep : forall w', table w' "enrollments" = table w2 "enrollments" ->
            exists row, enrollments_of w' s u = [row]).
  { intros w' H. destruct He2 as [row Hrow]. exists row.
    unfold enrollments_of in *. by rewrite H. }
  rewrite single_run. cbv beta iota.
  destruct (reliable_served _ Hr2) as [g2 ->].
  pose proof (reliable_advance w2 Hr2) as Hr3.
  assert (Hdone : (Resolved tt, advance w2).1 = Resolved tt /\
                  reliable (advance w2) /\
                  exists row, enrollments_of (advance w2) s u = [row]).
  { repeat split; [done|]. apply Hkeep, table_advance. }
  destruct (List.filter _ (table w2 "profiles")) as [|p [|? ?]]; cbn [data ret]; try done.
  destruct (gt _ _); [|done].
  rewrite update_run.
  destruct (reliable_served _ Hr3) as [g3 ->]. cbn [ret fst snd].
  repeat split; [by apply reliable_written|].
  apply Hkeep. rewrite table_insert_other by done. apply table_advance.
Qed.

(** A purchase of an existing package with integer credits, reply by
    reply: a lost look-up of the package reads as 'Package not found'; the
    error of the insert into the ledger is raised; the errors of the read
    of the balance and of its update are not looked at. *)
Lemma purchasePackage_run w u pid (P : Row) b c :
  balance w u = Some b ->
  packages_of w pid = [P] ->
  P !! "credits" = Some (VNum (Int c)) ->
  match coming w 0 with
  | Failed _ =>
      fst (purchasePackage u pid w) = Rejected (JsError "Package not found") /\
      tables (snd (purchasePackage u pid w)) = tables w
  | Served _ =>
      match coming w 1 with
      | Failed e =>
          fst (purchasePackage u pid w) = Rejected (Remote e) /\
          tables (snd (purchasePackage u pid w)) = tables w
      | Served gen =>
          fst (purchasePackage u pid w) = Resolved tt /\
          table (snd (purchasePackage u pid w)) "purchases"
          = (table w "purchases" ++ [to_json (purchase_body u pid P) ∪ gen])%list /\
          balance (snd (purchasePackage u pid w)) u =
            match coming w 3 with
            | Failed _ => Some b
            | Served _ =>
                match coming w 2 with
                | Served _ => stored (round_int (b + c))
                | Failed _ => stored (round_int (0 + c))
                end
            end
      end
  end.
Proof.
  intros Hb HP Hc. unfold purchasePackage, bind.
  rewrite single_run. cbv beta iota.
  destruct (coming w 0) as [g0|e0]; cbn [data throw fst snd].
  2:{ split; [done | apply tables_advance]. }
  unfold packages_of in HP. rewrite HP. cbn [data project].
  rewrite insert_run, coming_advance.
  destruct (coming w 1) as [gen|e1]; cbn [throw_if_error error throw ret fst snd].
  2:{ split; [done|]. by rewrite !tables_advance. }
  set (w2 := set_tables _ (advance (advance w))).
  assert (Hw2 : table w2 "profiles" = table w "profiles").
  { unfold w2. rewrite table_insert_other by done. by rewrite !table_advance. }
  assert (Hl2 : table w2 "purchases"
                = (table w "purchases" ++ [to_json (purchase_body u pid P) ∪ gen])%list).
  { unfold w2. by rewrite table_insert_same, !table_advance. }
  assert (C2 : coming w2 0 = coming w 2).
  { unfold w2. change (coming (set_tables ?t ?w') 0) with (coming w' 0).
    by rewrite !coming_advance. }
  assert (C3 : coming (advance w2) 0 = coming w 3).
  { rewrite coming_advance. unfold w2.
    change (coming (set_tables ?t ?w') 1) with (coming w' 1).
    by rewrite !coming_advance. }
  assert (Hskip : forall w', table w' "profiles" = table w "profiles" ->
            balance w' u = Some b).
  { intros w' H. by rewrite (balance_frame _ _ _ H). }
  rewrite single_run. cbv beta iota. rewrite C2.
  destruct (balance_profile w u b Hb) as (p & Hp & Hcred).
  unfold profiles_of in Hp. rewrite Hw2, Hp.
  replace (get P "credits") with (VNum (Int c)) by (unfold get; by rewrite Hc).
  rewrite update_run, C3.
  assert (Hsum : forall n : num,
            (Resolved tt,
             set_tables
               (<["profiles" :=
                    (fun r => if matches [("id", u)] r
                              then to_json (obj [("package_credits", VNum n)]) ∪ r else r)
                      <$> table (advance w2) "profiles"]> (tables (advance w2)))
               (advance (advance w2))).1 = Resolved tt /\
            table (set_tables
               (<["profiles" :=
                    (fun r => if matches [("id", u)] r
                              then to_json (obj [("package_credits", VNum n)]) ∪ r else r)
                      <$> table (advance w2) "profiles"]> (tables (advance w2)))
               (advance (advance w2))) "purchases"
            = (table w "purchases" ++ [to_json (purchase_body u pid P) ∪ gen])%list /\
            balance (set_tables
               (<["profiles" :=
                    (fun r => if matches [("id", u)] r
                              then to_json (obj [("package_credits", VNum n)]) ∪ r else r)
                      <$> table (advance w2) "profiles"]> (tables (advance w2)))
               (advance (advance w2))) u = stored n).
  { intros n. split; [done|]. split.
    - rewrite table_insert_other by done. by rewrite !table_advance.
    - apply (balance_update w _ u b); [done|].
      by rewrite table_insert_same, table_advance, Hw2. }
  assert (Hlost : (Resolved tt, advance (advance w2)).1 = Resolved tt /\
                  table (advance (advance w2)) "purchases"
                  = (table w "purchases" ++ [to_json (purchase_body u pid P) ∪ gen])%list /\
                  balance (advance (advance w2)) u = Some b).
  { split; [done|]. split; [by rewrite !table_advance|].
    apply Hskip. by rewrite !table_advance. }
  destruct (coming w 2) as [g2|e2]; cbn [data].
  - rewrite Hcred, add_credits.
    destruct (coming w 3) as [g3|e3]; cbn [ret]; [apply Hsum | apply Hlost].
  - change (add (logical_or VUndef (VNum (Int 0))) (VNum (Int c)))
      with (VNum (round_int (0 + c))).
    destruct (coming w 3) as [g3|e3]; cbn [ret]; [apply Hsum | apply Hlost].
Qed.

(** With a reliable backend the purchase completes: the ledger gains the
    row sent, and the balance the credits. *)
Lemma purchasePackage_reliable w u pid (P : Row) b c :
  reliable w ->
  balance w u = Some b ->
  packages_of w pid = [P] ->
  P !! "credits" = Some (VNum (Int c)) ->
  fst (purchasePackage u pid w) = Resolved tt /\
  balance (snd (purchasePackage u pid w)) u = stored (round_int (b + c)) /\
  exists gen,
    table (snd (purchasePackage u pid w)) "purchases"
    = (table w "purchases" ++ [to_json (purchase_body u pid P) ∪ gen])%list.
Proof.
  intros Hr Hb HP Hc.
  pose proof (purchasePackage_run w u pid P b c Hb HP Hc) as Hrun.
  pose proof (reliable_coming w 0 Hr) as S0. pose proof (reliable_coming w 1 Hr) as S1.
  pose proof (reliable_coming w 2 Hr) as S2. pose proof (reliable_coming w 3 Hr) as S3.
  destruct (coming w 0); [|discriminate S0]. destruct (coming w 1) as [g1|]; [|discriminate S1].
  destruct (coming w 2); [|discriminate S2]. destruct (coming w 3); [|discriminate S3].
  destruct Hrun as (Hres & Hrow & Hbal). eauto.
Qed.

(** Changing a package leaves the ledger alone. *)
Lemma updatePackage_purchases pkg w :
  table (snd (updatePackage pkg w)) "purchases" = table w "purchases".
Proof.
  unfold updatePackage, bind. rewrite update_run.
  destruct (coming w 0); cbn [throw_if_error error throw ret snd].
  - by rewrite table_insert_other.
  - apply table_advance.
Qed.

(** The row a purchase appends holds the user and the name, the price and
    the credits of the package row, as values. *)
Lemma purchase_row_fields u pid (P gen : Row) name price c :
  P !! "name" = Some name -> json_value name ->
  P !! "price" = Some price -> json_value price ->
  P !! "credits" = Some (VNum (Int c)) ->
  (to_json (purchase_body u pid P) ∪ gen) !! "user_id" = Some (VStr u) /\
  (to_json (purchase_body u pid P) ∪ gen) !! "package_name" = Some name /\
  (to_json (purchase_body u pid P) ∪ gen) !! "amount_paid" = Some price /\
  (to_json (purchase_body u pid P) ∪ gen) !! "credits_added" = Some (VNum (Int c)).
Proof.
  intros Hn Hnj Ha Haj Hc.
  unfold purchase_body, get. rewrite Hn, Ha, Hc. cbn [default].
  repeat split; apply lookup_union_Some_l;
    (apply to_json_lookup_Some; [reflexivity | done || by split]).
Qed.

End Credits.

(* ===================================================================== *)
(** * The properties of the specification *)
(* ===================================================================== *)




(** C2, as the code has it.  For a user holding a balance and an existing
    package P with a name, a price and integer credits, purchasePackage
    completes exactly when the look-up of the package and the insert into
    the ledger are served.  The ledger has then gained one row holding P's
    name, price and credits as values of its own, which a later change of
    the package leaves as it is.  The balance is the double next to the
    balance before plus P's credits when the read of the balance and its
    update are served (the sum itself up to 2^53); it is P's credits alone
    when the read is lost, and unchanged when the update is lost. *)
Theorem purchasePackage_adds_and_records
    (w : World) (u pid : string) (P : Row) (name price : JsVal) (b c : Z) :
  balance w u = Some b ->
  packages_of w pid = [P] ->
  P !! "name" = Some name -> json_value name ->
  P !! "price" = Some price -> json_value price ->
  P !! "credits" = Some (VNum (Int c)) ->
  let w1 := snd (purchasePackage u pid w) in
  (fst (purchasePackage u pid w) = Resolved tt <->
   is_served (coming w 0) = true /\ is_served (coming w 1) = true) /\
  (fst (purchasePackage u pid w) = Resolved tt ->
   (exists row,
      table w1 "purchases" = (table w "purchases" ++ [row])%list /\
      row !! "user_id" = Some (VStr u) /\
      row !! "package_name" = Some name /\
      row !! "amount_paid" = Some price /\
      row !! "credits_added" = Some (VNum (Int c))) /\
   (forall pkg, table (snd (updatePackage pkg w1)) "purchases" = table w1 "purchases") /\
   balance w1 u =
     match coming w 3 with
     | Failed _ => Some b
     | Served _ =>
         match coming w 2 with
         | Served _ => stored (round_int (b + c))
         | Failed _ => stored (round_int (0 + c))
         end
     end /\
   (is_served (coming w 2) = true -> is_served (coming w 3) = true ->
    Z.abs (b + c) <= 2 ^ 53 -> balance w1 u = Some (b + c))).
Proof.
  intros Hb HP Hn Hnj Ha Haj Hc w1.
  pose proof (purchasePackage_run w u pid P b c Hb HP Hc) as Hrun. fold w1 in Hrun.
  destruct (coming w 0) as [g0|e0].
  2:{ destruct Hrun as [Hrej _]. split; [split|]; [congruence | by intros [? _] | congruence]. }
  destruct (coming w 1) as [gen|e1].
  2:{ destruct Hrun as [Hrej _]. split; [split|]; [congruence | by intros [_ ?] | congruence]. }
  destruct Hrun as (Hres & Hrow & Hbal). split; [done|]. intros _.
  split; [|split; [|split]].
  - exists (to_json (purchase_body u pid P) ∪ gen). split; [done|].
    by apply purchase_row_fields.
  - intros pkg. apply updatePackage_purchases.
  - exact Hbal.
  - intros S2 S3 Hsafe. rewrite Hbal.
    destruct (coming w 3); [|discriminate S3]. destruct (coming w 2); [|discriminate S2].
    by rewrite round_int_exact.
Qed.

Lemma purchasePackage_adds_and_records_witness :
  balance sample_world "u1" = Some 2 /\
  packages_of sample_world "p1" = [sample_package] /\
  fst (purchasePackage "u1" "p1" sample_world) = Resolved tt /\
  (exists row,
     table (snd (purchasePackage "u1" "p1" sample_world)) "purchases"
     = (table sample_world "purchases" ++ [row])%list /\
     row !! "user_id" = Some (VStr "u1") /\
     row !! "package_name" = Some (VStr "Ten lessons") /\
     row !! "amount_paid" = Some (VNum (Int 100)) /\
     row !! "credits_added" = Some (VNum (Int 10))) /\
  balance (snd (purchasePackage "u1" "p1" sample_world)) "u1" = Some (2 + 10) /\
  balance (set_balance (2 ^ 53 - 9) sample_world) "u1" = Some (2 ^ 53 - 9) /\
  balance (snd (purchasePackage "u1" "p1" (set_balance (2 ^ 53 - 9) sample_world))) "u1"
  = Some (2 ^ 53).
Proof.
  do 2 (split; [reflexivity|]).
  destruct (purchasePackage_adds_and_records (set_balance (2 ^ 53 - 9) sample_world)
              "u1" "p1" sample_package (VStr "Ten lessons") (VNum (Int 100)) (2 ^ 53 - 9) 10
              eq_refl eq_refl eq_refl (json_value_text _) eq_refl (json_value_integer _)
              eq_refl) as [Hiff' Hdone'].
  assert (Hres' : fst (purchasePackage "u1" "p1" (set_balance (2 ^ 53 - 9) sample_world))
                  = Resolved tt) by (apply Hiff'; split; reflexivity).
  destruct (Hdone' Hres') as (_ & _ & Hlarge & _).
  destruct (purchasePackage_adds_and_records sample_world "u1" "p1" sample_package
              (VStr "Ten lessons") (VNum (Int 100)) 2 10
              eq_refl eq_refl eq_refl (json_value_text _) eq_refl (json_value_integer _)
              eq_refl) as [Hiff Hdone].
  assert (Hres : fst (purchasePackage "u1" "p1" sample_world) = Resolved tt)
    by (apply Hiff; split; reflexivity).
  destruct (Hdone Hres) as (Hrow & _ & _ & Hsum).
  split; [exact Hres|]. split; [exact Hrow|].
  split; [apply Hsum; [reflexivity | reflexivity | vm_compute; discriminate]|].
  split; [reflexivity | exact Hlarge].
Defined.

(** C2, as stated, fails: when the reply to the update of the balance is
    lost, purchasePackage completes and the ledger has gained its row, but
    the balance is the balance before, not the balance before plus the
    credits. *)
Lemma purchasePackage_completes_without_credits :
  balance update_lost "u1" = Some 2 /\
  packages_of update_lost "p1" = [sample_package] /\
  sample_package !! "credits" = Some (VNum (Int 10)) /\
  coming update_lost 3 = Failed network_down /\
  fst (purchasePackage "u1" "p1" update_lost) = Resolved tt /\
  length (table (snd (purchasePackage "u1" "p1" update_lost)) "purchases") = 1%nat /\
  balance (snd (purchasePackage "u1" "p1" update_lost)) "u1" = Some 2 /\
  balance (snd (purchasePackage "u1" "p1" update_lost)) "u1" <> Some (2 + 10).
Proof. vm_compute. repeat split. discriminate. Qed.




(** createUser fails for every input with an error that names the missing
    backend function. *)
Lemma createUser_rejects (user : User.t) (w : World) :
  fst (createUser user w) = Rejected (JsError "Admin user creation requires backend function").
Proof. reflexivity. Qed.

(** C3.  deleteUser, for every id and every world, returns normally: it
    writes a warning to the console and neither raises an error nor
    changes a table, so the profile it was asked to delete is still
    there. *)
Theorem deleteUser_returns_normally (id : string) (w : World) :
  fst (deleteUser id w) = Resolved tt /\
  tables (snd (deleteUser id w)) = tables w /\
  console (snd (deleteUser id w))
  = (console w ++ [{| level := LWarn; text := "Deleting users requires Admin API";
                      detail := None |}])%list.
Proof. repeat split. Qed.

Example deleteUser_keeps_the_profile :
  fst (deleteUser "u1" sample_world) = Resolved tt /\
  length (profiles_of (snd (deleteUser "u1" sample_world)) "u1") = 1%nat.
Proof. by vm_compute. Qed.

(** C4. For a day of the week between 0 and 6, an availability written by
    createAvailability and read back by getAvailability for its
    instructor, both requests being served, comes back last in the list
    with the same integer as its day, whether the store keeps the day as
    the text sent or as an integer. *)
Theorem dayOfWeek_round_trip
    (w : World) (avail : Availability.t) (i : string) (d : Z) (col : DayColumn) :
  0 <= d <= 6 ->
  Availability.dayOfWeek avail = VNum (Int d) ->
  Availability.instructorId avail = VStr i ->
  is_served (coming w 0) = true ->
  is_served (coming w 1) = true ->
  let w1 := recast_days col (snd (createAvailability avail w)) in
  fst (createAvailability avail w) = Resolved tt /\
  exists earlier a,
    fst (getAvailability i w1) = Resolved (earlier ++ [a])%list /\
    Availability.instructorId a = VStr i /\
    Availability.dayOfWeek a = VNum (Int d).
Proof.
  intros Hday Hd Hi H0 H1 w1. unfold w1, createAvailability, bind.
  rewrite insert_run. rewrite Hd, Hi.
  destruct (coming w 0) as [gen|]; [|simpl in H0; discriminate H0].
  cbn [throw_if_error error ret fst snd].
  split; [done|].
  set (row := to_json _ ∪ gen).
  assert (Hrow_i : row !! "instructor_id" = Some (VStr i)).
  { apply lookup_union_Some_l. by rewrite to_json_lookup. }
  assert (Hrow_d : row !! "day_of_week" = Some (String_ (VNum (Int d)))).
  { apply lookup_union_Some_l. by rewrite to_json_lookup. }
  set (row' := hold_day col row).
  assert (Hrow'_i : row' !! "instructor_id" = Some (VStr i)).
  { unfold row', hold_day. rewrite Hrow_d. by rewrite lookup_insert_ne. }
  assert (Hrow'_d : row' !! "day_of_week" = Some (held col (String_ (VNum (Int d))))).
  { unfold row', hold_day. rewrite Hrow_d. by rewrite lookup_insert_eq. }
  unfold getAvailability, bind. rewrite select_run.
  unfold recast_days at 1.
  change (coming (set_tables ?t ?w') 0) with (coming w' 0).
  change (coming (set_tables ?t ?w') 0) with (coming w' 0).
  rewrite coming_advance.
  destruct (coming w 1); [|simpl in H1; discriminate H1].
  cbn [throw_if_error error ret deref data fst snd].
  unfold recast_days. rewrite table_insert_same, table_insert_same.
  rewrite fmap_app, List.filter_app, fmap_app. cbn [fmap list_fmap List.filter].
  fold row row'.
  assert (Hm : matches [("instructor_id", i)] row' = true).
  { unfold matches, eq_holds. cbn [forallb fst snd]. rewrite Hrow'_i.
    cbn [ToString]. by rewrite String.eqb_refl. }
  rewrite Hm. rewrite !fmap_app.
  eexists _, _. split; [reflexivity|].
  unfold availability_of_row, get. cbn [Availability.instructorId Availability.dayOfWeek].
  cbn [project]. rewrite Hrow'_i, Hrow'_d. cbn [default]. split; [done|]. by apply Number_held_day.
Qed.

Lemma dayOfWeek_round_trip_witness :
  0 <= 3 <= 6 /\
  Availability.dayOfWeek sample_availability = VNum (Int 3) /\
  Availability.instructorId sample_availability = VStr "i1" /\
  is_served (coming sample_world 0) = true /\
  is_served (coming sample_world 1) = true /\
  let w1 := recast_days AsInteger (snd (createAvailability sample_availability sample_world)) in
  fst (createAvailability sample_availability sample_world) = Resolved tt /\
  exists earlier a,
    fst (getAvailability "i1" w1) = Resolved (earlier ++ [a])%list /\
    Availability.instructorId a = VStr "i1" /\
    Availability.dayOfWeek a = VNum (Int 3).
Proof.
  split; [lia|]. do 4 (split; [reflexivity|]).
  apply (dayOfWeek_round_trip sample_world sample_availability "i1" 3 AsInteger);
    [lia | reflexivity | reflexivity | reflexivity | reflexivity].
Defined.

(** C5, as the code has it.  getUserById never raises an error: it returns
    the user of the row when the request is served and exactly one profile
    row has the id, and an absent result in every other case, be it that
    no row was found or that the request failed. *)
Theorem getUserById_absent_on_any_error (id : string) (w : World) :
  fst (getUserById id w) =
    Resolved match coming w 0 with
             | Failed _ => None
             | Served _ =>
                 match profiles_of w id with
                 | [p] => Some (user_of_profile p)
                 | _ => None
                 end
             end.
Proof.
  unfold getUserById, bind. rewrite single_run. cbv beta iota.
  destruct (coming w 0); [|done]. unfold profiles_of.
  by destruct (List.filter _ _) as [|p [|? ?]].
Qed.

(** C5, as stated, fails: when the request cannot reach the backend the
    failure is not passed on to the caller, who gets an absent result as if
    the user did not exist, although the profile row is there. *)
Lemma getUserById_swallows_failure :
  coming offline_world 0 = Failed network_down /\
  (exists p, profiles_of offline_world "u1" = [p]) /\
  fst (getUserById "u1" offline_world) = Resolved None /\
  fst (getUserById "u1" offline_world) <> Rejected (Remote network_down).
Proof.
  split; [reflexivity|]. split; [by eexists|]. split; [reflexivity|]. by vm_compute.
Qed.

(** C6. When the settings table has no rows, getSettings returns exactly
    the defaults (25, 24, false and the default contact email), unless the
    request fails, in which case it raises the failure; the default email
    holds no quote character. *)
Theorem getSettings_defaults (w : World) :
  table w "settings" = [] ->
  fst (getSettings w) =
    match coming w 0 with
    | Served _ => Resolved default_settings
    | Failed e => Rejected (Remote e)
    end /\
  Settings.poolCapacity default_settings = VNum (Int 25) /\
  Settings.cancellationHours default_settings = VNum (Int 24) /\
  Settings.maintenanceMode default_settings = VBool false /\
  Settings.contactEmail default_settings = VStr "admin@lovableswim.com" /\
  has_char quote_char "admin@lovableswim.com" = false.
Proof.
  intros Hempty. split; [|by repeat split].
  unfold getSettings. unfold bind at 1. rewrite select_run, Hempty.
  by destruct (coming w 0).
Qed.

Lemma getSettings_defaults_witness :
  table sample_world "settings" = [] /\
  fst (getSettings sample_world) = Resolved default_settings.
Proof.
  split; [reflexivity|].
  exact (proj1 (getSettings_defaults sample_world eq_refl)).
Defined.

(** C7. Every class getClasses returns has its single price and its
    package price equal, both being the value of the price column of the
    row it comes from. *)
Theorem getClasses_one_price (w : World) (cs : list ClassType.t) :
  fst (getClasses w) = Resolved cs ->
  Forall2 (fun row c =>
             ClassType.priceSingle c = get row "price" /\
             ClassType.pricePackage c = get row "price" /\
             ClassType.priceSingle c = ClassType.pricePackage c)
    (table w "class_types") cs.
Proof.
  rewrite getClasses_run. destruct (coming w 0); [|done].
  intros [= <-]. induction (table w "class_types"); constructor; auto.
Qed.

Lemma getClasses_one_price_witness :
  fst (getClasses sample_world) = Resolved [class_of_row (obj
      [("id", VStr "c1"); ("name", VStr "Stroke clinic");
       ("duration_minutes", VNum (Int 45)); ("price", VNum (Int 30));
       ("capacity", VNum (Int 8)); ("difficulty", VStr "Advanced")])] /\
  Forall2 (fun row c =>
             ClassType.priceSingle c = get row "price" /\
             ClassType.pricePackage c = get row "price" /\
             ClassType.priceSingle c = ClassType.pricePackage c)
    (table sample_world "class_types")
    [class_of_row (obj
      [("id", VStr "c1"); ("name", VStr "Stroke clinic");
       ("duration_minutes", VNum (Int 45)); ("price", VNum (Int 30));
       ("capacity", VNum (Int 8)); ("difficulty", VStr "Advanced")])].
Proof.
  split; [reflexivity|].
  apply (getClasses_one_price sample_world); reflexivity.
Defined.

(** C9. getCurrentUser resolves the authenticated identity, then fetches
    its profile row; it returns the user of that row when both steps
    succeed and null when either fails: no identity (nobody signed in, or
    the request failed), or no profile (the request failed, or it did not
    find exactly one row).  It never raises an error. *)
Theorem getCurrentUser_null_when_a_step_fails (w : World) :
  fst (getCurrentUser w) =
    Resolved match coming w 0, session w with
             | Served _, Some uid =>
                 match coming w 1, profiles_of w uid with
                 | Served _, [p] => Some (user_of_profile p)
                 | _, _ => None
                 end
             | _, _ => None
             end.
Proof.
  unfold getCurrentUser, bind at 1, auth_getUser.
  rewrite next_reply_coming.
  destruct (coming w 0) as [g|e]; [|done].
  rewrite session_advance. destruct (session w) as [uid|]; [|done].
  rewrite <- (coming_advance w 0). unfold profiles_of. rewrite <- (table_advance w).
  unfold bind. rewrite single_run. cbv beta iota.
  destruct (coming (advance w) 0); [|done].
  by destruct (List.filter _ _) as [|p [|? ?]].
Qed.

Example getCurrentUser_signed_in :
  fst (getCurrentUser sample_world) =
    Resolved (Some {| User.id := VStr "u1"; User.email := VStr "ann@example.com";
                      User.name := VStr "Ann"; User.role := VStr "client";
                      User.avatarUrl := VUndef; User.packageCredits := VNum (Int 2) |}).
Proof. reflexivity. Qed.

Example getCurrentUser_signed_out :
  fst (getCurrentUser {| tables := tables sample_world; session := None;
                         wire := []; console := [] |}) = Resolved None.
Proof. reflexivity. Qed.

Example getCurrentUser_identity_unreachable :
  fst (getCurrentUser offline_world) = Resolved None.
Proof. reflexivity. Qed.

Example getCurrentUser_profile_unreachable :
  fst (getCurrentUser (set_wire [Served ∅; Failed network_down] sample_world))
  = Resolved None.
Proof. reflexivity. Qed.

(** C10. Every class getClasses returns has the difficulty 'Beginner',
    whatever its row stores.  A served createClass appends one row whose
    every column beyond name, description, duration_minutes, capacity and
    price is what the backend generates for it, and updateClass leaves
    every column beyond name, description, duration_minutes and price of
    every row as it was: neither writes a difficulty or a package price,
    neither changes another table, and the difficulty and the package
    price of the class passed make no difference to either call. *)
Theorem class_difficulty_fixed_and_never_written
    (w : World) (cls : ClassType.t) (d pp : JsVal) :
  (forall cs, fst (getClasses w) = Resolved cs ->
     Forall (fun c => ClassType.difficulty c = VStr "Beginner") cs) /\
  match coming w 0 with
  | Served gen =>
      exists row,
        table (snd (createClass cls w)) "class_types"
        = (table w "class_types" ++ [row])%list /\
        row !! "difficulty" = gen !! "difficulty" /\
        forall k, k ∉ createClass_columns -> row !! k = gen !! k
  | Failed _ =>
      table (snd (createClass cls w)) "class_types" = table w "class_types"
  end /\
  Forall2 (fun r r' : Row =>
             r' !! "difficulty" = r !! "difficulty" /\
             forall k, k ∉ updateClass_columns -> r' !! k = r !! k)
    (table w "class_types") (table (snd (updateClass cls w)) "class_types") /\
  (forall t, t <> "class_types" ->
     table (snd (createClass cls w)) t = table w t /\
     table (snd (updateClass cls w)) t = table w t) /\
  createClass (with_difficulty cls d pp) = createClass cls /\
  updateClass (with_difficulty cls d pp) = updateClass cls.
Proof.
  assert (Hcreate : forall k, k ∉ createClass_columns ->
                      to_json (createClass_body cls) !! k = None).
  { intros k Hk. apply to_json_lookup_None, obj_lookup_other. exact Hk. }
  assert (Hupdate : forall k, k ∉ updateClass_columns ->
                      to_json (updateClass_body cls) !! k = None).
  { intros k Hk. apply to_json_lookup_None, obj_lookup_other. exact Hk. }
  assert (Hdc : "difficulty" ∉ createClass_columns).
  { unfold createClass_columns. rewrite !not_elem_of_cons.
    repeat split; try done. apply not_elem_of_nil. }
  assert (Hdu : "difficulty" ∉ updateClass_columns).
  { unfold updateClass_columns. rewrite !not_elem_of_cons.
    repeat split; try done. apply not_elem_of_nil. }
  split; [|split; [|split; [|split; [|split]]]].
  - intros cs Hget. rewrite getClasses_run in Hget. destruct (coming w 0); [|done].
    injection Hget as <-. induction (table w "class_types"); constructor; auto.
  - unfold createClass, bind. rewrite insert_run.
    destruct (coming w 0) as [gen|e]; cbn [throw_if_error error throw ret snd].
    + eexists. split; [by rewrite table_insert_same|]. split.
      * apply lookup_union_r, Hcreate, Hdc.
      * intros k Hk. apply lookup_union_r, Hcreate, Hk.
    + apply table_advance.
  - unfold updateClass, bind. rewrite update_run.
    destruct (coming w 0) as [gen|e]; cbn [throw_if_error error throw ret snd].
    + rewrite table_insert_same. apply Forall2_fmap_r, Forall_Forall2_diag, Forall_forall.
      intros r _. unfold compose. destruct (matches [("id", ToString (ClassType.id cls))] r); [|by split]. split.
      * apply lookup_union_r, Hupdate, Hdu.
      * intros k Hk. apply lookup_union_r, Hupdate, Hk.
    + rewrite table_advance. apply Forall_Forall2_diag, Forall_forall. by split.
  - intros t Ht. split.
    + unfold createClass, bind. rewrite insert_run.
      destruct (coming w 0); cbn [throw_if_error error throw ret snd];
        [by rewrite table_insert_other | apply table_advance].
    + unfold updateClass, bind. rewrite update_run.
      destruct (coming w 0); cbn [throw_if_error error throw ret snd];
        [by rewrite table_insert_other | apply table_advance].
  - reflexivity.
  - reflexivity.
Qed.

(** In the sample world, whose class row stores the difficulty
    'Advanced': the class is read as 'Beginner'; a class created with the
    difficulty 'Expert' is stored without a difficulty; and after an
    update that passes 'Expert' the row still stores 'Advanced'. *)
Lemma class_difficulty_fixed_and_never_written_witness :
  get (default ∅ (head (table sample_world "class_types"))) "difficulty" = VStr "Advanced" /\
  ClassType.difficulty (with_difficulty sample_class (VStr "Expert") (VNum (Int 1)))
  = VStr "Expert" /\
  Forall (fun c => ClassType.difficulty c = VStr "Beginner")
    (class_of_row <$> table sample_world "class_types") /\
  (exists row,
     table (snd (createClass (with_difficulty sample_class (VStr "Expert") (VNum (Int 1)))
                   sample_world)) "class_types"
     = (table sample_world "class_types" ++ [row])%list /\
     row !! "difficulty" = None) /\
  Forall2 (fun r r' : Row =>
             r' !! "difficulty" = r !! "difficulty" /\
             forall k, k ∉ updateClass_columns -> r' !! k = r !! k)
    (table sample_world "class_types")
    (table (snd (updateClass (with_difficulty sample_class (VStr "Expert") (VNum (Int 1)))
                   sample_world)) "class_types").
Proof.
  split; [reflexivity|]. split; [reflexivity|].
  destruct (class_difficulty_fixed_and_never_written sample_world
              (with_difficulty sample_class (VStr "Expert") (VNum (Int 1)))
              (VStr "Expert") (VNum (Int 1))) as (Hread & Hcreate & Hupdate & _).
  split; [by apply Hread|]. split; [|exact Hupdate].
  change (coming sample_world 0) with (Served ∅) in Hcreate.
  destruct Hcreate as (row & Hrow & Hd & _). exists row. split; [exact Hrow|].
  rewrite Hd. reflexivity.
Defined.

(* ===================================================================== *)
(** * Facts about the further requests *)
(* ===================================================================== *)

Section FurtherRequests.

Implicit Types (w : World) (t : string) (o r : Row) (fs : list (string * string)).

Lemma delete_run w t fs :
  delete t fs w =
    match coming w 0 with
    | Served _ =>
        (Resolved {| data := None; error := None |},
         set_tables
           (<[t := List.filter (fun r => negb (matches fs r)) (table w t)]> (tables w))
           (advance w))
    | Failed e => (Resolved {| data := None; error := Some e |}, advance w)
    end.
Proof.
  unfold delete. rewrite next_reply_coming.
  destruct (coming w 0); [|done]. by rewrite table_advance, tables_advance.
Qed.

Lemma upsert_run w t o onConflict :
  upsert t o onConflict w =
    match coming w 0 with
    | Served gen =>
        (Resolved {| data := None; error := None |},
         set_tables
           (<[t := if existsb (clashes (columns_of onConflict) (to_json o)) (table w t)
                   then (fun r => if clashes (columns_of onConflict) (to_json o) r
                                  then to_json o ∪ r else r) <$> table w t
                   else (table w t ++ [to_json o ∪ gen])%list]> (tables w))
           (advance w))
    | Failed e => (Resolved {| data := None; error := Some e |}, advance w)
    end.
Proof.
  unfold upsert. rewrite next_reply_coming.
  destruct (coming w 0); [|done]. by rewrite table_advance, tables_advance.
Qed.

Lemma select_descending_run w t c fs col :
  select_descending t c fs col w =
    (match coming w 0 with
     | Served _ =>
         Resolved {| data := Some (project c <$>
                                     merge_sort (descending col)
                                       (List.filter (matches fs) (table w t)));
                     error := None |}
     | Failed e => Resolved {| data := None; error := Some e |}
     end, advance w).
Proof.
  unfold select_descending. rewrite next_reply_coming.
  destruct (coming w 0); [|done]. by rewrite table_advance.
Qed.

Lemma embed_many_advance w t fk c r :
  embed_many (advance w) t fk c r = embed_many w t fk c r.
Proof. unfold embed_many. by rewrite table_advance. Qed.

Lemma embed_one_advance w t fk r :
  embed_one (advance w) t fk r = embed_one w t fk r.
Proof. unfold embed_one. by rewrite table_advance. Qed.

Lemma select_with_run w t fs many fk c :
  select_with t fs many fk c w =
    (match coming w 0 with
     | Served _ =>
         Resolved {| data := Some ((fun r => (r, embed_many w many fk c r))
                                     <$> List.filter (matches fs) (table w t));
                     error := None |}
     | Failed e => Resolved {| data := None; error := Some e |}
     end, advance w).
Proof.
  unfold select_with. rewrite next_reply_coming.
  destruct (coming w 0); [|done]. rewrite table_advance.
  do 4 f_equal. apply list_fmap_ext. intros _ r _. by rewrite embed_many_advance.
Qed.

Lemma select_through_run w t fs one fk1 many fk2 c :
  select_through t fs one fk1 many fk2 c w =
    (match coming w 0 with
     | Served _ =>
         Resolved {| data := Some ((fun r => (fun p => (p, embed_many w many fk2 c p))
                                               <$> embed_one w one fk1 r)
                                     <$> List.filter (matches fs) (table w t));
                     error := None |}
     | Failed e => Resolved {| data := None; error := Some e |}
     end, advance w).
Proof.
  unfold select_through. rewrite next_reply_coming.
  destruct (coming w 0); [|done]. rewrite table_advance.
  do 4 f_equal. apply list_fmap_ext. intros _ r _. rewrite embed_one_advance.
  destruct (embed_one w one fk1 r); simpl; [|done]. by rewrite embed_many_advance.
Qed.

Lemma key_le_total a b : key_le a b = true \/ key_le b a = true.
Proof.
  destruct a as [| | x |[|x|m k| |]|x], b as [| | y |[|y|m' k'| |]|y];
    cbn [key_le rank]; auto;
    try (rewrite !Z.leb_le; lia).
  - destruct x, y; auto.
  - apply String.leb_total.
Qed.

Lemma descending_total col : Total (descending col).
Proof. intros a b. unfold descending. destruct (key_le_total (get a col) (get b col)); auto. Qed.

End FurtherRequests.

(* ===================================================================== *)
(** * Further properties of the operations *)
(* ===================================================================== *)

(** ** Users *)

Lemma getUsers_run (w : World) :
  fst (getUsers w) =
    match coming w 0 with
    | Served _ => Resolved (user_of_profile <$> table w "profiles")
    | Failed e => Rejected (Remote e)
    end.
Proof.
  unfold getUsers. unfold bind at 1. rewrite select_run.
  destruct (coming w 0); simpl; [|done]. by rewrite filter_all, list_fmap_id.
Qed.

Lemma filter_In_bool {A} (f : A -> bool) (l : list A) x :
  x ∈ List.filter f l <-> x ∈ l /\ f x = true.
Proof. rewrite !list_elem_of_In. apply filter_In. Qed.

(** X1. A user that getUserById returns is among the users getUsers
    returns in the same world. *)
Theorem getUsers_lists_the_user_looked_up (w : World) (id : string) (u : User.t) :
  fst (getUserById id w) = Resolved (Some u) ->
  exists us, fst (getUsers w) = Resolved us /\ u ∈ us.
Proof.
  unfold getUserById, bind. rewrite single_run. cbv beta iota.
  rewrite getUsers_run.
  destruct (coming w 0); [|done].
  destruct (List.filter _ _) as [|p [|? ?]] eqn:Hp; try done.
  cbn [error data deref ret fst project]. intros [= <-].
  eexists. split; [done|].
  apply list_elem_of_fmap. exists p. split; [done|].
  assert (p ∈ List.filter (matches [("id", id)]) (table w "profiles")) as Hin
    by (rewrite Hp; apply list_elem_of_here).
  by apply filter_In_bool in Hin as [? _].
Qed.

Lemma getUsers_lists_the_user_looked_up_witness :
  fst (getUserById "u1" studio) = Resolved (Some (user_of_profile ann_row)) /\
  exists us, fst (getUsers studio) = Resolved us /\ user_of_profile ann_row ∈ us.
Proof.
  split; [reflexivity|].
  apply (getUsers_lists_the_user_looked_up studio "u1"); reflexivity.
Defined.

Lemma lookup_union_get (o r : Row) (k : string) :
  get (o ∪ r) k = match o !! k with Some v => v | None => get r k end.
Proof.
  unfold get. destruct (o !! k) as [v|] eqn:E.
  - by rewrite (lookup_union_Some_l _ _ _ _ E).
  - by rewrite lookup_union_r.
Qed.

Lemma logical_or_defined a b : b <> VUndef -> logical_or a b <> VUndef.
Proof. intros Hb. unfold logical_or. destruct (ToBoolean a) eqn:E; [|done]. by destruct a. Qed.

Lemma updateUser_updates_lookup (user : User.t) (k : string) :
  to_json (updateUser_updates user) !! k =
    if decide (k = "package_credits") then
      match User.packageCredits user with
      | VUndef => None
      | v => Some (json_of v)
      end
    else if decide (k = "role") then
      (if ToBoolean (User.role user) then Some (json_of (User.role user)) else None)
    else if decide (k = "full_name") then
      (if ToBoolean (User.name user) then Some (json_of (User.name user)) else None)
    else None.
Proof.
  rewrite to_json_lookup. unfold updateUser_updates.
  destruct (ToBoolean (User.name user)) eqn:Hn;
    destruct (ToBoolean (User.role user)) eqn:Hr;
    destruct (bool_decide _) eqn:Hc;
    try apply bool_decide_eq_true in Hc; try apply bool_decide_eq_false in Hc;
    repeat case_decide; subst;
    rewrite ?lookup_insert_eq, ?lookup_insert_ne, ?lookup_empty by done;
    try done;
    try (by destruct (User.packageCredits user) as [| | |[| | | |]|]);
    try (by destruct (User.role user) as [| | |[| | | |]|]);
    try (by destruct (User.name user) as [| | |[| | | |]|]).
  all: try (apply dec_stable in Hc; by rewrite Hc).
Qed.

(** X2. After a served updateUser of a user who has one profile row,
    getUserById returns that row with the name and the role replaced when
    the ones passed are truthy (an empty name or role is not written), the
    credits replaced unless they are undefined (so a 0 is written), each
    as JSON carries it (a number that is not finite as null), and the id,
    the email and the avatar as they were. *)
Theorem updateUser_then_getUserById
    (w : World) (user : User.t) (id : string) (p : Row) :
  User.id user = VStr id ->
  is_served (coming w 0) = true ->
  is_served (coming w 1) = true ->
  profiles_of w id = [p] ->
  let w1 := snd (updateUser user w) in
  fst (updateUser user w) = Resolved tt /\
  exists u,
    fst (getUserById id w1) = Resolved (Some u) /\
    User.name u = (if ToBoolean (User.name user) then json_of (User.name user)
                   else get p "full_name") /\
    User.role u = (if ToBoolean (User.role user) then json_of (User.role user)
                   else get p "role") /\
    User.packageCredits u = match User.packageCredits user with
                            | VUndef => get p "package_credits"
                            | v => json_of v
                            end /\
    User.id u = get p "id" /\
    User.email u = get p "email" /\
    User.avatarUrl u = get p "avatar_url".
Proof.
  intros Hid H0 H1 Hp w1. unfold w1, updateUser, bind.
  rewrite update_run, Hid. cbn [ToString].
  destruct (coming w 0) as [g0|]; [|simpl in H0; discriminate H0].
  cbn [throw_if_error error ret fst snd]. split; [done|].
  set (U := to_json (updateUser_updates user)).
  set (w2 := set_tables _ (advance w)).
  assert (Hw2 : profiles_of w2 id = [U ∪ p]).
  { unfold profiles_of, w2. rewrite table_insert_same.
    rewrite filter_update.
    - unfold profiles_of in Hp. by rewrite Hp.
    - repeat constructor. unfold U. by rewrite updateUser_updates_lookup. }
  unfold getUserById, bind. rewrite single_run. cbv beta iota.
  change (coming w2 0) with (coming (advance w) 0). rewrite coming_advance.
  destruct (coming w 1); [|simpl in H1; discriminate H1].
  unfold profiles_of in Hw2. rewrite Hw2.
  cbn [error data deref ret fst project]. eexists. split; [reflexivity|].
  unfold user_of_profile. cbn [User.name User.role User.packageCredits User.id
                                User.email User.avatarUrl].
  rewrite !lookup_union_get. unfold U. rewrite !updateUser_updates_lookup.
  repeat (case_decide; try done).
  repeat split.
  - by destruct (ToBoolean (User.name user)).
  - by destruct (ToBoolean (User.role user)).
  - by destruct (User.packageCredits user) as [| | |[| | | |]|].
Qed.

Lemma updateUser_then_getUserById_witness :
  User.id ann_renamed = VStr "u1" /\
  is_served (coming studio 0) = true /\ is_served (coming studio 1) = true /\
  profiles_of studio "u1" = [ann_row] /\
  exists u,
    fst (getUserById "u1" (snd (updateUser ann_renamed studio))) = Resolved (Some u) /\
    User.name u = VStr "Ann B." /\
    User.role u = VStr "client" /\
    User.packageCredits u = VNum (Int 0) /\
    User.email u = VStr "ann@example.com".
Proof.
  do 4 (split; [reflexivity|]).
  destruct (updateUser_then_getUserById studio ann_renamed "u1" ann_row
              eq_refl eq_refl eq_refl eq_refl) as (_ & u & Hu & Hn & Hr & Hc & _ & He & _).
  exists u. repeat split; assumption.
Defined.

Lemma eq_holds_text (r : Row) (c a : string) :
  eq_holds r (c, a) = true -> exists v, r !! c = Some v /\ ToString v = a.
Proof.
  unfold eq_holds. cbn [fst snd]. destruct (r !! c) as [v|]; [|done].
  intros H. exists v. split; [done|].
  destruct v; try done; by apply String.eqb_eq in H.
Qed.

Lemma matches_one (r : Row) (c a : string) :
  matches [(c, a)] r = eq_holds r (c, a).
Proof. unfold matches. simpl. by rewrite andb_true_r. Qed.

Lemma matches_same_column (r : Row) (c a b : string) :
  matches [(c, a)] r = true -> matches [(c, b)] r = true -> a = b.
Proof.
  rewrite !matches_one. intros (v & Hv & <-)%eq_holds_text (v' & Hv' & <-)%eq_holds_text.
  congruence.
Qed.

(** An update filtered on one value of a column leaves alone the rows
    selected by another value of it. *)
Lemma filter_update_other (o : Row) (c a b : string) (l : list Row) :
  o !! c = None -> a <> b ->
  List.filter (matches [(c, b)])
    ((fun r => if matches [(c, a)] r then o ∪ r else r) <$> l)
  = List.filter (matches [(c, b)]) l.
Proof.
  intros Ho Hab. induction l as [|r l IH]; [done|].
  rewrite fmap_cons. cbn [List.filter]. rewrite IH.
  destruct (matches [(c, a)] r) eqn:Ea; [|done].
  rewrite matches_union by (repeat constructor; done).
  destruct (matches [(c, b)] r) eqn:Eb; [|done].
  destruct Hab. by apply (matches_same_column r c).
Qed.

(** X3. Whatever the reply, updateUser leaves the profile rows and the
    balance of every other id as they were, and changes no table but
    profiles. *)
Theorem updateUser_leaves_other_users (w : World) (user : User.t) (id' : string) :
  id' <> ToString (User.id user) ->
  profiles_of (snd (updateUser user w)) id' = profiles_of w id' /\
  balance (snd (updateUser user w)) id' = balance w id' /\
  forall t, t <> "profiles" -> table (snd (updateUser user w)) t = table w t.
Proof.
  intros Hne.
  assert (Hp : profiles_of (snd (updateUser user w)) id' = profiles_of w id' /\
               forall t, t <> "profiles" -> table (snd (updateUser user w)) t = table w t).
  { unfold updateUser, bind. rewrite update_run.
    destruct (coming w 0); cbn [throw_if_error error ret throw snd].
    - split.
      + unfold profiles_of. rewrite table_insert_same.
        apply filter_update_other; [|done].
        by rewrite updateUser_updates_lookup.
      + intros t Ht. by rewrite table_insert_other.
    - split; [unfold profiles_of; by rewrite table_advance|].
      intros t _. apply table_advance. }
  destruct Hp as [Hp Ht]. repeat split; [done| |done].
  unfold balance. by rewrite Hp.
Qed.

Lemma updateUser_leaves_other_users_witness :
  "u2" <> ToString (User.id ann_renamed) /\
  profiles_of (snd (updateUser ann_renamed studio)) "u2" = profiles_of studio "u2" /\
  balance (snd (updateUser ann_renamed studio)) "u2" = balance studio "u2" /\
  forall t, t <> "profiles" -> table (snd (updateUser ann_renamed studio)) t = table studio t.
Proof.
  split; [discriminate|].
  apply (updateUser_leaves_other_users studio ann_renamed "u2"). discriminate.
Defined.

Lemma filter_none {A} (f : A -> bool) (l : list A) :
  Forall (fun x => f x = false) l -> List.filter (fun x => negb (f x)) l = l.
Proof.
  induction 1 as [|x l Hx _ IH]; simpl; [done|]. by rewrite Hx, IH.
Qed.

Lemma filter_negb_Forall {A} (f : A -> bool) (l : list A) :
  Forall (fun x => f x = false) (List.filter (fun x => negb (f x)) l).
Proof.
  apply Forall_forall. intros x [_ H]%filter_In_bool. by apply negb_true_iff.
Qed.

Lemma delete_deletes_by_id (t : string) :
  deletes_by_id (fun id => bind (delete t [("id", id)]) throw_if_error) t.
Proof.
  intros id w. unfold bind. rewrite delete_run.
  destruct (coming w 0); cbn [throw_if_error error ret throw fst snd].
  - rewrite table_insert_same. repeat split.
    + apply filter_negb_Forall.
    + apply filter_none.
  - split; [done|]. apply tables_advance.
Qed.

(** X4. deleteClass, deleteSession, deletePackage, deleteAvailability and
    deleteBlockout each delete from their own table by id: a failed request
    is raised and changes nothing; a served one removes the rows holding
    the id, keeps the others in order and raises nothing, also when no row
    holds the id. *)
Theorem delete_operations :
  deletes_by_id deleteClass "class_types" /\
  deletes_by_id deleteSession "sessions" /\
  deletes_by_id deletePackage "packages" /\
  deletes_by_id deleteAvailability "availability" /\
  deletes_by_id deleteBlockout "blockouts".
Proof. repeat split; apply delete_deletes_by_id. Qed.

(** ** Sessions *)

(** With a reliable backend, the booking of a user who is not enrolled
    appends the enrollment row and touches no table but enrollments and
    profiles. *)
Lemma bookSession_new_tables w s u :
  reliable w ->
  enrollments_of w s u = [] ->
  fst (bookSession s u w) = Resolved tt /\
  reliable (snd (bookSession s u w)) /\
  (exists gen,
     table (snd (bookSession s u w)) "enrollments"
     = (table w "enrollments"
        ++ [to_json (obj [("session_id", VStr s); ("user_id", VStr u)]) ∪ gen])%list) /\
  (forall t, t <> "enrollments" -> t <> "profiles" ->
             table (snd (bookSession s u w)) t = table w t).
Proof.
  intros Hr He. unfold bookSession, bind.
  rewrite single_run. cbv beta iota.
  destruct (reliable_served w Hr) as [g0 ->].
  unfold enrollments_of in He. rewrite He. cbn [data].
  rewrite insert_run.
  pose proof (reliable_advance w Hr) as Hr1.
  destruct (reliable_served _ Hr1) as [gen ->].
  cbn [throw_if_error error throw ret snd].
  set (w2 := set_tables _ (advance (advance w))).
  assert (Hr2 : reliable w2) by (by apply reliable_written).
  assert (He2 : table w2 "enrollments"
                = (table w "enrollments"
                   ++ [to_json (obj [("session_id", VStr s); ("user_id", VStr u)]) ∪ gen])%list).
  { unfold w2. by rewrite table_insert_same, table_advance. }
  assert (Ho2 : forall t, t <> "enrollments" -> table w2 t = table w t).
  { intros t Ht. unfold w2. rewrite table_insert_other by done. apply table_advance. }
  rewrite single_run. cbv beta iota.
  destruct (reliable_served _ Hr2) as [g2 ->].
  pose proof (reliable_advance w2 Hr2) as Hr3.
  assert (Hdone : (Resolved tt, advance w2).1 = Resolved tt /\
                  reliable (advance w2) /\
                  (exists gen0,
                     table (advance w2) "enrollments"
                     = (table w "enrollments"
                        ++ [to_json (obj [("session_id", VStr s); ("user_id", VStr u)])
                            ∪ gen0])%list) /\
                  (forall t, t <> "enrollments" -> t <> "profiles" ->
                             table (advance w2) t = table w t)).
  { repeat split; [done| |].
    - exists gen. by rewrite table_advance.
    - intros t Ht _. rewrite table_advance. by apply Ho2. }
  destruct (List.filter _ (table w2 "profiles")) as [|p [|? ?]]; cbn [data ret]; try done.
  destruct (gt _ _); [|done].
  rewrite update_run.
  destruct (reliable_served _ Hr3) as [g3 ->]. cbn [ret fst snd].
  repeat split; [by apply reliable_written| |].
  - exists gen. rewrite table_insert_other by done. by rewrite table_advance.
  - intros t Ht Ht'. rewrite table_insert_other by done.
    rewrite table_advance. by apply Ho2.
Qed.

Lemma enrollment_row_lookup s u (gen : Row) :
  (to_json (obj [("session_id", VStr s); ("user_id", VStr u)]) ∪ gen) !! "session_id"
  = Some (VStr s) /\
  (to_json (obj [("session_id", VStr s); ("user_id", VStr u)]) ∪ gen) !! "user_id"
  = Some (VStr u).
Proof. split; apply lookup_union_Some_l; by rewrite to_json_lookup. Qed.

Lemma getSessions_run (w : World) :
  fst (getSessions w) =
    match coming w 0 with
    | Served _ =>
        Resolved ((fun r => session_of
                              (r, embed_many w "enrollments" "session_id" (Only ["user_id"]) r))
                    <$> table w "sessions")
    | Failed e => Rejected (Remote e)
    end.
Proof.
  unfold getSessions. unfold bind at 1. rewrite select_with_run.
  destruct (coming w 0); simpl; [|done].
  by rewrite filter_all, <- list_fmap_compose.
Qed.

(** X7. With a reliable backend, after the booking of a user who was not
    enrolled, getSessions lists the user in the roster of the session. *)
Theorem bookSession_then_getSessions (w : World) (s u : string) (r : Row) :
  reliable w ->
  enrollments_of w s u = [] ->
  r ∈ table w "sessions" ->
  get r "id" = VStr s ->
  let w1 := snd (bookSession s u w) in
  exists ss ls,
    fst (getSessions w1) = Resolved ss /\
    ls ∈ ss /\
    LessonSession.id ls = VStr s /\
    VStr u ∈ LessonSession.enrolledUserIds ls.
Proof.
  intros Hr He Hin Hid w1.
  destruct (bookSession_new_tables w s u Hr He) as (_ & Hr1 & (gen & Hen) & Hother).
  fold w1 in Hr1, Hen, Hother.
  rewrite getSessions_run. destruct (reliable_served w1 Hr1) as [g ->].
  eexists _, (session_of (r, embed_many w1 "enrollments" "session_id" (Only ["user_id"]) r)).
  split; [reflexivity|]. split.
  - apply list_elem_of_fmap. exists r. split; [done|]. by rewrite Hother.
  - split; [done|]. unfold session_of. cbn [LessonSession.enrolledUserIds snd].
    unfold embed_many. rewrite Hid, Hen, List.filter_app.
    destruct (enrollment_row_lookup s u gen) as [Hs Hu].
    set (row := to_json _ ∪ gen) in *.
    assert (Hrel : related "session_id" (VStr s) row = true).
    { unfold related, eq_holds. cbn [fst snd ToString]. rewrite Hs.
      cbn [ToString]. apply String.eqb_refl. }
    cbn [List.filter]. rewrite Hrel, !fmap_app. apply elem_of_app. right.
    cbn [fmap list_fmap]. apply list_elem_of_singleton.
    unfold get. rewrite project_lookup by apply list_elem_of_here. by rewrite Hu.
Qed.

Lemma bookSession_then_getSessions_witness :
  reliable studio /\
  enrollments_of studio "s1" "u1" = [] /\
  get monday_session "id" = VStr "s1" /\
  exists ss ls,
    fst (getSessions (snd (bookSession "s1" "u1" studio))) = Resolved ss /\
    ls ∈ ss /\
    LessonSession.id ls = VStr "s1" /\
    VStr "u1" ∈ LessonSession.enrolledUserIds ls.
Proof.
  do 3 (split; [reflexivity|]).
  apply (bookSession_then_getSessions studio "s1" "u1" monday_session);
    [reflexivity | reflexivity | | reflexivity].
  apply list_elem_of_In. vm_compute. left. reflexivity.
Defined.

Lemma table_replaced_other w t t' l :
  t <> t' -> table (set_tables (<[t := l]> (tables w)) w) t' = table w t'.
Proof. intros. unfold table. simpl. by rewrite lookup_insert_ne. Qed.

(** X8. bookSession never looks at the sessions table: with a reliable
    backend a user who is not enrolled is enrolled, and the roster grows by
    one, whatever rows and capacities that table holds; a full session is
    overbooked. *)
Theorem bookSession_ignores_sessions_table
    (w : World) (s u : string) (sessions : list Row) :
  reliable w ->
  enrollments_of w s u = [] ->
  let w' := set_tables (<["sessions" := sessions]> (tables w)) w in
  fst (bookSession s u w') = Resolved tt /\
  length (roster (snd (bookSession s u w')) s) = S (length (roster w s)).
Proof.
  intros Hr He w'.
  assert (Hr' : reliable w') by exact Hr.
  assert (Ht : table w' "enrollments" = table w "enrollments")
    by (by apply table_replaced_other).
  assert (He' : enrollments_of w' s u = []) by (unfold enrollments_of; by rewrite Ht).
  destruct (bookSession_new_tables w' s u Hr' He') as (Hres & _ & (gen & Hen) & _).
  split; [done|]. unfold roster. rewrite Hen, Ht, List.filter_app, length_app.
  destruct (enrollment_row_lookup s u gen) as [Hs _].
  cbn [List.filter]. rewrite matches_one. unfold eq_holds. cbn [fst snd].
  rewrite Hs. cbn [ToString]. rewrite String.eqb_refl. simpl. lia.
Qed.

Lemma bookSession_ignores_sessions_table_witness :
  reliable studio /\
  enrollments_of studio "s1" "u1" = [] /\
  length (roster studio "s1") = 1%nat /\
  get monday_session "capacity" = VNum (Int 1) /\
  let w' := set_tables (<["sessions" := [monday_session]]> (tables studio)) studio in
  fst (bookSession "s1" "u1" w') = Resolved tt /\
  length (roster (snd (bookSession "s1" "u1" w')) "s1") = S (length (roster studio "s1")).
Proof.
  do 4 (split; [reflexivity|]).
  apply (bookSession_ignores_sessions_table studio "s1" "u1" [monday_session]); reflexivity.
Defined.

(** X9. A booking is not refused for lack of credits: with a reliable
    backend a user with a balance of 0 who is not enrolled is enrolled,
    and the balance stays 0. *)
Theorem bookSession_without_credits (w : World) (s u : string) :
  reliable w ->
  enrollments_of w s u = [] ->
  balance w u = Some 0 ->
  fst (bookSession s u w) = Resolved tt /\
  (exists row, enrollments_of (snd (bookSession s u w)) s u = [row]) /\
  balance (snd (bookSession s u w)) u = Some 0.
Proof.
  intros Hr He Hb.
  destruct (bookSession_new w s u Hr He) as (Hres & _ & Hrow).
  repeat split; [done|done|].
  destruct (bookSession_balance w s u 0 Hb) as [H|[Hpos _]]; [done|lia].
Qed.

Lemma bookSession_without_credits_witness :
  reliable studio /\
  enrollments_of studio "s2" "u2" = [] /\
  balance studio "u2" = Some 0 /\
  fst (bookSession "s2" "u2" studio) = Resolved tt /\
  (exists row, enrollments_of (snd (bookSession "s2" "u2" studio)) "s2" "u2" = [row]) /\
  balance (snd (bookSession "s2" "u2" studio)) "u2" = Some 0.
Proof.
  do 3 (split; [reflexivity|]).
  apply (bookSession_without_credits studio "s2" "u2"); reflexivity.
Defined.

(** Mapping a callback that either returns or throws one fixed error, and
    leaves the world alone. *)
Lemma map_async_run {A B} (f : A -> Async B) (h : A -> option B) (err : Exn)
    (items : list A) (w : World) :
  (forall x w', f x w' = (match h x with
                          | Some b => Resolved b
                          | None => Rejected err
                          end, w')) ->
  map_async f items w =
    (match mapM h items with
     | Some bs => Resolved bs
     | None => Rejected err
     end, w).
Proof.
  intros Hf. induction items as [|x items IH]; [done|].
  cbn [map_async]. unfold bind. rewrite Hf, IH. cbn.
  destruct (h x); [|done]. cbn. by destruct (mapM h items).
Qed.

Lemma getSessionsForUser_run (u : string) (w : World) :
  fst (getSessionsForUser u w) =
    match coming w 0 with
    | Failed e => Rejected (Remote e)
    | Served _ =>
        match mapM (fun e =>
                      (fun p => session_of
                                  (p, embed_many w "enrollments" "session_id"
                                        (Only ["user_id"]) p))
                        <$> embed_one w "sessions" "session_id" e)
                (enrollments_of_user w u) with
        | Some ss => Resolved ss
        | None => Rejected (JsError "TypeError: Cannot read properties of null")
        end
    end.
Proof.
  unfold getSessionsForUser. unfold bind at 1. rewrite select_through_run.
  destruct (coming w 0); [|done].
  unfold bind at 1. cbn [throw_if_error error ret]. unfold bind at 1.
  cbn [deref data ret].
  rewrite (map_async_run _ (fun item => session_of <$> item)
             (JsError "TypeError: Cannot read properties of null")).
  2:{ intros [x|] w'; reflexivity. }
  cbn [fst]. unfold enrollments_of_user.
  set (l := List.filter _ _).
  match goal with |- match ?a with _ => _ end = match ?b with _ => _ end =>
    replace a with b; [done|] end.
  induction l as [|x l IH]; [done|]. cbn.
  destruct (embed_one w "sessions" "session_id" x); [|done]. cbn.
  by rewrite IH.
Qed.

Lemma related_back (e p : Row) :
  related "id" (get e "session_id") p = true ->
  related "session_id" (get p "id") e = true.
Proof.
  unfold related, get.
  destruct (e !! "session_id") as [k|] eqn:Ek; cbn [default]; [|done].
  intros H.
  assert (Hp : eq_holds p ("id", ToString k) = true) by (by destruct k).
  assert (Hk : k <> VNull /\ k <> VUndef) by (by destruct k).
  apply eq_holds_text in Hp as (v & Hv & Hvk). rewrite Hv. cbn [default].
  assert (Hnn : v <> VNull /\ v <> VUndef).
  { unfold eq_holds in H. cbn [fst snd] in H.
    destruct k; try done; rewrite Hv in H; by destruct v. }
  assert (He : eq_holds e ("session_id", ToString v) = true).
  { unfold eq_holds. cbn [fst snd]. rewrite Ek, Hvk.
    destruct Hk. destruct k; try done; apply String.eqb_refl. }
  destruct Hnn. by destruct v.
Qed.

(** X5. When getSessionsForUser returns, it returns one session per
    enrollment row of the user, and the roster of each names the user. *)
Theorem getSessionsForUser_rosters_name_the_user
    (w : World) (u : string) (ss : list LessonSession.t) :
  fst (getSessionsForUser u w) = Resolved ss ->
  length ss = length (enrollments_of_user w u) /\
  Forall (fun ls => exists v, v ∈ LessonSession.enrolledUserIds ls /\ ToString v = u) ss.
Proof.
  rewrite getSessionsForUser_run. destruct (coming w 0); [|done].
  destruct (mapM _ _) as [ss'|] eqn:Hss; [|done]. intros [= <-].
  apply mapM_Some in Hss. split; [symmetry; by eapply Forall2_length|].
  assert (Hall : Forall (fun e => e ∈ table w "enrollments" /\
                                  matches [("user_id", u)] e = true)
                   (enrollments_of_user w u)).
  { apply Forall_forall. intros e He. by apply filter_In_bool in He. }
  induction Hss as [|e ls l ss' He _ IH]; [constructor|].
  apply Forall_cons in Hall as [[Hin Hu] Hall]. constructor; [|by apply IH].
  destruct (embed_one w "sessions" "session_id" e) as [p|] eqn:Hp; [|done].
  injection He as <-. unfold session_of. cbn [LessonSession.enrolledUserIds snd].
  rewrite matches_one in Hu. apply eq_holds_text in Hu as (v & Hv & Hvu).
  exists v. split; [|done].
  unfold embed_many. rewrite <- list_fmap_compose.
  apply list_elem_of_fmap. exists e. split.
  - unfold compose, get. rewrite project_lookup by apply list_elem_of_here.
    by rewrite Hv.
  - apply filter_In_bool. split; [done|]. apply related_back.
    unfold embed_one in Hp.
    assert (p ∈ List.filter (related "id" (get e "session_id")) (table w "sessions")) as Hpin.
    { destruct (List.filter _ _); [done|]. injection Hp as ->. apply list_elem_of_here. }
    by apply filter_In_bool in Hpin as [_ ?].
Qed.

Lemma getSessionsForUser_rosters_name_the_user_witness :
  fst (getSessionsForUser "u2" studio) = Resolved [monday_listed] /\
  length [monday_listed] = length (enrollments_of_user studio "u2") /\
  Forall (fun ls => exists v, v ∈ LessonSession.enrolledUserIds ls /\ ToString v = "u2")
    [monday_listed].
Proof.
  split; [reflexivity|].
  apply (getSessionsForUser_rosters_name_the_user studio "u2"). reflexivity.
Defined.

(** X6. When an enrollment row of the user refers to no session row, the
    embedded session is null and a served getSessionsForUser fails with a
    type error instead of returning the other sessions. *)
Theorem getSessionsForUser_dangling_enrollment (w : World) (u : string) (e : Row) :
  is_served (coming w 0) = true ->
  e ∈ enrollments_of_user w u ->
  embed_one w "sessions" "session_id" e = None ->
  fst (getSessionsForUser u w)
  = Rejected (JsError "TypeError: Cannot read properties of null").
Proof.
  intros H0 Hin Hnone. rewrite getSessionsForUser_run.
  destruct (coming w 0); [|done].
  destruct (mapM _ _) as [ss|] eqn:Hss; [|done].
  apply mapM_Some in Hss.
  apply list_elem_of_lookup in Hin as [i Hi].
  destruct (Forall2_lookup_l _ _ _ _ _ Hss Hi) as (ls & _ & Hls).
  by rewrite Hnone in Hls.
Qed.

Lemma getSessionsForUser_dangling_enrollment_witness :
  is_served (coming studio_with_dangling_enrollment 0) = true /\
  embed_one studio_with_dangling_enrollment "sessions" "session_id"
    (obj [("session_id", VStr "s9"); ("user_id", VStr "u1")]) = None /\
  fst (getSessionsForUser "u1" studio_with_dangling_enrollment)
  = Rejected (JsError "TypeError: Cannot read properties of null").
Proof.
  split; [reflexivity|]. split; [reflexivity|].
  apply (getSessionsForUser_dangling_enrollment studio_with_dangling_enrollment "u1"
           (obj [("session_id", VStr "s9"); ("user_id", VStr "u1")]));
    [reflexivity | | reflexivity].
  apply list_elem_of_In. vm_compute. left. reflexivity.
Defined.

(** ** Packages and purchases *)

Section Reliability.

Lemma keeps_ret {A} (a : A) : keeps_reliable (ret a).
Proof. by intros w. Qed.

Lemma keeps_throw {A} (e : Exn) : keeps_reliable (throw (A := A) e).
Proof. by intros w. Qed.

Lemma keeps_bind {A B} (m : Async A) (k : A -> Async B) :
  keeps_reliable m -> (forall a, keeps_reliable (k a)) -> keeps_reliable (bind m k).
Proof.
  intros Hm Hk w Hw. unfold bind. specialize (Hm w Hw).
  destruct (m w) as [[a|e] w']; [by apply Hk | done].
Qed.

Lemma keeps_throw_if_error {A} (r : Response A) : keeps_reliable (throw_if_error r).
Proof. unfold throw_if_error. destruct (error r); [apply keeps_throw | apply keeps_ret]. Qed.

Lemma keeps_deref {A} (d : option A) : keeps_reliable (deref d).
Proof. destruct d; [apply keeps_ret | apply keeps_throw]. Qed.

Lemma keeps_select t c fs : keeps_reliable (select t c fs).
Proof. intros w Hw. rewrite select_run. by apply reliable_advance. Qed.

Lemma keeps_single t c fs : keeps_reliable (single (select t c fs)).
Proof. intros w Hw. rewrite single_run. by apply reliable_advance. Qed.

Lemma keeps_insert t o : keeps_reliable (insert t o).
Proof.
  intros w Hw. rewrite insert_run.
  destruct (coming w 0); [by apply reliable_written | by apply reliable_advance].
Qed.

Lemma keeps_update t o fs : keeps_reliable (update t o fs).
Proof.
  intros w Hw. rewrite update_run.
  destruct (coming w 0); [by apply reliable_written | by apply reliable_advance].
Qed.

Lemma keeps_delete t fs : keeps_reliable (delete t fs).
Proof.
  intros w Hw. rewrite delete_run.
  destruct (coming w 0); [by apply reliable_written | by apply reliable_advance].
Qed.

Lemma keeps_upsert t o c : keeps_reliable (upsert t o c).
Proof.
  intros w Hw. rewrite upsert_run.
  destruct (coming w 0); [by apply reliable_written | by apply reliable_advance].
Qed.

Lemma keeps_purchasePackage u pid : keeps_reliable (purchasePackage u pid).
Proof.
  unfold purchasePackage. apply keeps_bind; [apply keeps_single|]. intros q.
  destruct (data q); [|apply keeps_throw].
  apply keeps_bind; [apply keeps_insert|]. intros r.
  apply keeps_bind; [apply keeps_throw_if_error|]. intros _.
  apply keeps_bind; [apply keeps_single|]. intros p.
  apply keeps_bind; [apply keeps_update|]. intros _. apply keeps_ret.
Qed.

Lemma keeps_deletePackage id : keeps_reliable (deletePackage id).
Proof.
  unfold deletePackage. apply keeps_bind; [apply keeps_delete|]. intros r.
  apply keeps_throw_if_error.
Qed.

End Reliability.

(** X10. When the lookup of the package does not yield exactly one row,
    be it that no row has the id or that the request failed,
    purchasePackage fails with 'Package not found' and changes no
    table. *)
Theorem purchasePackage_package_not_found (w : World) (u pid : string) :
  (is_served (coming w 0) = true -> forall P, packages_of w pid <> [P]) ->
  fst (purchasePackage u pid w) = Rejected (JsError "Package not found") /\
  tables (snd (purchasePackage u pid w)) = tables w.
Proof.
  intros H. unfold purchasePackage, bind. rewrite single_run. cbv beta iota.
  destruct (coming w 0) as [g|e]; cbn [data throw fst snd].
  - specialize (H eq_refl). unfold packages_of in H.
    destruct (List.filter _ _) as [|P [|? ?]]; cbn [data throw fst snd];
      try (split; [done | apply tables_advance]).
    by destruct (H P).
  - split; [done | apply tables_advance].
Qed.

Lemma purchasePackage_package_not_found_witness :
  packages_of studio "p9" = [] /\
  fst (purchasePackage "u1" "p9" studio) = Rejected (JsError "Package not found") /\
  tables (snd (purchasePackage "u1" "p9" studio)) = tables studio.
Proof.
  split; [reflexivity|].
  apply (purchasePackage_package_not_found studio "u1" "p9").
  intros _ P H. vm_compute in H. discriminate H.
Defined.

Lemma getPackages_run (w : World) :
  fst (getPackages w) =
    match coming w 0 with
    | Served _ =>
        Resolved (Some (List.filter (matches [("active", "true")]) (table w "packages")))
    | Failed e => Rejected (Remote e)
    end.
Proof.
  unfold getPackages. unfold bind at 1. rewrite select_run.
  destruct (coming w 0); simpl; [|done]. by rewrite list_fmap_id.
Qed.

(** X11. getPackages lists the package rows whose active flag reads true
    and no other, but purchasePackage does not look at the flag: with a
    reliable backend an inactive package, which getPackages leaves out, is
    sold, and the balance becomes the double next to the balance plus its
    credits (the sum itself up to 2^53). *)
Theorem purchasePackage_sells_unlisted_package
    (w : World) (u pid : string) (P : Row) (b c : Z) :
  reliable w ->
  balance w u = Some b ->
  packages_of w pid = [P] ->
  P !! "credits" = Some (VNum (Int c)) ->
  P !! "active" = Some (VBool false) ->
  (exists rows,
     fst (getPackages w) = Resolved (Some rows) /\
     rows = List.filter (matches [("active", "true")]) (table w "packages") /\
     (forall r, r ∈ rows ->
        r ∈ table w "packages" /\
        exists v, r !! "active" = Some v /\ ToString v = "true") /\
     (forall r, r ∈ table w "packages" -> r !! "active" = Some (VBool true) -> r ∈ rows) /\
     P ∉ rows) /\
  P ∈ table w "packages" /\
  fst (purchasePackage u pid w) = Resolved tt /\
  balance (snd (purchasePackage u pid w)) u = stored (round_int (b + c)) /\
  (Z.abs (b + c) <= 2 ^ 53 -> balance (snd (purchasePackage u pid w)) u = Some (b + c)).
Proof.
  intros Hr Hb HP Hc Ha. split; [|split].
  - rewrite getPackages_run. destruct (reliable_served w Hr) as [g ->].
    eexists. split; [reflexivity|]. split; [reflexivity|]. split; [|split].
    + intros r [Hin Hm]%filter_In_bool. split; [done|].
      rewrite matches_one in Hm. by apply eq_holds_text in Hm.
    + intros r Hin Hact. apply filter_In_bool. split; [done|].
      rewrite matches_one. unfold eq_holds. cbn [fst snd]. by rewrite Hact.
    + intros [_ Hm]%filter_In_bool.
      rewrite matches_one in Hm. unfold eq_holds in Hm. cbn [fst snd] in Hm.
      by rewrite Ha in Hm.
  - assert (Hin : P ∈ packages_of w pid) by (rewrite HP; apply list_elem_of_here).
    unfold packages_of in Hin. by apply filter_In_bool in Hin as [? _].
  - destruct (purchasePackage_reliable w u pid P b c Hr Hb HP Hc) as (Hres & Hbal & _).
    split; [done|]. split; [done|]. intros Hsafe. by rewrite Hbal, round_int_exact.
Qed.

Lemma purchasePackage_sells_unlisted_package_witness :
  reliable studio /\
  balance studio "u1" = Some 2 /\
  packages_of studio "p2" = [retired_package] /\
  retired_package !! "active" = Some (VBool false) /\
  fst (getPackages studio) = Resolved (Some [sample_package]) /\
  (exists rows,
     fst (getPackages studio) = Resolved (Some rows) /\
     rows = List.filter (matches [("active", "true")]) (table studio "packages") /\
     (forall r, r ∈ rows ->
        r ∈ table studio "packages" /\
        exists v, r !! "active" = Some v /\ ToString v = "true") /\
     (forall r, r ∈ table studio "packages" ->
        r !! "active" = Some (VBool true) -> r ∈ rows) /\
     retired_package ∉ rows) /\
  fst (purchasePackage "u1" "p2" studio) = Resolved tt /\
  balance (snd (purchasePackage "u1" "p2" studio)) "u1" = Some (2 + 5).
Proof.
  do 5 (split; [reflexivity|]).
  destruct (purchasePackage_sells_unlisted_package studio "u1" "p2" retired_package 2 5
              eq_refl eq_refl eq_refl eq_refl eq_refl) as (Hlist & _ & Hres & _ & Hsum).
  split; [exact Hlist|]. split; [exact Hres|].
  apply Hsum. vm_compute. discriminate.
Defined.

(** X12. createPackage sends the name, the credits and the price only:
    the id and the active flag of the stored row are the backend's
    defaults, whatever the caller passed, so the new package is listed by
    getPackages exactly when the default makes it active. *)
Theorem createPackage_sends_three_columns
    (w : World) (pkg : Package.t) (gen : Row) :
  coming w 0 = Served gen ->
  json_value (Package.name pkg) ->
  json_value (Package.credits pkg) ->
  json_value (Package.price pkg) ->
  fst (createPackage pkg w) = Resolved tt /\
  exists row,
    table (snd (createPackage pkg w)) "packages" = (table w "packages" ++ [row])%list /\
    row !! "name" = Some (Package.name pkg) /\
    row !! "credits" = Some (Package.credits pkg) /\
    row !! "price" = Some (Package.price pkg) /\
    row !! "id" = gen !! "id" /\
    row !! "active" = gen !! "active" /\
    matches [("active", "true")] row = matches [("active", "true")] gen.
Proof.
  intros H0 Hn Hc Hp. unfold createPackage, bind. rewrite insert_run, H0.
  cbn [throw_if_error error ret fst snd]. split; [done|].
  eexists. split; [by rewrite table_insert_same|].
  set (body := obj _).
  assert (Hid : to_json body !! "id" = None) by (by apply to_json_lookup_None).
  assert (Hact : to_json body !! "active" = None) by (by apply to_json_lookup_None).
  repeat split.
  - apply lookup_union_Some_l. by apply to_json_lookup_Some.
  - apply lookup_union_Some_l. by apply to_json_lookup_Some.
  - apply lookup_union_Some_l. by apply to_json_lookup_Some.
  - by apply lookup_union_r.
  - by apply lookup_union_r.
  - apply matches_union. by repeat constructor.
Qed.

Lemma createPackage_sends_three_columns_witness :
  coming studio 0 = Served ∅ /\
  fst (createPackage sample_new_package studio) = Resolved tt /\
  exists row,
    table (snd (createPackage sample_new_package studio)) "packages"
    = (table studio "packages" ++ [row])%list /\
    row !! "name" = Some (VStr "Twenty lessons") /\
    row !! "credits" = Some (VNum (Int 20)) /\
    row !! "price" = Some (VNum (Int 180)) /\
    row !! "id" = (∅ : Row) !! "id" /\
    row !! "active" = (∅ : Row) !! "active" /\
    matches [("active", "true")] row = matches [("active", "true")] ∅.
Proof.
  split; [reflexivity|].
  apply (createPackage_sends_three_columns studio sample_new_package ∅);
    [reflexivity | by split | by split | by split].
Defined.

Lemma getPurchases_run (u : string) (w : World) :
  fst (getPurchases u w) =
    match coming w 0 with
    | Served _ =>
        Resolved (purchase_of_row <$>
                    merge_sort (descending "purchase_date")
                      (List.filter (matches [("user_id", u)]) (table w "purchases")))
    | Failed e => Rejected (Remote e)
    end.
Proof.
  unfold getPurchases. unfold bind at 1. rewrite select_descending_run.
  destruct (coming w 0); simpl; [|done]. by rewrite list_fmap_id.
Qed.

(** X13. What getPurchases returns is a rearrangement of the purchase
    rows of the user, each of that user, with the dates in descending
    order. *)
Theorem getPurchases_most_recent_first
    (w : World) (u : string) (ps : list Purchase.t) :
  fst (getPurchases u w) = Resolved ps ->
  ps ≡ₚ purchase_of_row <$> List.filter (matches [("user_id", u)]) (table w "purchases") /\
  Sorted (fun a b => key_le (Purchase.date b) (Purchase.date a) = true) ps /\
  Forall (fun p => ToString (Purchase.userId p) = u) ps.
Proof.
  rewrite getPurchases_run. destruct (coming w 0); [|done]. intros [= <-].
  set (l := List.filter _ _).
  assert (Hperm : merge_sort (descending "purchase_date") l ≡ₚ l)
    by apply merge_sort_Permutation.
  repeat split.
  - by rewrite Hperm.
  - apply (Sorted_fmap purchase_of_row (descending "purchase_date")); [by intros x y|].
    apply (@Sorted_merge_sort _ _ _ (descending_total "purchase_date")).
  - rewrite Hperm. apply Forall_fmap, Forall_forall. intros r [_ Hm]%filter_In_bool.
    rewrite matches_one in Hm. apply eq_holds_text in Hm as (v & Hv & Hvu).
    cbn. unfold get. by rewrite Hv.
Qed.

Lemma getPurchases_most_recent_first_witness :
  fst (getPurchases "u1" studio)
  = Resolved [purchase_of_row march_purchase; purchase_of_row january_purchase] /\
  Sorted (fun a b => key_le (Purchase.date b) (Purchase.date a) = true)
    [purchase_of_row march_purchase; purchase_of_row january_purchase].
Proof.
  split; [reflexivity|].
  exact (proj1 (proj2 (getPurchases_most_recent_first studio "u1" _ eq_refl))).
Defined.

Lemma filter_nothing {A} (f : A -> bool) (l : list A) :
  Forall (fun x => f x = false) l -> List.filter f l = [].
Proof. induction 1 as [|x l Hx _ IH]; simpl; [done|]. by rewrite Hx. Qed.

(** X14. With a reliable backend, a purchase stays in the history of the
    user with the name, the price and the credits of the package as
    bought, also after deletePackage has removed the package. *)
Theorem purchase_stays_in_the_history
    (w : World) (u pid : string) (P : Row) (name price : JsVal) (b c : Z) :
  reliable w ->
  balance w u = Some b ->
  packages_of w pid = [P] ->
  P !! "name" = Some name -> json_value name ->
  P !! "price" = Some price -> json_value price ->
  P !! "credits" = Some (VNum (Int c)) ->
  let w1 := snd (purchasePackage u pid w) in
  let w2 := snd (deletePackage pid w1) in
  fst (deletePackage pid w1) = Resolved tt /\
  packages_of w2 pid = [] /\
  exists ps p,
    fst (getPurchases u w2) = Resolved ps /\
    p ∈ ps /\
    Purchase.userId p = VStr u /\
    Purchase.packageName p = name /\
    Purchase.price p = price /\
    Purchase.credits p = VNum (Int c).
Proof.
  intros Hr Hb HP Hn Hnj Ha Haj Hc w1 w2.
  destruct (purchasePackage_reliable w u pid P b c Hr Hb HP Hc) as (_ & _ & gen & Hrow).
  pose proof (keeps_purchasePackage u pid w Hr) as Hr1. fold w1 in Hrow, Hr1.
  pose proof (keeps_deletePackage pid w1 Hr1) as Hr2. fold w2 in Hr2.
  pose proof (delete_deletes_by_id "packages" pid w1) as Hdel.
  destruct (reliable_served w1 Hr1) as [g1 Hg1]. rewrite Hg1 in Hdel.
  change (bind (delete "packages" [("id", pid)]) throw_if_error) with (deletePackage pid) in Hdel.
  fold w2 in Hdel. destruct Hdel as (Hres & Htab & Hgone & _).
  split; [done|]. split.
  { unfold packages_of. by apply filter_nothing. }
  assert (Hpur : table w2 "purchases" = table w1 "purchases").
  { unfold w2, deletePackage, bind. rewrite delete_run, Hg1.
    cbn [throw_if_error error ret snd]. by rewrite table_insert_other. }
  rewrite getPurchases_run. destruct (reliable_served w2 Hr2) as [g2 ->].
  set (row := to_json (purchase_body u pid P) ∪ gen) in *.
  assert (Hfields : row !! "user_id" = Some (VStr u) /\
                    row !! "package_name" = Some name /\
                    row !! "amount_paid" = Some price /\
                    row !! "credits_added" = Some (VNum (Int c))).
  { unfold row, purchase_body, get. rewrite Hn, Ha, Hc. cbn [default].
    repeat split; apply lookup_union_Some_l;
      (apply to_json_lookup_Some; [reflexivity | done || by split]). }
  destruct Hfields as (Fu & Fn & Fa & Fc). clearbody row.
  eexists _, (purchase_of_row row). split; [reflexivity|]. split.
  - apply list_elem_of_fmap. exists row. split; [done|].
    rewrite merge_sort_Permutation. apply filter_In_bool. split.
    + rewrite Hpur, Hrow. apply elem_of_app. right. apply list_elem_of_here.
    + rewrite matches_one. unfold eq_holds. cbn [fst snd]. rewrite Fu.
      cbn [ToString]. apply String.eqb_refl.
  - unfold purchase_of_row, get.
    cbn [Purchase.userId Purchase.packageName Purchase.price Purchase.credits].
    by rewrite Fu, Fn, Fa, Fc.
Qed.

Lemma purchase_stays_in_the_history_witness :
  reliable studio /\
  balance studio "u1" = Some 2 /\
  packages_of studio "p1" = [sample_package] /\
  let w1 := snd (purchasePackage "u1" "p1" studio) in
  let w2 := snd (deletePackage "p1" w1) in
  fst (deletePackage "p1" w1) = Resolved tt /\
  packages_of w2 "p1" = [] /\
  exists ps p,
    fst (getPurchases "u1" w2) = Resolved ps /\
    p ∈ ps /\
    Purchase.userId p = VStr "u1" /\
    Purchase.packageName p = VStr "Ten lessons" /\
    Purchase.price p = VNum (Int 100) /\
    Purchase.credits p = VNum (Int 10).
Proof.
  do 3 (split; [reflexivity|]).
  apply (purchase_stays_in_the_history studio "u1" "p1" sample_package
           (VStr "Ten lessons") (VNum (Int 100)) 2 10);
    first [reflexivity | by split].
Defined.

(** ** Blockouts and classes *)

Lemma getBlockouts_run (i : string) (w : World) :
  fst (getBlockouts i w) =
    match coming w 0 with
    | Served _ =>
        Resolved (blockout_of_row <$>
                    List.filter (matches [("instructor_id", i)]) (table w "blockouts"))
    | Failed e => Rejected (Remote e)
    end.
Proof.
  unfold getBlockouts. unfold bind at 1. rewrite select_run.
  destruct (coming w 0); simpl; [|done]. by rewrite list_fmap_id.
Qed.

(** X15. After a served createBlockout, getBlockouts for the instructor
    returns what it returned before followed by the new blockout, with
    the date, the times and the reason passed and the id the backend
    generated, not the one passed. *)
Theorem createBlockout_then_getBlockouts
    (w : World) (blockout : Blockout.t) (i : string) (gen : Row) :
  coming w 0 = Served gen ->
  is_served (coming w 1) = true ->
  Blockout.instructorId blockout = VStr i ->
  json_value (Blockout.date blockout) ->
  json_value (Blockout.startTime blockout) ->
  json_value (Blockout.endTime blockout) ->
  json_value (Blockout.reason blockout) ->
  let w1 := snd (createBlockout blockout w) in
  fst (createBlockout blockout w) = Resolved tt /\
  exists earlier,
    fst (getBlockouts i w) = Resolved earlier /\
    fst (getBlockouts i w1) =
      Resolved (earlier ++
                [{| Blockout.id := get gen "id";
                    Blockout.instructorId := VStr i;
                    Blockout.date := Blockout.date blockout;
                    Blockout.startTime := Blockout.startTime blockout;
                    Blockout.endTime := Blockout.endTime blockout;
                    Blockout.reason := Blockout.reason blockout |}])%list.
Proof.
  intros H0 H1 Hi Hd Hs He Hr w1. unfold w1, createBlockout, bind.
  rewrite insert_run, H0, Hi. cbn [throw_if_error error ret fst snd].
  split; [done|].
  rewrite !getBlockouts_run, H0.
  change (coming (set_tables ?t ?w') 0) with (coming w' 0).
  rewrite coming_advance.
  destruct (coming w 1); [|simpl in H1; discriminate H1].
  eexists. split; [reflexivity|].
  rewrite table_insert_same, List.filter_app, fmap_app.
  set (body := obj _). set (row := to_json body ∪ gen).
  assert (Fi : row !! "instructor_id" = Some (VStr i)).
  { apply lookup_union_Some_l. by apply to_json_lookup_Some. }
  assert (Fd : row !! "date" = Some (Blockout.date blockout)).
  { apply lookup_union_Some_l. by apply to_json_lookup_Some. }
  assert (Fs : row !! "start_time" = Some (Blockout.startTime blockout)).
  { apply lookup_union_Some_l. by apply to_json_lookup_Some. }
  assert (Fe : row !! "end_time" = Some (Blockout.endTime blockout)).
  { apply lookup_union_Some_l. by apply to_json_lookup_Some. }
  assert (Fr : row !! "reason" = Some (Blockout.reason blockout)).
  { apply lookup_union_Some_l. by apply to_json_lookup_Some. }
  assert (Fid : row !! "id" = gen !! "id").
  { apply lookup_union_r. by apply to_json_lookup_None. }
  clearbody row. cbn [List.filter]. rewrite matches_one.
  unfold eq_holds. cbn [fst snd]. rewrite Fi. cbn [ToString].
  rewrite String.eqb_refl. do 2 f_equal. cbn [fmap list_fmap].
  unfold blockout_of_row, get. by rewrite Fi, Fd, Fs, Fe, Fr, Fid.
Qed.

Lemma createBlockout_then_getBlockouts_witness :
  coming studio 0 = Served ∅ /\
  is_served (coming studio 1) = true /\
  fst (createBlockout sample_blockout studio) = Resolved tt /\
  exists earlier,
    fst (getBlockouts "i1" studio) = Resolved earlier /\
    fst (getBlockouts "i1" (snd (createBlockout sample_blockout studio))) =
      Resolved (earlier ++
                [{| Blockout.id := get ∅ "id";
                    Blockout.instructorId := VStr "i1";
                    Blockout.date := VStr "2024-05-07";
                    Blockout.startTime := VStr "09:00";
                    Blockout.endTime := VStr "12:00";
                    Blockout.reason := VStr "Dentist" |}])%list.
Proof.
  do 2 (split; [reflexivity|]).
  apply (createBlockout_then_getBlockouts studio sample_blockout "i1" ∅);
    first [reflexivity | by split].
Defined.

(** X16. After a served createClass, getClasses returns what it returned
    before followed by the new class: the name, the description and the
    duration passed, both prices equal to the single price passed, the
    capacity passed, as JSON carries it, or 10 when it is falsy (0
    included), the difficulty 'Beginner' and the id the backend
    generated. *)
Theorem createClass_then_getClasses
    (w : World) (cls : ClassType.t) (gen : Row) :
  coming w 0 = Served gen ->
  is_served (coming w 1) = true ->
  json_value (ClassType.name cls) ->
  json_value (ClassType.description cls) ->
  json_value (ClassType.durationMinutes cls) ->
  json_value (ClassType.priceSingle cls) ->
  let w1 := snd (createClass cls w) in
  fst (createClass cls w) = Resolved tt /\
  exists earlier,
    fst (getClasses w) = Resolved earlier /\
    fst (getClasses w1) =
      Resolved (earlier ++
                [{| ClassType.id := get gen "id";
                    ClassType.name := ClassType.name cls;
                    ClassType.description := ClassType.description cls;
                    ClassType.durationMinutes := ClassType.durationMinutes cls;
                    ClassType.priceSingle := ClassType.priceSingle cls;
                    ClassType.pricePackage := ClassType.priceSingle cls;
                    ClassType.difficulty := VStr "Beginner";
                    ClassType.capacity :=
                      json_of (logical_or (ClassType.capacity cls) (VNum (Int 10))) |}])%list.
Proof.
  intros H0 H1 Hn Hd Hm Hp w1. unfold w1, createClass, bind.
  rewrite insert_run, H0. cbn [throw_if_error error ret fst snd].
  split; [done|].
  rewrite !getClasses_run, H0.
  change (coming (set_tables ?t ?w') 0) with (coming w' 0).
  rewrite coming_advance.
  destruct (coming w 1); [|simpl in H1; discriminate H1].
  eexists. split; [reflexivity|].
  rewrite table_insert_same, fmap_app.
  unfold createClass_body.
  set (body := obj _). set (row := to_json body ∪ gen).
  assert (Hcap : logical_or (ClassType.capacity cls) (VNum (Int 10)) <> VUndef)
    by (by apply logical_or_defined).
  assert (Fn : row !! "name" = Some (ClassType.name cls)).
  { apply lookup_union_Some_l. by apply to_json_lookup_Some. }
  assert (Fd : row !! "description" = Some (ClassType.description cls)).
  { apply lookup_union_Some_l. by apply to_json_lookup_Some. }
  assert (Fm : row !! "duration_minutes" = Some (ClassType.durationMinutes cls)).
  { apply lookup_union_Some_l. by apply to_json_lookup_Some. }
  assert (Fp : row !! "price" = Some (ClassType.priceSingle cls)).
  { apply lookup_union_Some_l. by apply to_json_lookup_Some. }
  assert (Fc : row !! "capacity"
               = Some (json_of (logical_or (ClassType.capacity cls) (VNum (Int 10))))).
  { apply lookup_union_Some_l. by apply to_json_lookup_defined. }
  assert (Fid : row !! "id" = gen !! "id").
  { apply lookup_union_r. by apply to_json_lookup_None. }
  clearbody row. do 2 f_equal. cbn [fmap list_fmap].
  unfold class_of_row, get. by rewrite Fn, Fd, Fm, Fp, Fc, Fid.
Qed.

Lemma createClass_then_getClasses_witness :
  coming studio 0 = Served ∅ /\
  is_served (coming studio 1) = true /\
  fst (createClass sample_class studio) = Resolved tt /\
  exists earlier,
    fst (getClasses studio) = Resolved earlier /\
    fst (getClasses (snd (createClass sample_class studio))) =
      Resolved (earlier ++
                [{| ClassType.id := get ∅ "id";
                    ClassType.name := VStr "Stroke clinic";
                    ClassType.description := VStr "Technique";
                    ClassType.durationMinutes := VNum (Int 45);
                    ClassType.priceSingle := VNum (Int 30);
                    ClassType.pricePackage := VNum (Int 30);
                    ClassType.difficulty := VStr "Beginner";
                    ClassType.capacity := VNum (Int 8) |}])%list.
Proof.
  do 2 (split; [reflexivity|]).
  apply (createClass_then_getClasses studio sample_class ∅);
    first [reflexivity | by split].
Defined.



(** ** Progress *)

Section ProgressRows.

Variables (now st sk : string) (status : JsVal).

Lemma progress_sent_keys :
  (progress_sent now st sk status) !! "student_id" = Some (VStr st) /\ (progress_sent now st sk status) !! "skill_id" = Some (VStr sk) /\
  (progress_sent now st sk status) !! "updated_at" = Some (VStr now).
Proof. repeat split; by apply to_json_lookup_Some. Qed.

Lemma progress_sent_status : json_value status -> (progress_sent now st sk status) !! "status" = Some status.
Proof. intros H. by apply to_json_lookup_Some. Qed.

Lemma progress_clashes (r : Row) :
  clashes (columns_of "student_id, skill_id") (progress_sent now st sk status) r
  = matches [("student_id", st); ("skill_id", sk)] r.
Proof.
  change (columns_of "student_id, skill_id") with ["student_id"; "skill_id"].
  destruct progress_sent_keys as (Hs & Hk & _).
  unfold clashes, matches. cbn [forallb]. by rewrite Hs, Hk.
Qed.

Lemma progress_sent_matches (r : Row) (a b : string) :
  matches [("student_id", a); ("skill_id", b)] ((progress_sent now st sk status) ∪ r)
  = (String.eqb st a && String.eqb sk b)%bool.
Proof.
  destruct progress_sent_keys as (Hs & Hk & _).
  unfold matches, eq_holds. cbn [forallb fst snd].
  rewrite (lookup_union_Some_l _ _ _ _ Hs), (lookup_union_Some_l _ _ _ _ Hk).
  cbn [ToString]. by rewrite andb_true_r.
Qed.

Lemma existsb_same {A} (f g : A -> bool) (l : list A) :
  (forall x, f x = g x) -> existsb f l = existsb g l.
Proof. intros H. induction l as [|x l IH]; simpl; [done|]. by rewrite H, IH. Qed.

Lemma existsb_filter_nil {A} (f : A -> bool) (l : list A) :
  existsb f l = false <-> List.filter f l = [].
Proof.
  induction l as [|x l IH]; simpl; [done|].
  destruct (f x); simpl; [split; discriminate | done].
Qed.

Lemma updateProgress_run (w : World) :
  updateProgress now st sk status w =
    match coming w 0 with
    | Served gen =>
        (Resolved tt,
         set_tables
           (<["student_progress" :=
                match progress_rows w st sk with
                | [] => (table w "student_progress" ++ [(progress_sent now st sk status) ∪ gen])%list
                | _ => (fun r => if matches [("student_id", st); ("skill_id", sk)] r
                                 then (progress_sent now st sk status) ∪ r else r) <$> table w "student_progress"
                end]> (tables w)) (advance w))
    | Failed e => (Rejected (Remote e), advance w)
    end.
Proof.
  unfold updateProgress, bind. rewrite upsert_run. fold (progress_sent now st sk status).
  destruct (coming w 0); [|done]. cbn [throw_if_error error ret].
  do 3 f_equal.
  rewrite (existsb_same _ _ _ progress_clashes).
  unfold progress_rows.
  destruct (existsb _ _) eqn:E.
  - destruct (List.filter _ _) eqn:F; [by apply existsb_filter_nil in F; congruence|].
    apply list_fmap_ext. intros _ r _. by rewrite progress_clashes.
  - apply existsb_filter_nil in E. by rewrite E.
Qed.

Lemma filter_overwrite (l : list Row) :
  List.filter (matches [("student_id", st); ("skill_id", sk)])
    ((fun r => if matches [("student_id", st); ("skill_id", sk)] r
               then (progress_sent now st sk status) ∪ r else r) <$> l)
  = (fun r => (progress_sent now st sk status) ∪ r) <$> List.filter (matches [("student_id", st); ("skill_id", sk)]) l.
Proof.
  induction l as [|r l IH]; [done|].
  rewrite fmap_cons. cbn [List.filter]. rewrite IH.
  destruct (matches _ r) eqn:E.
  - by rewrite progress_sent_matches, !String.eqb_refl.
  - by rewrite E.
Qed.

Lemma filter_overwrite_other (a b : string) (l : list Row) :
  (st, sk) <> (a, b) ->
  List.filter (matches [("student_id", a); ("skill_id", b)])
    ((fun r => if matches [("student_id", st); ("skill_id", sk)] r
               then (progress_sent now st sk status) ∪ r else r) <$> l)
  = List.filter (matches [("student_id", a); ("skill_id", b)]) l.
Proof.
  intros Hne.
  assert (Hsent : forall r, matches [("student_id", a); ("skill_id", b)] ((progress_sent now st sk status) ∪ r) = false).
  { intros r. rewrite progress_sent_matches. apply andb_false_iff.
    destruct (String.eqb_spec st a) as [->|]; [|auto].
    destruct (String.eqb_spec sk b) as [->|]; [|auto]. by destruct Hne. }
  induction l as [|r l IH]; [done|].
  rewrite fmap_cons. cbn [List.filter]. rewrite IH.
  destruct (matches [("student_id", st); ("skill_id", sk)] r) eqn:E; [|done].
  rewrite Hsent.
  destruct (matches [("student_id", a); ("skill_id", b)] r) eqn:E'; [|done].
  destruct Hne. unfold matches in E, E'. cbn [forallb] in E, E'.
  apply andb_prop in E as [E1 [E2 _]%andb_prop].
  apply andb_prop in E' as [E1' [E2' _]%andb_prop].
  apply eq_holds_text in E1 as (v1 & H1 & <-), E1' as (v1' & H1' & <-).
  apply eq_holds_text in E2 as (v2 & H2 & <-), E2' as (v2' & H2' & <-).
  cbn [fst] in *. congruence.
Qed.

End ProgressRows.

Lemma getProgress_run (st : string) (w : World) :
  fst (getProgress st w) =
    match coming w 0 with
    | Served _ =>
        Resolved (progress_of_row <$>
                    List.filter (matches [("student_id", st)]) (table w "student_progress"))
    | Failed e => Rejected (Remote e)
    end.
Proof.
  unfold getProgress. unfold bind at 1. rewrite select_run.
  destruct (coming w 0); simpl; [|done]. by rewrite list_fmap_id.
Qed.

(** X18. When at most one progress row exists for a student and a skill,
    a served updateProgress leaves exactly one, holding the status passed
    and the instant of the call, and getProgress for the student returns
    it. *)
Theorem updateProgress_one_row_latest_status
    (w : World) (now st sk : string) (status : JsVal) :
  is_served (coming w 0) = true ->
  is_served (coming w 1) = true ->
  json_value status ->
  (length (progress_rows w st sk) <= 1)%nat ->
  let w1 := snd (updateProgress now st sk status w) in
  fst (updateProgress now st sk status w) = Resolved tt /\
  (exists row,
     progress_rows w1 st sk = [row] /\
     row !! "status" = Some status /\
     row !! "updated_at" = Some (VStr now)) /\
  (exists ps p,
     fst (getProgress st w1) = Resolved ps /\
     p ∈ ps /\
     Progress.studentId p = VStr st /\
     Progress.skillId p = VStr sk /\
     Progress.status p = status /\
     Progress.lastUpdated p = VStr now).
Proof.
  intros H0 H1 Hj Hle w1. unfold w1. rewrite updateProgress_run.
  destruct (coming w 0) as [gen|]; [|simpl in H0; discriminate H0].
  cbn [fst snd].
  destruct (progress_sent_keys now st sk status) as (Fs & Fk & Fu).
  pose proof (progress_sent_status now st sk status Hj) as Ft.
  set (sent := progress_sent now st sk status) in *.
  assert (Hrow : exists o : Row,
            progress_rows
              (set_tables
                 (<["student_progress" :=
                      match progress_rows w st sk with
                      | [] => (table w "student_progress" ++ [sent ∪ gen])%list
                      | _ => (fun r => if matches [("student_id", st); ("skill_id", sk)] r
                                       then sent ∪ r else r) <$> table w "student_progress"
                      end]> (tables w)) (advance w)) st sk = [sent ∪ o]).
  { unfold progress_rows at 1. rewrite table_insert_same.
    destruct (progress_rows w st sk) as [|r [|? ?]] eqn:E; [| |simpl in Hle; lia].
    - exists gen. rewrite List.filter_app. unfold progress_rows in E. rewrite E.
      cbn [List.filter app]. unfold sent.
      by rewrite progress_sent_matches, !String.eqb_refl.
    - exists r. unfold sent. rewrite filter_overwrite.
      unfold progress_rows in E. by rewrite E. }
  destruct Hrow as [o Hrow]. clearbody sent. split; [done|]. split.
  - exists (sent ∪ o). split; [done|].
    split; by apply lookup_union_Some_l.
  - rewrite getProgress_run.
    change (coming (set_tables ?t ?w') 0) with (coming w' 0).
    rewrite coming_advance.
    destruct (coming w 1); [|simpl in H1; discriminate H1].
    eexists _, (progress_of_row (sent ∪ o)). split; [reflexivity|]. split.
    + apply list_elem_of_fmap. exists (sent ∪ o). split; [done|].
      assert (Hin : sent ∪ o ∈ [sent ∪ o]) by apply list_elem_of_here.
      rewrite <- Hrow in Hin. unfold progress_rows in Hin.
      apply filter_In_bool in Hin as [Hin Hm]. apply filter_In_bool. split; [done|].
      unfold matches in *. cbn [forallb] in *. apply andb_prop in Hm as [-> _]. done.
    + unfold progress_of_row, get.
      cbn [Progress.studentId Progress.skillId Progress.status Progress.lastUpdated].
      by rewrite (lookup_union_Some_l _ _ _ _ Fs), (lookup_union_Some_l _ _ _ _ Fk),
        (lookup_union_Some_l _ _ _ _ Ft), (lookup_union_Some_l _ _ _ _ Fu).
Qed.

(** In the studio, where Ann has a row for the skill: the row is
    overwritten, with its id, and no row is added. *)
Lemma updateProgress_one_row_latest_status_witness :
  is_served (coming studio_with_progress 0) = true /\
  is_served (coming studio_with_progress 1) = true /\
  progress_rows studio_with_progress "u1" "k1" = [ann_learning] /\
  (length (progress_rows studio_with_progress "u1" "k1") <= 1)%nat /\
  let w1 := snd (updateProgress "2024-05-06T10:00:00.000Z" "u1" "k1" (VStr "mastered")
                   studio_with_progress) in
  length (table w1 "student_progress") = length (table studio_with_progress "student_progress") /\
  progress_rows w1 "u1" "k1"
  = [<["status" := VStr "mastered"]>
       (<["updated_at" := VStr "2024-05-06T10:00:00.000Z"]> ann_learning)] /\
  fst (updateProgress "2024-05-06T10:00:00.000Z" "u1" "k1" (VStr "mastered")
         studio_with_progress) = Resolved tt /\
  (exists row,
     progress_rows w1 "u1" "k1" = [row] /\
     row !! "status" = Some (VStr "mastered") /\
     row !! "updated_at" = Some (VStr "2024-05-06T10:00:00.000Z")) /\
  (exists ps p,
     fst (getProgress "u1" w1) = Resolved ps /\
     p ∈ ps /\
     Progress.studentId p = VStr "u1" /\
     Progress.skillId p = VStr "k1" /\
     Progress.status p = VStr "mastered" /\
     Progress.lastUpdated p = VStr "2024-05-06T10:00:00.000Z").
Proof.
  do 3 (split; [reflexivity|]).
  assert (L : (length (progress_rows studio_with_progress "u1" "k1") <= 1)%nat)
    by (vm_compute; lia).
  split; [exact L|]. split; [reflexivity|]. split; [reflexivity|].
  exact (updateProgress_one_row_latest_status studio_with_progress
           "2024-05-06T10:00:00.000Z" "u1" "k1" (VStr "mastered")
           eq_refl eq_refl (json_value_text _) L).
Defined.

(** X19. Whatever the reply, updateProgress leaves the progress rows of
    every other pair of student and skill as they were. *)
Theorem updateProgress_leaves_other_pairs
    (w : World) (now st sk : string) (status : JsVal) (st' sk' : string) :
  (st, sk) <> (st', sk') ->
  progress_rows (snd (updateProgress now st sk status w)) st' sk'
  = progress_rows w st' sk'.
Proof.
  intros Hne. rewrite updateProgress_run.
  destruct (coming w 0) as [gen|]; cbn [snd].
  - unfold progress_rows at 1. rewrite table_insert_same.
    destruct (progress_rows w st sk).
    + rewrite List.filter_app. cbn [List.filter].
      rewrite progress_sent_matches.
      replace (String.eqb st st' && String.eqb sk sk')%bool with false.
      * by rewrite app_nil_r.
      * symmetry. apply andb_false_iff.
        destruct (String.eqb_spec st st') as [->|]; [|auto].
        destruct (String.eqb_spec sk sk') as [->|]; [|auto]. by destruct Hne.
    + by apply filter_overwrite_other.
  - unfold progress_rows. by rewrite table_advance.
Qed.

(** In the studio with progress rows: overwriting Ann's row for one
    skill leaves her row for the other skill, and Bob's row for the same
    skill, as they were. *)
Lemma updateProgress_leaves_other_pairs_witness :
  ("u1", "k1") <> ("u1", "k2") /\
  ("u1", "k1") <> ("u2", "k1") /\
  progress_rows studio_with_progress "u1" "k1" = [ann_learning] /\
  progress_rows studio_with_progress "u1" "k2" = [ann_other_skill] /\
  progress_rows studio_with_progress "u2" "k1" = [bob_learning] /\
  progress_rows (snd (updateProgress "2024-05-06T10:00:00.000Z" "u1" "k1"
                        (VStr "mastered") studio_with_progress)) "u1" "k2"
  = progress_rows studio_with_progress "u1" "k2" /\
  progress_rows (snd (updateProgress "2024-05-06T10:00:00.000Z" "u1" "k1"
                        (VStr "mastered") studio_with_progress)) "u2" "k1"
  = progress_rows studio_with_progress "u2" "k1".
Proof.
  split; [discriminate|]. split; [discriminate|]. do 3 (split; [reflexivity|]).
  split.
  - apply (updateProgress_leaves_other_pairs studio_with_progress
             "2024-05-06T10:00:00.000Z" "u1" "k1" (VStr "mastered") "u1" "k2").
    discriminate.
  - apply (updateProgress_leaves_other_pairs studio_with_progress
             "2024-05-06T10:00:00.000Z" "u1" "k1" (VStr "mastered") "u2" "k1").
    discriminate.
Defined.

(** ** Settings *)

Section SettingsRows.

Variables (k : string) (v : JsVal).
Hypothesis Hk : setting_key k.
Hypothesis Hv : json_value v.

Lemma collect_settings_fold (rows : list Row) :
  collect_settings rows = fold_left assign_setting rows ∅.
Proof. reflexivity. Qed.

Lemma setting_sent_lookup : (setting_sent k v) !! "key" = Some (VStr k) /\ (setting_sent k v) !! "value" = Some v.
Proof. split; by apply to_json_lookup_Some. Qed.

Lemma setting_clashes (r : Row) :
  clashes (columns_of "key") (setting_sent k v) r = eq_holds r ("key", k).
Proof.
  change (columns_of "key") with ["key"].
  destruct setting_sent_lookup as [Hs _].
  unfold clashes. cbn [forallb]. rewrite Hs. cbn [ToString]. apply andb_true_r.
Qed.

Lemma step_sent (acc o : Row) : assign_setting acc ((setting_sent k v) ∪ o) = <[k := v]> acc.
Proof.
  destruct setting_sent_lookup as [Hs Hval]. destruct Hk as (Hp & _).
  unfold assign_setting, get.
  rewrite (lookup_union_Some_l _ _ _ _ Hs), (lookup_union_Some_l _ _ _ _ Hval).
  cbn [default from_option id ToString].
  destruct (String.eqb_spec k "__proto__") as [E|_]; [by destruct Hp | reflexivity].
Qed.

Lemma step_clash (acc r : Row) :
  eq_holds r ("key", k) = true -> <[k := v]> (assign_setting acc r) = <[k := v]> acc.
Proof.
  intros (x & Hx & Hxk)%eq_holds_text. destruct Hk as (Hp & _).
  cbn [fst] in Hx.
  assert (Hget : get r "key" = x) by (unfold get; by rewrite Hx).
  unfold assign_setting. rewrite Hget, Hxk. destruct (String.eqb_spec k "__proto__") as [E|_]; [by destruct Hp|].
  apply insert_insert_eq.
Qed.

Lemma step_other (acc r : Row) :
  eq_holds r ("key", k) = false -> assign_setting (<[k := v]> acc) r = <[k := v]> (assign_setting acc r).
Proof.
  intros Hne. destruct Hk as (_ & Hnull & Hundef).
  assert (Hkey : ToString (get r "key") <> k).
  { unfold eq_holds in Hne. cbn [fst snd] in Hne. unfold get.
    destruct (r !! "key") as [x|]; cbn [default from_option id ToString]; [|done].
    destruct x; cbn [ToString]; try done;
      by apply String.eqb_neq in Hne. }
  unfold assign_setting. destruct (String.eqb _ "__proto__"); [reflexivity|].
  apply insert_insert_ne. congruence.
Qed.

Lemma collect_overwritten (rows : list Row) (acc : Row) :
  fold_left assign_setting ((fun r => if eq_holds r ("key", k) then (setting_sent k v) ∪ r else r) <$> rows)
    (<[k := v]> acc)
  = <[k := v]> (fold_left assign_setting rows acc).
Proof.
  revert acc. induction rows as [|r rows IH]; intros acc; [done|].
  rewrite fmap_cons. cbn [fold_left].
  destruct (eq_holds r ("key", k)) eqn:E.
  - rewrite step_sent, insert_insert_eq, <- (step_clash acc r E). apply IH.
  - rewrite (step_other acc r E). apply IH.
Qed.

Lemma collect_upserted (rows : list Row) (gen : Row) :
  collect_settings
    (if existsb (clashes (columns_of "key") (setting_sent k v)) rows
     then (fun r => if clashes (columns_of "key") (setting_sent k v) r then (setting_sent k v) ∪ r else r) <$> rows
     else (rows ++ [(setting_sent k v) ∪ gen])%list)
  = <[k := v]> (collect_settings rows).
Proof.
  rewrite !collect_settings_fold. fold (setting_sent k v).
  destruct (existsb _ rows) eqn:E.
  - rewrite (list_fmap_ext _ (fun r => if eq_holds r ("key", k) then (setting_sent k v) ∪ r else r) rows)
      by (intros; by rewrite setting_clashes).
    rewrite (existsb_same _ _ _ setting_clashes) in E.
    generalize (∅ : Row). induction rows as [|r rows IH]; intros acc; [done|].
    rewrite fmap_cons. cbn [fold_left]. cbn [existsb] in E.
    destruct (eq_holds r ("key", k)) eqn:Er.
    + rewrite step_sent, <- (step_clash acc r Er). apply collect_overwritten.
    + by apply IH.
  - rewrite fold_left_app. cbn [fold_left]. apply step_sent.
Qed.

End SettingsRows.

Lemma getSettings_run (w : World) :
  fst (getSettings w) =
    match coming w 0 with
    | Served _ =>
        Resolved (settings_read (get (settings_object w) "pool_capacity")
                    (get (settings_object w) "cancellation_hours")
                    (get (settings_object w) "maintenance_mode")
                    (get (settings_object w) "contact_email"))
    | Failed e => Rejected (Remote e)
    end.
Proof.
  unfold getSettings. unfold bind at 1. rewrite select_run.
  destruct (coming w 0); [|done].
  unfold bind. cbn [throw_if_error error ret deref data fst].
  by rewrite filter_all, list_fmap_id.
Qed.

(** One write of [saveSettings]. *)
Lemma save_one (w : World) (k : string) (v : JsVal) :
  setting_key k -> json_value v ->
  exists w',
    bind (upsert "settings" (obj [("key", VStr k); ("value", v)]) "key")
      (fun r => throw_if_error r) w =
      (match coming w 0 with
       | Served _ => Resolved tt
       | Failed e => Rejected (Remote e)
       end, w') /\
    settings_object w' = match coming w 0 with
                         | Served _ => <[k := v]> (settings_object w)
                         | Failed _ => settings_object w
                         end /\
    (forall n, coming w' n = coming w (S n)).
Proof.
  intros Hk Hv. unfold bind. rewrite upsert_run.
  destruct (coming w 0) as [gen|e]; cbn [throw_if_error error ret throw];
    eexists; (split; [reflexivity|]); split.
  - unfold settings_object. rewrite table_insert_same.
    apply (collect_upserted k v Hk Hv).
  - intros n. apply coming_advance.
  - unfold settings_object. by rewrite table_advance.
  - intros n. apply coming_advance.
Qed.

Lemma setting_keys :
  setting_key "pool_capacity" /\ setting_key "cancellation_hours" /\
  setting_key "maintenance_mode" /\ setting_key "contact_email".
Proof. by repeat split. Qed.

(** A save whose four writes are served. *)
Lemma saveSettings_served (w : World) (settings : Row) :
  (forall n, (n < 4)%nat -> is_served (coming w n) = true) ->
  json_value (get settings "poolCapacity") ->
  json_value (get settings "cancellationHours") ->
  json_value (get settings "maintenanceMode") ->
  json_value (get settings "contactEmail") ->
  exists w4,
    saveSettings settings w = (Resolved tt, w4) /\
    settings_object w4 =
      <["contact_email" := get settings "contactEmail"]>
        (<["maintenance_mode" := get settings "maintenanceMode"]>
           (<["cancellation_hours" := get settings "cancellationHours"]>
              (<["pool_capacity" := get settings "poolCapacity"]> (settings_object w)))) /\
    (forall n, coming w4 n = coming w (4 + n)).
Proof.
  intros Hs J1 J2 J3 J4.
  destruct setting_keys as (K1 & K2 & K3 & K4).
  unfold saveSettings. cbn [for_of]. cbv beta.
  destruct (save_one w _ _ K1 J1) as (w1 & E1 & O1 & C1).
  unfold bind at 1. rewrite E1.
  pose proof (Hs 0%nat ltac:(lia)) as S0. destruct (coming w 0); [|discriminate S0].
  destruct (save_one w1 _ _ K2 J2) as (w2 & E2 & O2 & C2).
  unfold bind at 1. rewrite E2.
  pose proof (Hs 1%nat ltac:(lia)) as S1. rewrite <- C1 in S1.
  destruct (coming w1 0); [|discriminate S1].
  destruct (save_one w2 _ _ K3 J3) as (w3 & E3 & O3 & C3).
  unfold bind at 1. rewrite E3.
  pose proof (Hs 2%nat ltac:(lia)) as S2. rewrite <- C1, <- C2 in S2.
  destruct (coming w2 0); [|discriminate S2].
  destruct (save_one w3 _ _ K4 J4) as (w4 & E4 & O4 & C4).
  unfold bind at 1. rewrite E4.
  pose proof (Hs 3%nat ltac:(lia)) as S3. rewrite <- C1, <- C2, <- C3 in S3.
  destruct (coming w3 0); [|discriminate S3].
  exists w4. split; [done|]. split.
  - by rewrite O4, O3, O2, O1.
  - intros n. by rewrite C4, C3, C2, C1.
Qed.

(** What is read after a save that went through. *)
Lemma saveSettings_read_back (w : World) (settings : Row) :
  reliable w ->
  json_value (get settings "poolCapacity") ->
  json_value (get settings "cancellationHours") ->
  json_value (get settings "maintenanceMode") ->
  json_value (get settings "contactEmail") ->
  fst (saveSettings settings w) = Resolved tt /\
  fst (getSettings (snd (saveSettings settings w))) =
    Resolved (settings_read (get settings "poolCapacity")
                (get settings "cancellationHours")
                (get settings "maintenanceMode")
                (get settings "contactEmail")).
Proof.
  intros Hr J1 J2 J3 J4.
  destruct (saveSettings_served w settings) as (w4 & -> & O & C); try done.
  { intros n _. by apply reliable_coming. }
  cbn [fst snd]. split; [done|].
  rewrite getSettings_run, C.
  pose proof (reliable_coming w (4 + 0) Hr) as S4.
  destruct (coming w (4 + 0)); [|discriminate S4].
  rewrite O. f_equal.
  assert (Hget : forall (o : Row) (k1 k2 : string) (x : JsVal),
            get (<[k1 := x]> o) k2 = if decide (k1 = k2) then x else get o k2).
  { intros o k1 k2 x. unfold get. rewrite lookup_insert. by case_decide. }
  rewrite !Hget. by repeat case_decide.
Qed.

Lemma remove_char_absent (c : ascii) (s : string) :
  has_char c s = false -> remove_char c s = s.
Proof.
  induction s as [|a s IH]; simpl; [done|].
  intros [-> Hs]%orb_false_elim. by rewrite IH.
Qed.

(** X20. With a reliable backend, settings saved with a non-zero
    capacity, non-zero hours, a boolean maintenance flag and a non-empty
    email without quote characters are read back by getSettings exactly
    as saved. *)
Theorem saveSettings_then_getSettings
    (w : World) (settings : Row) (capacity hours : Z) (maintenance : bool)
    (email : string) :
  reliable w ->
  get settings "poolCapacity" = VNum (Int capacity) -> capacity <> 0 ->
  get settings "cancellationHours" = VNum (Int hours) -> hours <> 0 ->
  get settings "maintenanceMode" = VBool maintenance ->
  get settings "contactEmail" = VStr email ->
  email <> EmptyString -> has_char quote_char email = false ->
  fst (saveSettings settings w) = Resolved tt /\
  fst (getSettings (snd (saveSettings settings w))) =
    Resolved {| Settings.poolCapacity := VNum (Int capacity);
                Settings.cancellationHours := VNum (Int hours);
                Settings.maintenanceMode := VBool maintenance;
                Settings.contactEmail := VStr email |}.
Proof.
  intros Hr Hc Hc0 Hh Hh0 Hm He He0 Hq.
  destruct (saveSettings_read_back w settings Hr) as [Hsave Hread];
    rewrite ?Hc, ?Hh, ?Hm, ?He; try (by split).
  split; [done|]. rewrite Hread, Hc, Hh, Hm, He. f_equal.
  unfold settings_read, logical_or, Number, Boolean. cbn [ToNumber ToBoolean ToString].
  apply Z.eqb_neq in Hc0, Hh0. rewrite Hc0, Hh0. cbn [negb].
  apply String.eqb_neq in He0. rewrite He0. cbn [negb ToString].
  rewrite (remove_char_absent _ _ Hq). by destruct maintenance.
Qed.

Lemma saveSettings_then_getSettings_witness :
  reliable studio /\
  get sample_settings "poolCapacity" = VNum (Int 30) /\
  get sample_settings "cancellationHours" = VNum (Int 12) /\
  get sample_settings "maintenanceMode" = VBool true /\
  get sample_settings "contactEmail" = VStr "desk@example.com" /\
  has_char quote_char "desk@example.com" = false /\
  fst (saveSettings sample_settings studio) = Resolved tt /\
  fst (getSettings (snd (saveSettings sample_settings studio))) =
    Resolved {| Settings.poolCapacity := VNum (Int 30);
                Settings.cancellationHours := VNum (Int 12);
                Settings.maintenanceMode := VBool true;
                Settings.contactEmail := VStr "desk@example.com" |}.
Proof.
  do 6 (split; [reflexivity|]).
  apply (saveSettings_then_getSettings studio sample_settings 30 12 true "desk@example.com");
    first [reflexivity | discriminate | lia].
Defined.



(** A capacity saved as the text 1e3 and hours saved as the text 12.0 are
    no zeros: they are read back as the numbers 1000 and 12. *)
Example saveSettings_numeric_texts_read_as_numbers :
  ToBoolean (Number (get text_settings "poolCapacity")) = true /\
  ToBoolean (Number (get text_settings "cancellationHours")) = true /\
  fst (getSettings (snd (saveSettings text_settings studio))) =
    Resolved {| Settings.poolCapacity := VNum (Int 1000);
                Settings.cancellationHours := VNum (Int 12);
                Settings.maintenanceMode := VBool false;
                Settings.contactEmail := VStr "desk@example.com" |}.
Proof. vm_compute. repeat split. Qed.

(** X22. saveSettings is not atomic: when its first write is served and
    its second fails, the failure is raised, the capacity is already
    saved and the other settings are as before. *)
Theorem saveSettings_is_not_atomic (w : World) (settings : Row) (gen : Row) (e : PgError) :
  coming w 0 = Served gen ->
  coming w 1 = Failed e ->
  json_value (get settings "poolCapacity") ->
  json_value (get settings "cancellationHours") ->
  fst (saveSettings settings w) = Rejected (Remote e) /\
  settings_object (snd (saveSettings settings w))
  = <["pool_capacity" := get settings "poolCapacity"]> (settings_object w).
Proof.
  intros H0 H1 J1 J2.
  destruct setting_keys as (K1 & K2 & _).
  destruct (save_one w _ _ K1 J1) as (w1 & E1 & O1 & C1).
  destruct (save_one w1 _ _ K2 J2) as (w2 & E2 & O2 & C2).
  rewrite H0 in E1, O1. rewrite C1, H1 in E2, O2.
  assert (Hrun : saveSettings settings w = (Rejected (Remote e), w2)).
  { unfold saveSettings. cbn [for_of]. cbv beta.
    unfold bind at 1. rewrite E1.
    unfold bind at 1. by rewrite E2. }
  rewrite Hrun. cbn [fst snd]. split; [done|]. by rewrite O2, O1.
Qed.

Lemma saveSettings_is_not_atomic_witness :
  coming studio_failing_second 0 = Served ∅ /\
  coming studio_failing_second 1 = Failed network_down /\
  fst (saveSettings sample_settings studio_failing_second) = Rejected (Remote network_down) /\
  settings_object (snd (saveSettings sample_settings studio_failing_second))
  = <["pool_capacity" := get sample_settings "poolCapacity"]>
      (settings_object studio_failing_second).
Proof.
  do 2 (split; [reflexivity|]).
  apply (saveSettings_is_not_atomic studio_failing_second sample_settings ∅ network_down);
    first [reflexivity | by split].
Defined.
